(** * JRA data analysis: query cache, analytical queries, feature utilities

    A shallow embedding of [src/data/database.py], [src/data/extraction.py]
    and [src/features/base_features.py], and the statements of the
    specification settled against it.

    Definitions:
    - [Py]         : the Python values the functions receive, their truth
                     value and their f-string text, and the error monad.
    - [Database]   : [execute_query] and [query_with_cache] over an explicit
                     world (files on disk, log of executed queries); what
                     the database answers and what file a path leads to
                     are parameters.
    - [Sql]        : the meaning of the SQL text of the analytical queries
                     over joined rows (casts, WHERE, GROUP BY, aggregates).
    - [Extraction] : the query builders of [extraction.py].
    - [Features]   : the utilities of [base_features.py], on binary64;
                     what [float] makes of a text is a parameter.
    - [Extractor]  : the cache methods of [BaseFeatureExtractor].
    - [Script]     : the seven blocks of
                     [scripts/02_analyze_race_data.py], each a cached
                     query and a saved figure.
    - [Placeholders] : the [:name] parameters of a statement text.
    - [Samples], [Cases] : the rows, engines and machine the examples run
                     on.
    - [Views]      : names for parts of the above that statements use.

    Properties: [TextFacts] (text lemmas), [CacheStore], [QueryBuilders],
    [Aggregates], [FeatureUtilities]; then [CacheFiles],
    [ExtractorCache], [BuilderKeys], [BoundNames], [StatementRows],
    [StatementColumns], [StatementSources], [StatementShape],
    [PreviousRaces], [FeatureIdentifiers], [FeatureFrames],
    [AnalysisScript], [FailedStatements], [QueryRows]. *)

From Stdlib Require Import ZArith QArith Qround Ascii String Floats Lia Lqa
  Sorted.
From stdpp Require Import base option list strings gmap pretty.

Local Open Scope Z_scope.

(* ===================================================================== *)
(** ** Python values and errors *)
(* ===================================================================== *)

Module Py.

(** The scalars that reach the modelled functions as arguments or as
    cells of a row fetched from the database: [None], booleans, integers
    and text. Other Python values (bytes, lists, tuples) are not among
    them. *)
Inductive value :=
| VNone
| VBool (b : bool)
| VInt (z : Z)
| VStr (s : string).

(** [bool(v)], as used by [if v:] and by [x if v else y]. *)
Definition truthy (v : value) : bool :=
  match v with
  | VNone => false
  | VBool b => b
  | VInt z => negb (z =? 0)
  | VStr s => negb (String.eqb s "")
  end.

(** The text an f-string replacement field [{v}] produces. *)
Definition str (v : value) : string :=
  match v with
  | VNone => "None"
  | VBool true => "True"
  | VBool false => "False"
  | VInt z => pretty z
  | VStr s => s
  end.

(** Error kinds: the taxonomy of the specification, and the Python
    exceptions the modelled code can raise. *)
Inductive error :=
| QueryError (msg : string)
| DeserializationError
| DegenerateRangeError
| ValidationError
| KeyError (key : string)
| TypeError
| ValueError
| OverflowError
| OSError.

Inductive result (A : Type) :=
| Ok (a : A)
| Err (e : error).
Arguments Ok {A} a.
Arguments Err {A} e.

#[global] Instance result_ret : MRet result := @Ok.
#[global] Instance result_bind : MBind result := fun A B k r =>
  match r with
  | Ok a => k a
  | Err e => Err e
  end.

(** [mapM] in the error monad: the first error, left to right, wins. *)
Fixpoint traverse {A B} (f : A -> result B) (l : list A) : result (list B) :=
  match l with
  | [] => Ok []
  | x :: l' =>
      y ← f x; ys ← traverse f l'; Ok (y :: ys)
  end.

(** A row of a result table: column name to cell. *)
Abbreviation Series := (gmap string value).
(** A result table: its rows in order. *)
Abbreviation DataFrame := (list (gmap string value)).

(** [row[key]] *)
Definition getitem (row : Series) (key : string) : result value :=
  match row !! key with
  | Some v => Ok v
  | None => Err (KeyError key)
  end.

End Py.

Export Py.

(* ===================================================================== *)
(** ** database.py *)
(* ===================================================================== *)

Module Database.

(** What a file holds: a table written by [to_pickle], or bytes
    [read_pickle] cannot load (a damaged pickle, a figure). *)
Inductive file :=
| Pickled (df : DataFrame)
| Unreadable.

(** The part of the machine the module acts on: the files, each under
    the name its paths resolve to, and the statements sent to the
    database so far, oldest first. *)
Record world := World {
  files : gmap string file;
  executed : list (string * gmap string value)
}.

(** [os.path.join(a, b)] for two POSIX components. *)
Definition path_join (a b : string) : string :=
  if String.prefix "/" b then b
  else if String.eqb a "" then b
  else if String.eqb (String.substring (String.length a - 1) 1 a) "/"
       then a +:+ b
       else a +:+ "/" +:+ b.

Section WithEngine.

(** The database behind [get_engine()]: what a statement returns under
    a binding of its named placeholders. *)
Variable engine : string -> gmap string value -> result DataFrame.
(** [os.path.dirname(__file__)] of [database.py]. *)
Variable here : string.
(** What the operating system makes of a path, with the cache directory
    in place ([os.makedirs(cache_dir, exist_ok=True)] has run): the file
    the path names, or nothing when a directory on the way is missing.
    Two paths name one file when they resolve alike, as [a] and [./a] do;
    the files of a [world] are kept under what their paths resolve to. *)
Variable locate : string -> option string.

(** [if params:] sends the binding, otherwise the bare statement; a
    missing and an empty binding are the same to the engine. *)
Definition bound (params : option (gmap string value)) : gmap string value :=
  match params with
  | Some p => p
  | None => ∅
  end.

Definition execute_query (query : string)
    (params : option (gmap string value)) (w : world)
  : result DataFrame * world :=
  (engine query (bound params),
   World (files w) (executed w ++ [(query, bound params)])).

Definition cache_dir : string := path_join here "../../data/cache".

Definition cache_path (cache_name : string) : string :=
  path_join cache_dir (cache_name +:+ ".pkl").

(** What is kept at a path: nothing where the path leads nowhere. *)
Definition kept (path : string) (w : world) : option file :=
  f ← locate path; files w !! f.

(** [os.path.exists(path)] *)
Definition exists_ (path : string) (w : world) : bool :=
  bool_decide (is_Some (kept path w)).

(** [pd.read_pickle(path)] *)
Definition read_pickle (path : string) (w : world) : result DataFrame :=
  match kept path w with
  | Some (Pickled df) => Ok df
  | Some Unreadable => Err DeserializationError
  | None => Err OSError
  end.

(** [df.to_pickle(path)]: the file is written, or replaced, where the
    path leads; where a directory on the way is missing nothing is
    written and the failed [open] raises ([FileNotFoundError], an
    [OSError]). *)
Definition to_pickle (df : DataFrame) (path : string) (w : world)
  : result unit * world :=
  match locate path with
  | Some f => (Ok tt, World (<[f := Pickled df]> (files w)) (executed w))
  | None => (Err OSError, w)
  end.

(** Defaults: [force_refresh=False], [params=None]. The two progress
    messages leave the modelled world as it is. *)
Definition query_with_cache (query cache_name : string)
    (force_refresh : bool) (params : option (gmap string value))
    (w : world) : result DataFrame * world :=
  let cache_path := cache_path cache_name in
  if negb force_refresh && exists_ cache_path w then
    (read_pickle cache_path w, w)
  else
    let '(r, w1) := execute_query query params w in
    match r with
    | Ok df =>
        let '(written, w2) := to_pickle df cache_path w1 in
        match written with
        | Ok _ => (Ok df, w2)
        | Err e => (Err e, w2)
        end
    | Err e => (Err e, w1)
    end.

End WithEngine.

(** An engine that answers every statement with the empty table. *)
Definition empty_engine (_ : string) (_ : gmap string value) : result DataFrame :=
  Ok [].

End Database.

(* ===================================================================== *)
(** ** The SQL of extraction.py, read over joined rows *)
(* ===================================================================== *)

Module Sql.

(** *** Text and number primitives of the engine *)

Definition chars (s : string) : list ascii := list_ascii_of_string s.

Definition is_digit (c : ascii) : bool :=
  let n := Z.of_N (N_of_ascii c) in (48 <=? n) && (n <=? 57).

(** [s ~ '^[0-9]+$'] *)
Definition digits_only (s : string) : bool :=
  match chars s with
  | [] => false
  | cs => forallb is_digit cs
  end.

Definition digit_value (c : ascii) : Z := Z.of_N (N_of_ascii c) - 48.

Definition decimal (cs : list ascii) : Z :=
  fold_left (fun acc c => 10 * acc + digit_value c) cs 0.

Fixpoint drop_blanks (cs : list ascii) : list ascii :=
  match cs with
  | c :: cs' => if Ascii.is_space c then drop_blanks cs' else cs
  | [] => []
  end.

Definition strip (cs : list ascii) : list ascii :=
  rev (drop_blanks (rev (drop_blanks cs))).

(** Sign and magnitude of a literal: an optional [+] or [-], then the
    rest. *)
Definition signed (cs : list ascii) : bool * list ascii :=
  match cs with
  | "-"%char :: rest => (true, rest)
  | "+"%char :: rest => (false, rest)
  | _ => (false, cs)
  end.

Definition syntax_error (type text : string) : error :=
  QueryError ("invalid input syntax for type " +:+ type +:+ ": " +:+ text).

(** [CAST(s AS INTEGER)]: blanks around, a sign, decimal digits; 32-bit
    range. Other spellings some engine versions read (hexadecimal, digit
    separators) are rejected here. *)
Definition cast_integer (s : string) : result Z :=
  let '(neg, body) := signed (strip (chars s)) in
  match body with
  | [] => Err (syntax_error "integer" s)
  | _ =>
      if forallb is_digit body then
        let z := if neg then - decimal body else decimal body in
        if (-2147483648 <=? z) && (z <=? 2147483647) then Ok z
        else Err (QueryError "value out of range for type integer")
      else Err (syntax_error "integer" s)
  end.

(** Split at the first decimal point. *)
Fixpoint split_point (cs : list ascii) : list ascii * option (list ascii) :=
  match cs with
  | [] => ([], None)
  | "."%char :: rest => ([], Some rest)
  | c :: rest => let '(i, f) := split_point rest in (c :: i, f)
  end.

(** [CAST(s AS NUMERIC)]: blanks around, a sign, digits with an optional
    fractional part. Exponents and the special values are rejected
    here. NUMERIC values are exact decimals, held as rationals. *)
Definition cast_numeric (s : string) : result Q :=
  let '(neg, body) := signed (strip (chars s)) in
  let '(int, frac) := split_point body in
  let frac := default [] frac in
  match int ++ frac with
  | [] => Err (syntax_error "numeric" s)
  | ds =>
      if forallb is_digit ds then
        let q := Qmake (decimal ds) (Z.to_pos (10 ^ Z.of_nat (length frac))) in
        Ok (if neg then Qopp q else q)
      else Err (syntax_error "numeric" s)
  end.

(** [ROUND(q, 0)] on NUMERIC: to the nearest integer, ties away from
    zero. *)
Definition round_half_away (q : Q) : Z :=
  if Qle_bool 0 q then Qfloor (q + (1 # 2))%Q else - Qfloor (- q + (1 # 2))%Q.

(** [ROUND(q, 2)] *)
Definition round2 (q : Q) : Q := Qred (round_half_away (q * 100)%Q # 100).

(** [a / b] on NUMERIC. The engine keeps at least sixteen significant
    digits of a quotient; the model keeps it exact. *)
Definition divide (a b : Q) : result Q :=
  if Qeq_bool b 0 then Err (QueryError "division by zero") else Ok (a / b)%Q.

Definition sum (l : list Q) : Q := fold_left Qplus l 0%Q.

(** [SUBSTRING(s, 1, 1)] *)
Definition first_char (s : string) : string := String.substring 0 1 s.

Fixpoint drop_spaces (cs : list ascii) : list ascii :=
  match cs with
  | " "%char :: cs' => drop_spaces cs'
  | _ => cs
  end.

(** [TRIM(s)] *)
Definition trim (s : string) : string :=
  string_of_list_ascii (rev (drop_spaces (rev (drop_spaces (chars s))))).

(** *** Rows of the FROM clause

    One row of [jvd_se s] joined to its race [jvd_ra r] (and, in the
    sire query, to its horse [jvd_um u]): the columns the statements
    read, as the text the tables store (a NULL cell has no counterpart
    here). The join columns are carried once, under [s]. *)
Record entry := Entry {
  s_kaisai_nen : string;
  s_kaisai_tsukihi : string;
  s_keibajo_code : string;
  s_race_bango : string;
  s_ketto_toroku_bango : string;
  s_kishu_code : string;
  s_chokyoshi_code : string;
  s_bataiju : string;
  s_zogen_fugo : string;
  s_zogen_sa : string;
  s_kakutei_chakujun : string;
  s_soha_time : string;
  s_kohan_3f : string;
  s_tansho_ninkijun : string;
  s_tansho_odds : string;
  r_kyori : string;
  r_track_code : string;
  r_babajotai_code_shiba : string;
  r_babajotai_code_dirt : string;
  u_ketto_joho_01a : string;
  u_ketto_joho_01b : string
}.

(** [s.kakutei_chakujun ~ '^[0-9]+$' AND
     s.kakutei_chakujun NOT IN ('00', '99')] *)
Definition finished (e : entry) : bool :=
  digits_only (s_kakutei_chakujun e)
  && negb (String.eqb (s_kakutei_chakujun e) "00"
           || String.eqb (s_kakutei_chakujun e) "99").

(** A finishing position in the form the column stores: two digits. *)
Definition two_digit (s : string) : bool :=
  match chars s with
  | [a; b] => is_digit a && is_digit b
  | _ => false
  end.

(** [CASE WHEN SUBSTRING(r.track_code, 1, 1) = '1'
     THEN r.babajotai_code_shiba ELSE r.babajotai_code_dirt END] *)
Definition baba_jotai (e : entry) : string :=
  if String.eqb (first_char (r_track_code e)) "1"
  then r_babajotai_code_shiba e else r_babajotai_code_dirt e.

(** *** Evaluation of a statement *)

(** WHERE: the rows on which the condition is true, in table order; an
    error on any row fails the statement. *)
Fixpoint where_ (cond : entry -> result bool) (table : list entry)
  : result (list entry) :=
  match table with
  | [] => Ok []
  | e :: rest =>
      keep ← cond e;
      rows ← where_ cond rest;
      Ok (if keep : bool then e :: rows else rows)
  end.

(** GROUP BY: one group per distinct key, holding the rows of that key. *)
Definition group_by {K} `{EqDecision K} (keyed : list (K * entry))
  : list (K * list entry) :=
  map (fun k => (k, map snd (List.filter (fun p => bool_decide (fst p = k)) keyed)))
      (remove_dups (map fst keyed)).

(** [COUNT( * )] *)
Definition count (g : list entry) : Z := Z.of_nat (length g).

(** [COUNT( * ) FILTER (WHERE cond)] *)
Definition count_filter (cond : entry -> result bool) (g : list entry)
  : result Z :=
  rows ← where_ cond g; Ok (count rows).

(** [CAST(s.kakutei_chakujun AS INTEGER) = 1] *)
Definition is_win (e : entry) : result bool :=
  c ← cast_integer (s_kakutei_chakujun e); Ok (c =? 1).

(** [CAST(s.kakutei_chakujun AS INTEGER) <= 3] *)
Definition is_top3 (e : entry) : result bool :=
  c ← cast_integer (s_kakutei_chakujun e); Ok (c <=? 3).

(** [CAST(s.tansho_odds AS NUMERIC) / 10.0] *)
Definition win_odds (e : entry) : result Q :=
  o ← cast_numeric (s_tansho_odds e); Ok (o / 10)%Q.

(** [CASE WHEN CAST(s.kakutei_chakujun AS INTEGER) = 1
     THEN CAST(s.tansho_odds AS NUMERIC) / 10.0 ELSE 0 END] *)
Definition payout (e : entry) : result Q :=
  w ← is_win e; if w : bool then win_odds e else Ok 0%Q.

(** [ROUND(k::NUMERIC / COUNT( * ) * 100, 2)] *)
Definition rate (k : Z) (g : list entry) : result Q :=
  q ← divide (inject_Z k) (inject_Z (count g)); Ok (round2 (q * 100)%Q).

(** [COUNT( * ) FILTER (WHERE ... = 1)] *)
Definition wins_of (g : list entry) : result Z := count_filter is_win g.

(** [COUNT( * ) FILTER (WHERE ... <= 3)] *)
Definition top3_of (g : list entry) : result Z := count_filter is_top3 g.

(** [ROUND(COUNT( * ) FILTER (WHERE ... = 1)::NUMERIC / COUNT( * ) * 100, 2)] *)
Definition win_rate_of (g : list entry) : result Q :=
  w ← wins_of g; rate w g.

(** [ROUND(COUNT( * ) FILTER (WHERE ... <= 3)::NUMERIC / COUNT( * ) * 100, 2)] *)
Definition top3_rate_of (g : list entry) : result Q :=
  t ← top3_of g; rate t g.

(** [ROUND(AVG(x), 2)]: NULL over no rows. *)
Definition round_avg (xs : list Q) : option Q :=
  match xs with
  | [] => None
  | _ => Some (round2 (sum xs / inject_Z (Z.of_nat (length xs)))%Q)
  end.

(** [ROUND(AVG(CAST(s.tansho_odds AS NUMERIC) / 10.0)
     FILTER (WHERE ... = 1), 2)] *)
Definition avg_win_odds_of (g : list entry) : result (option Q) :=
  winners ← where_ is_win g;
  odds ← traverse win_odds winners;
  Ok (round_avg odds).

(** [ROUND(SUM(CASE ... END) / COUNT( * ) * 100, 2)] *)
Definition roi_of (g : list entry) : result Q :=
  paid ← traverse payout g;
  q ← divide (sum paid) (inject_Z (count g));
  Ok (round2 (q * 100)%Q).

(** The grade of the outer SELECT of both aggregate statements. *)
Inductive grade := S | A | B | C | D.

(** [CASE WHEN roi >= 200 THEN 'S' WHEN roi >= 100 THEN 'A'
     WHEN roi >= 70 THEN 'B' WHEN roi >= 50 THEN 'C' ELSE 'D' END] *)
Definition roi_rank (roi : Q) : grade :=
  if Qle_bool 200 roi then S
  else if Qle_bool 100 roi then A
  else if Qle_bool 70 roi then B
  else if Qle_bool 50 roi then C
  else D.

(** [ORDER BY roi DESC]: larger first; rows of equal [roi] keep their
    order (the engine promises no order among them). *)
Fixpoint insert_desc {R} (roi : R -> Q) (x : R) (l : list R) : list R :=
  match l with
  | [] => [x]
  | y :: l' =>
      if Qle_bool (roi y) (roi x) then x :: l
      else y :: insert_desc roi x l'
  end.

Definition order_by_desc {R} (roi : R -> Q) (l : list R) : list R :=
  fold_right (insert_desc roi) [] l.

(** *** The statement of [get_jockey_course_stats] *)

Module Jockey.

Record row := Row {
  kishu_code : string;
  keibajo_code : string;
  track_type : string;
  distance_category : string;
  total_races : Z;
  wins : Z;
  top3 : Z;
  win_rate : Q;
  top3_rate : Q;
  avg_win_odds : option Q;
  roi : Q;
  roi_rank : grade
}.

Section Statement.

(** The bindings [:jockey_code], [:years_range], [:min_races], and
    the engine's [EXTRACT(YEAR FROM CURRENT_DATE)]. *)
Variables (jockey_code : string) (years_range min_races : Z).
Variable current_year : Z.

(** The WHERE clause, conjunct by conjunct as written; a false
    conjunct ends the evaluation of the row. The engine may take the
    conjuncts in another order: the rows kept are the same, a failing
    cast may then surface on other rows. *)
Definition condition (e : entry) : result bool :=
  if negb (String.eqb (s_kishu_code e) jockey_code) then Ok false
  else
    year ← cast_integer (s_kaisai_nen e);
    Ok ((current_year - years_range <=? year) && finished e).

Definition category (e : entry) : result string :=
  kyori ← cast_integer (r_kyori e);
  Ok (if kyori <=? 1400 then "短距離"
      else if kyori <=? 2000 then "中距離"
      else "長距離").

Definition group_key (e : entry)
  : result (string * string * string * string * entry) :=
  c ← category e;
  Ok (s_kishu_code e, s_keibajo_code e, first_char (r_track_code e), c, e).

(** The select list of the common table expression over one group,
    with the grade the outer SELECT adds. *)
Definition aggregate (kg : string * string * string * string * list entry)
  : result row :=
  let '(kishu, keibajo, track, dist, g) := kg in
  w ← wins_of g;
  t ← top3_of g;
  wr ← win_rate_of g;
  tr ← top3_rate_of g;
  awo ← avg_win_odds_of g;
  r ← roi_of g;
  Ok (Row kishu keibajo track dist (count g) w t wr tr awo r (Sql.roi_rank r)).

(** [HAVING COUNT( * ) >= :min_races] *)
Definition having (r : row) : bool := min_races <=? total_races r.

Definition select (table : list entry) : result (list row) :=
  rows ← where_ condition table;
  keyed ← traverse group_key rows;
  groups ← traverse aggregate (group_by keyed);
  Ok (order_by_desc roi (List.filter having groups)).

End Statement.

End Jockey.

(** *** The statement of [get_sire_track_condition_stats] *)

Module Sire.

Record row := Row {
  sire_id : string;
  sire_name : string;
  track_type : string;
  track_condition : string;
  horses_count : Z;
  total_races : Z;
  wins : Z;
  win_rate : Q;
  avg_popularity : option Q;
  avg_win_odds : option Q;
  roi : Q;
  roi_rank : grade
}.

Section Statement.

(** [sire_id] is [Some] when the builder added
    [AND u.ketto_joho_01a = :sire_id]. *)
Variable sire : option string.
Variables min_horses min_races : Z.

Definition condition (e : entry) : result bool :=
  Ok (finished e
      && match sire with
         | Some id => String.eqb (u_ketto_joho_01a e) id
         | None => true
         end).

Definition group_key (e : entry)
  : result (string * string * string * string * entry) :=
  Ok (u_ketto_joho_01a e, trim (u_ketto_joho_01b e),
      first_char (r_track_code e), baba_jotai e, e).

(** [CAST(s.tansho_ninkijun AS INTEGER)] as the NUMERIC that AVG sums *)
Definition popularity (e : entry) : result Q :=
  p ← cast_integer (s_tansho_ninkijun e); Ok (inject_Z p).

(** The outer [CASE WHEN track_condition = '1' THEN ... END]. *)
Definition condition_name (code : string) : string :=
  if String.eqb code "1" then "良"
  else if String.eqb code "2" then "稍重"
  else if String.eqb code "3" then "重"
  else if String.eqb code "4" then "不良"
  else code.

Definition aggregate (kg : string * string * string * string * list entry)
  : result row :=
  let '(id, name, track, cond, g) := kg in
  w ← wins_of g;
  wr ← win_rate_of g;
  pops ← traverse popularity g;
  awo ← avg_win_odds_of g;
  r ← roi_of g;
  Ok (Row id name track (condition_name cond)
          (Z.of_nat (length (remove_dups (map s_ketto_toroku_bango g))))
          (count g) w wr (round_avg pops) awo r (Sql.roi_rank r)).

(** [HAVING COUNT(DISTINCT s.ketto_toroku_bango) >= :min_horses
     AND COUNT( * ) >= :min_races] *)
Definition having (r : row) : bool :=
  (min_horses <=? horses_count r) && (min_races <=? total_races r).

Definition select (table : list entry) : result (list row) :=
  rows ← where_ condition table;
  keyed ← traverse group_key rows;
  groups ← traverse aggregate (group_by keyed);
  Ok (order_by_desc roi (List.filter having groups)).

End Statement.

End Sire.

(** *** The statement of [get_horse_previous_races] *)

Module Previous.

Record row := Row {
  race_date : string;
  keibajo_code : string;
  race_bango : string;
  kyori : string;
  track_code : string;
  baba_jotai : string;
  kishu_code : string;
  chokyoshi_code : string;
  bataiju : string;
  zogen_fugo : string;
  zogen_sa : string;
  chakujun : Z;
  time : Z;
  last_3f : Z;
  popularity : Z;
  odds : Q
}.

Section Statement.

Variable horse_id : string.
(** [(:year, :date)] when the builder added the date condition. *)
Variable upto : option (string * string).

(** Text comparison, byte by byte. *)
Definition condition (e : entry) : result bool :=
  Ok (String.eqb (s_ketto_toroku_bango e) horse_id
      && finished e
      && match upto with
         | Some (year, date) =>
             String.ltb (s_kaisai_nen e) year
             || (String.eqb (s_kaisai_nen e) year
                 && String.leb (s_kaisai_tsukihi e) date)
         | None => true
         end).

Definition project (e : entry) : result row :=
  c ← cast_integer (s_kakutei_chakujun e);
  t ← cast_integer (s_soha_time e);
  l ← cast_integer (s_kohan_3f e);
  p ← cast_integer (s_tansho_ninkijun e);
  o ← win_odds e;
  Ok (Row (s_kaisai_nen e +:+ s_kaisai_tsukihi e) (s_keibajo_code e)
          (s_race_bango e) (r_kyori e) (r_track_code e) (Sql.baba_jotai e)
          (s_kishu_code e) (s_chokyoshi_code e) (s_bataiju e)
          (s_zogen_fugo e) (s_zogen_sa e) c t l p o).

(** [ORDER BY s.kaisai_nen, s.kaisai_tsukihi] *)
Definition before (a b : entry) : bool :=
  String.ltb (s_kaisai_nen a) (s_kaisai_nen b)
  || (String.eqb (s_kaisai_nen a) (s_kaisai_nen b)
      && String.leb (s_kaisai_tsukihi a) (s_kaisai_tsukihi b)).

Fixpoint insert_asc (x : entry) (l : list entry) : list entry :=
  match l with
  | [] => [x]
  | y :: l' => if before x y then x :: l else y :: insert_asc x l'
  end.

Definition select (table : list entry) : result (list row) :=
  rows ← where_ condition table;
  traverse project (fold_right insert_asc [] rows).

End Statement.

End Previous.

(** What the sides of a rate comparison read off a row: whether its
    finishing position is the text ["01"], and the number its odds spell
    when they are digits. *)
Definition first_place (e : entry) : bool :=
  String.eqb (s_kakutei_chakujun e) "01".

Definition raw_odds (e : entry) : Z := decimal (chars (s_tansho_odds e)).

(** The cells of a row of [get_race_and_horse_data] that [entry] carries,
    under the names of its select list. *)
Definition race_horse_row (e : entry) : Series :=
  list_to_map
    [("kaisai_nen", VStr (s_kaisai_nen e));
     ("kaisai_tsukihi", VStr (s_kaisai_tsukihi e));
     ("keibajo_code", VStr (s_keibajo_code e));
     ("race_bango", VStr (s_race_bango e));
     ("kyori", VStr (r_kyori e));
     ("track_code", VStr (r_track_code e));
     ("baba_jotai", VStr (baba_jotai e));
     ("ketto_toroku_bango", VStr (s_ketto_toroku_bango e));
     ("kishu_code", VStr (s_kishu_code e));
     ("chokyoshi_code", VStr (s_chokyoshi_code e));
     ("bataiju", VStr (s_bataiju e));
     ("zogen_fugo", VStr (s_zogen_fugo e));
     ("zogen_sa", VStr (s_zogen_sa e));
     ("kakutei_chakujun", VStr (s_kakutei_chakujun e));
     ("soha_time", VStr (s_soha_time e));
     ("kohan_3f", VStr (s_kohan_3f e));
     ("tansho_odds", VStr (s_tansho_odds e));
     ("tansho_ninkijun", VStr (s_tansho_ninkijun e));
     ("chichiuma_id", VStr (u_ketto_joho_01a e));
     ("chichiuma_name", VStr (trim (u_ketto_joho_01b e)))].

End Sql.

(* ===================================================================== *)
(** ** extraction.py *)
(* ===================================================================== *)

Module Extraction.

Import Database.

(** *** The statement texts, as the f-strings build them *)

(** [query] of [get_race_base_info]. *)
Definition race_base_query (limit_clause : string) : string :=
  "
    SELECT 
        kaisai_nen, 
        kaisai_tsukihi, 
        keibajo_code, 
        race_bango,
        kyori, 
        track_code, 
        tenko_code, 
        CASE 
            WHEN SUBSTRING(track_code, 1, 1) = '1' THEN babajotai_code_shiba 
            ELSE babajotai_code_dirt 
        END as baba_jotai,
        shusso_tosu
    FROM jvd_ra
    WHERE kaisai_nen BETWEEN :start_year AND :end_year
    ORDER BY kaisai_nen, kaisai_tsukihi, keibajo_code, race_bango
    "
  +:+ limit_clause +:+ "
    ".

(** [query] of [get_race_and_horse_data]. *)
Definition race_horse_query (limit_clause : string) : string :=
  "
    SELECT 
        r.kaisai_nen, 
        r.kaisai_tsukihi, 
        r.keibajo_code, 
        r.race_bango,
        r.kyori, 
        r.track_code, 
        r.tenko_code, 
        CASE 
            WHEN SUBSTRING(r.track_code, 1, 1) = '1' THEN r.babajotai_code_shiba 
            ELSE r.babajotai_code_dirt 
        END as baba_jotai,
        r.shusso_tosu, 
        s.ketto_toroku_bango, 
        TRIM(s.bamei) AS bamei, 
        s.wakuban, 
        s.umaban,
        s.kishu_code, 
        TRIM(s.kishumei_ryakusho) AS kishumei_ryakusho, 
        s.chokyoshi_code, 
        TRIM(s.chokyoshimei_ryakusho) AS chokyoshimei_ryakusho,
        s.barei, 
        s.seibetsu_code, 
        s.bataiju, 
        s.zogen_fugo, 
        s.zogen_sa,
        s.blinker_shiyo_kubun, 
        s.kakutei_chakujun, 
        s.soha_time, 
        s.kohan_3f,
        s.tansho_odds, 
        s.tansho_ninkijun,
        u.seinengappi,
        u.ketto_joho_01a as chichiuma_id, 
        TRIM(u.ketto_joho_01b) as chichiuma_name,
        u.ketto_joho_02a as hahauma_id, 
        TRIM(u.ketto_joho_02b) as hahauma_name
    FROM jvd_ra r
    JOIN jvd_se s ON r.kaisai_nen = s.kaisai_nen 
                   AND r.kaisai_tsukihi = s.kaisai_tsukihi
                   AND r.keibajo_code = s.keibajo_code
                   AND r.race_bango = s.race_bango
    LEFT JOIN jvd_um u ON s.ketto_toroku_bango = u.ketto_toroku_bango
    WHERE r.kaisai_nen BETWEEN :start_year AND :end_year
    ORDER BY r.kaisai_nen, r.kaisai_tsukihi, r.keibajo_code, r.race_bango, s.wakuban
    "
  +:+ limit_clause +:+ "
    ".

(** [query] of [get_horse_previous_races]. *)
Definition horse_prev_query (date_condition : string) : string :=
  "
    SELECT 
        s.kaisai_nen || s.kaisai_tsukihi AS race_date,
        s.keibajo_code,
        s.race_bango,
        r.kyori,
        r.track_code,
        CASE 
            WHEN SUBSTRING(r.track_code, 1, 1) = '1' THEN r.babajotai_code_shiba 
            ELSE r.babajotai_code_dirt 
        END as baba_jotai,
        s.kishu_code,
        s.chokyoshi_code,
        s.bataiju,
        s.zogen_fugo,
        s.zogen_sa,
        CAST(s.kakutei_chakujun AS INTEGER) AS chakujun,
        CAST(s.soha_time AS INTEGER) AS time,
        CAST(s.kohan_3f AS INTEGER) AS last_3f,
        CAST(s.tansho_ninkijun AS INTEGER) AS popularity,
        CAST(s.tansho_odds AS NUMERIC) / 10.0 AS odds
    FROM jvd_se s
    JOIN jvd_ra r ON s.kaisai_nen = r.kaisai_nen
                  AND s.kaisai_tsukihi = r.kaisai_tsukihi
                  AND s.keibajo_code = r.keibajo_code
                  AND s.race_bango = r.race_bango
    WHERE s.ketto_toroku_bango = :horse_id
      AND s.kakutei_chakujun ~ '^[0-9]+$'  -- 数字のみの着順
      AND s.kakutei_chakujun NOT IN ('00', '99')  -- 除外・取消を除く
    "
  +:+ date_condition +:+ "
    ORDER BY s.kaisai_nen, s.kaisai_tsukihi
    ".

(** [query] of [get_jockey_course_stats]. *)
Definition jockey_course_query : string :=
  "
    WITH jockey_courses AS (
        SELECT 
            s.kishu_code,
            r.keibajo_code,
            SUBSTRING(r.track_code, 1, 1) AS track_type,
            CASE 
                WHEN CAST(r.kyori AS INTEGER) <= 1400 THEN '短距離'
                WHEN CAST(r.kyori AS INTEGER) <= 2000 THEN '中距離'
                ELSE '長距離'
            END AS distance_category,
            COUNT(*) AS total_races,
            COUNT(*) FILTER (WHERE CAST(s.kakutei_chakujun AS INTEGER) = 1) AS wins,
            COUNT(*) FILTER (WHERE CAST(s.kakutei_chakujun AS INTEGER) <= 3) AS top3,
            ROUND(COUNT(*) FILTER (WHERE CAST(s.kakutei_chakujun AS INTEGER) = 1)::NUMERIC / COUNT(*) * 100, 2) AS win_rate,
            ROUND(COUNT(*) FILTER (WHERE CAST(s.kakutei_chakujun AS INTEGER) <= 3)::NUMERIC / COUNT(*) * 100, 2) AS top3_rate,
            ROUND(AVG(CAST(s.tansho_odds AS NUMERIC) / 10.0) FILTER (WHERE CAST(s.kakutei_chakujun AS INTEGER) = 1), 2) AS avg_win_odds,
            ROUND(SUM(CASE WHEN CAST(s.kakutei_chakujun AS INTEGER) = 1 THEN CAST(s.tansho_odds AS NUMERIC) / 10.0 ELSE 0 END) / COUNT(*) * 100, 2) AS roi
        FROM jvd_se s
        JOIN jvd_ra r ON s.kaisai_nen = r.kaisai_nen
                      AND s.kaisai_tsukihi = r.kaisai_tsukihi
                      AND s.keibajo_code = r.keibajo_code
                      AND s.race_bango = r.race_bango
        WHERE s.kishu_code = :jockey_code
          AND CAST(s.kaisai_nen AS INTEGER) >= EXTRACT(YEAR FROM CURRENT_DATE) - :years_range
          AND s.kakutei_chakujun ~ '^[0-9]+$'
          AND s.kakutei_chakujun NOT IN ('00', '99')
        GROUP BY s.kishu_code, r.keibajo_code, track_type, distance_category
        HAVING COUNT(*) >= :min_races
    )
    SELECT 
        kishu_code,
        keibajo_code,
        track_type,
        distance_category,
        total_races,
        wins,
        top3,
        win_rate,
        top3_rate,
        avg_win_odds,
        roi,
        CASE 
            WHEN roi >= 200 THEN 'S'
            WHEN roi >= 100 THEN 'A'
            WHEN roi >= 70 THEN 'B'
            WHEN roi >= 50 THEN 'C'
            ELSE 'D'
        END AS roi_rank
    FROM jockey_courses
    ORDER BY roi DESC
    ".

(** [query] of [get_sire_track_condition_stats]. *)
Definition sire_track_condition_query (sire_condition : string) : string :=
  "
    WITH sire_condition_stats AS (
        SELECT 
            u.ketto_joho_01a AS sire_id,
            TRIM(u.ketto_joho_01b) AS sire_name,
            SUBSTRING(r.track_code, 1, 1) AS track_type,
            CASE 
                WHEN SUBSTRING(r.track_code, 1, 1) = '1' THEN r.babajotai_code_shiba
                ELSE r.babajotai_code_dirt
            END AS track_condition,
            COUNT(DISTINCT s.ketto_toroku_bango) AS horses_count,
            COUNT(*) AS total_races,
            COUNT(*) FILTER (WHERE CAST(s.kakutei_chakujun AS INTEGER) = 1) AS wins,
            ROUND(COUNT(*) FILTER (WHERE CAST(s.kakutei_chakujun AS INTEGER) = 1)::NUMERIC / COUNT(*) * 100, 2) AS win_rate,
            ROUND(AVG(CAST(s.tansho_ninkijun AS INTEGER)), 2) AS avg_popularity,
            ROUND(AVG(CAST(s.tansho_odds AS NUMERIC) / 10.0) FILTER (WHERE CAST(s.kakutei_chakujun AS INTEGER) = 1), 2) AS avg_win_odds,
            ROUND(SUM(CASE WHEN CAST(s.kakutei_chakujun AS INTEGER) = 1 THEN CAST(s.tansho_odds AS NUMERIC) / 10.0 ELSE 0 END) / COUNT(*) * 100, 2) AS roi
        FROM jvd_se s
        JOIN jvd_ra r ON s.kaisai_nen = r.kaisai_nen
                      AND s.kaisai_tsukihi = r.kaisai_tsukihi
                      AND s.keibajo_code = r.keibajo_code
                      AND s.race_bango = r.race_bango
        JOIN jvd_um u ON s.ketto_toroku_bango = u.ketto_toroku_bango
        WHERE s.kakutei_chakujun ~ '^[0-9]+$'
          AND s.kakutei_chakujun NOT IN ('00', '99')
          "
  +:+ sire_condition +:+ "
        GROUP BY u.ketto_joho_01a, sire_name, track_type, track_condition
        HAVING COUNT(DISTINCT s.ketto_toroku_bango) >= :min_horses
           AND COUNT(*) >= :min_races
    )
    SELECT 
        sire_id,
        sire_name,
        track_type,
        CASE 
            WHEN track_condition = '1' THEN '良'
            WHEN track_condition = '2' THEN '稍重'
            WHEN track_condition = '3' THEN '重'
            WHEN track_condition = '4' THEN '不良'
            ELSE track_condition
        END AS track_condition,
        horses_count,
        total_races,
        wins,
        win_rate,
        avg_popularity,
        avg_win_odds,
        roi,
        CASE 
            WHEN roi >= 200 THEN 'S'
            WHEN roi >= 100 THEN 'A'
            WHEN roi >= 70 THEN 'B'
            WHEN roi >= 50 THEN 'C'
            ELSE 'D'
        END AS roi_rank
    FROM sire_condition_stats
    ORDER BY roi DESC
    ".


(** *** The builders *)

(** A byte that continues a character of more than one byte. *)
Definition continues (c : ascii) : bool :=
  let n := N_of_ascii c in (128 <=? n)%N && (n <? 192)%N.

(** [len(s)]: the characters of a text, each a byte that continues none
    together with the bytes that continue it. *)
Definition characters (s : string) : nat :=
  length (List.filter (fun c => negb (continues c)) (Sql.chars s)).

(** The first [n] characters of a text, and the rest. *)
Fixpoint cut (n : nat) (cs : list ascii) : list ascii * list ascii :=
  match cs with
  | [] => ([], [])
  | c :: rest =>
      if continues c then let '(a, b) := cut n rest in (c :: a, b)
      else
        match n with
        | O => ([], cs)
        | S m => let '(a, b) := cut m rest in (c :: a, b)
        end
  end.

(** [s[:4]] and [s[4:]] *)
Definition slice_to_4 (s : string) : string :=
  string_of_list_ascii (fst (cut 4 (Sql.chars s))).
Definition slice_from_4 (s : string) : string :=
  string_of_list_ascii (snd (cut 4 (Sql.chars s))).

Section WithEngine.

Variable engine : string -> gmap string value -> result DataFrame.
Variable here : string.
Variable locate : string -> option string.

(** [f"LIMIT {limit}" if limit else ""] *)
Definition limit_clause (limit : value) : string :=
  if truthy limit then "LIMIT " +:+ str limit else "".

(** Defaults: [start_year="2010"], [end_year="2023"], [limit=None]. *)
Definition get_race_base_info (start_year end_year limit : value) (w : world)
  : result DataFrame * world :=
  let query := race_base_query (limit_clause limit) in
  query_with_cache engine here locate query
    ("race_base_" +:+ str start_year +:+ "_" +:+ str end_year
       +:+ "_" +:+ str limit)
    false
    (Some (<["start_year" := start_year]> (<["end_year" := end_year]> ∅)))
    w.

(** Defaults: [start_year="2010"], [end_year="2023"], [limit=None]. *)
Definition get_race_and_horse_data (start_year end_year limit : value)
    (w : world) : result DataFrame * world :=
  let query := race_horse_query (limit_clause limit) in
  query_with_cache engine here locate query
    ("race_horse_" +:+ str start_year +:+ "_" +:+ str end_year
       +:+ "_" +:+ str limit)
    false
    (Some (<["start_year" := start_year]> (<["end_year" := end_year]> ∅)))
    w.

(** The cache key of [get_horse_previous_races]. *)
Definition horse_prev_key (horse_id race_date : value) : string :=
  let cache_key := "horse_prev_" +:+ str horse_id in
  if truthy race_date then cache_key +:+ "_" +:+ str race_date else cache_key.

(** The binding of [get_horse_previous_races]; slicing raises on a
    truthy [race_date] that is a number or [True]. *)
Definition horse_prev_params (horse_id race_date : value)
  : result (gmap string value) :=
  let params := <["horse_id" := horse_id]> ∅ in
  if truthy race_date then
    match race_date with
    | VStr s =>
        Ok (<["date" := VStr (slice_from_4 s)]>
              (<["year" := VStr (slice_to_4 s)]> params))
    | _ => Err TypeError
    end
  else Ok params.

(** Default: [race_date=None]. *)
Definition get_horse_previous_races (horse_id race_date : value) (w : world)
  : result DataFrame * world :=
  let date_condition :=
    if truthy race_date
    then "AND (s.kaisai_nen < :year OR (s.kaisai_nen = :year AND s.kaisai_tsukihi <= :date))"
    else "" in
  match horse_prev_params horse_id race_date with
  | Err e => (Err e, w)
  | Ok params =>
      query_with_cache engine here locate (horse_prev_query date_condition)
        (horse_prev_key horse_id race_date) false (Some params) w
  end.

(** Defaults: [years_range=5], [min_races=3]. Not cached. *)
Definition get_jockey_course_stats (jockey_code years_range min_races : value)
    (w : world) : result DataFrame * world :=
  execute_query engine jockey_course_query
    (Some (<["jockey_code" := jockey_code]>
             (<["years_range" := years_range]>
                (<["min_races" := min_races]> ∅))))
    w.

(** The binding of [get_sire_track_condition_stats]. *)
Definition sire_params (sire_id min_horses min_races : value)
  : gmap string value :=
  let params := <["min_horses" := min_horses]> (<["min_races" := min_races]> ∅) in
  if truthy sire_id then <["sire_id" := sire_id]> params else params.

(** The cache key of [get_sire_track_condition_stats]. *)
Definition sire_key (sire_id : value) : string :=
  let cache_key := "sire_track_condition" in
  if truthy sire_id then cache_key +:+ "_" +:+ str sire_id else cache_key.

(** Defaults: [sire_id=None], [min_horses=3], [min_races=10]. *)
Definition get_sire_track_condition_stats (sire_id min_horses min_races : value)
    (w : world) : result DataFrame * world :=
  let sire_condition :=
    if truthy sire_id then "AND u.ketto_joho_01a = :sire_id" else "" in
  query_with_cache engine here locate (sire_track_condition_query sire_condition)
    (sire_key sire_id) false (Some (sire_params sire_id min_horses min_races)) w.

End WithEngine.

End Extraction.

(* ===================================================================== *)
(** ** base_features.py *)
(* ===================================================================== *)

Module Features.

(** *** binary64 *)

(** The double nearest to an integer (ties to even), as the conversion of
    an [int] or of an integer literal gives it. *)
Definition Z2float (z : Z) : float :=
  SF2Prim (binary_normalize prec emax z 0 false).

(** The rational a finite double stands for. *)
Definition float_to_Q (f : float) : option Q :=
  match Prim2SF f with
  | S754_zero _ => Some 0%Q
  | S754_finite sign m e =>
      let magnitude :=
        if 0 <=? e then inject_Z (Zpos m * 2 ^ e)
        else Qmake (Zpos m) (Z.to_pos (2 ^ (- e))) in
      Some (Qred (if sign then Qopp magnitude else magnitude))
  | S754_infinity _ | S754_nan => None
  end.

(** [float(text)] on the decimal integers, blanks around and a sign
    allowed: the double nearest to the integer. On other texts this
    reading reports [ValueError]; Python's [float] reads more (a point, an
    exponent, digit separators, special values), so it stands in for
    [float] only where the texts are such integers, as the stored odds
    are. *)
Definition float_of_digits (s : string) : result float :=
  let '(neg, body) := Sql.signed (Sql.strip (Sql.chars s)) in
  match body with
  | [] => Err ValueError
  | _ =>
      if forallb Sql.is_digit body then
        let f := Z2float (Sql.decimal body) in
        Ok (if neg then (- f)%float else f)
      else Err ValueError
  end.

Section Float.

(** [float(text)]: what Python's [float] makes of a text. *)
Variable float_of_text : string -> result float.

(** [float(v)] *)
Definition py_float (v : value) : result float :=
  match v with
  | VNone => Err TypeError
  | VBool b => Ok (if b then 1%float else 0%float)
  | VInt z =>
      let f := Z2float z in
      if is_infinity f then Err OverflowError else Ok f
  | VStr s => float_of_text s
  end.

End Float.

(** *** Identifiers *)

(** [f"{row['kaisai_nen']}{row['kaisai_tsukihi']}{row['keibajo_code']}{row['race_bango']}"] *)
Definition create_race_id (row : Series) : result string :=
  nen ← getitem row "kaisai_nen";
  tsukihi ← getitem row "kaisai_tsukihi";
  keibajo ← getitem row "keibajo_code";
  bango ← getitem row "race_bango";
  Ok (str nen +:+ str tsukihi +:+ str keibajo +:+ str bango).

(** [f"{race_id}_{row['ketto_toroku_bango']}"] *)
Definition create_horse_race_id (row : Series) : result string :=
  race_id ← create_race_id row;
  horse ← getitem row "ketto_toroku_bango";
  Ok (race_id +:+ "_" +:+ str horse).

(** *** Normalisation

    A frame here is its float64 columns by name; the function assigns the
    new column in place and returns the same frame. *)

Definition fmin (a b : float) : float := if (b <? a)%float then b else a.
Definition fmax (a b : float) : float := if (a <? b)%float then b else a.

Definition reduce (op : float -> float -> float) (xs : list float) : float :=
  match List.filter (fun x => negb (is_nan x)) xs with
  | [] => nan
  | x :: rest => fold_left op rest x
  end.

(** [Series.min()] and [Series.max()], NaN entries skipped. *)
Definition column_min (xs : list float) : float := reduce fmin xs.
Definition column_max (xs : list float) : float := reduce fmax xs.

Section Normalize.

(** [Series.mean()] and [Series.std()] of the dataframe library. *)
Variables column_mean column_std : list float -> float.

Definition normalize_numeric (df : gmap string (list float))
    (column method : string) : result (gmap string (list float)) :=
  if String.eqb method "min_max" then
    match df !! column with
    | None => Err (KeyError column)
    | Some xs =>
        Ok (<[column +:+ "_norm" :=
                map (fun v => ((v - column_min xs)
                               / (column_max xs - column_min xs))%float) xs]> df)
    end
  else if String.eqb method "standard" then
    match df !! column with
    | None => Err (KeyError column)
    | Some xs =>
        Ok (<[column +:+ "_norm" :=
                map (fun v => ((v - column_mean xs) / column_std xs)%float) xs]> df)
    end
  else Ok df.

End Normalize.

(** *** Group rates *)

(** [cell == '01'] *)
Definition is_first (v : value) : bool :=
  match v with
  | VStr s => String.eqb s "01"
  | _ => false
  end.

Definition calculate_win_rate (group : DataFrame) : result float :=
  match group with
  | [] => Ok 0%float
  | _ =>
      column ← traverse (fun row => getitem row "kakutei_chakujun") group;
      let wins := Z.of_nat (length (List.filter is_first column)) in
      Ok (Z2float wins / Z2float (Z.of_nat (length group)) * 100)%float
  end.

Section Float.

Variable float_of_text : string -> result float.

(** The body of [for _, row in group.iterrows()], from [total_return]. *)
Fixpoint iterrows (rows : DataFrame) (total_return : float) : result float :=
  match rows with
  | [] => Ok total_return
  | row :: rest =>
      chakujun ← getitem row "kakutei_chakujun";
      if is_first chakujun then
        odds ← getitem row "tansho_odds";
        paid ← py_float float_of_text odds;
        iterrows rest (total_return + paid / 10)%float
      else iterrows rest total_return
  end.

Definition calculate_roi (group : DataFrame) : result float :=
  match group with
  | [] => Ok 0%float
  | _ =>
      let total_races := Z2float (Z.of_nat (length group)) in
      total_return ← iterrows group 0%float;
      Ok (total_return / total_races * 100)%float
  end.

End Float.

End Features.

(* ===================================================================== *)
(** ** base_features.py: the cache of BaseFeatureExtractor *)
(* ===================================================================== *)

Module Extractor.

Import Database.

(** [__init__]: the directory kept in [self.cache_dir], which it creates
    if missing; [here] is [os.path.dirname(__file__)] of
    [base_features.py]. Only [None] takes the default. *)
Definition init (here : string) (cache_dir : option string) : string :=
  match cache_dir with
  | None => path_join here "../../data/cache"
  | Some dir => dir
  end.

Section WithSelf.

(** [self.cache_dir] *)
Variable cache_dir : string.
(** What the operating system makes of a path, with that directory in
    place. *)
Variable locate : string -> option string.

Definition _cache_path (name : string) : string :=
  path_join cache_dir (name +:+ ".pkl").

(** [None] when no file is there; a file [read_pickle] cannot load
    raises. *)
Definition load_from_cache (name : string) (w : world)
  : result (option DataFrame) :=
  let cache_path := _cache_path name in
  if exists_ locate cache_path w then
    data ← read_pickle locate cache_path w; Ok (Some data)
  else Ok None.

Definition save_to_cache (data : DataFrame) (name : string) (w : world)
  : result unit * world :=
  to_pickle locate data (_cache_path name) w.

End WithSelf.

End Extractor.

(* ===================================================================== *)
(** ** scripts/02_analyze_race_data.py *)
(* ===================================================================== *)

Module Script.

Import Database.

(** *** The seven statements *)

Definition yearly_race_count_query : string :=
  "
    SELECT 
        kaisai_nen as year, 
        COUNT(*) as race_count
    FROM jvd_ra
    WHERE kaisai_nen BETWEEN '2020' AND '2024'
    GROUP BY kaisai_nen
    ORDER BY kaisai_nen
    ".

Definition course_race_count_query : string :=
  "
    SELECT 
        keibajo_code,
        CASE 
            WHEN keibajo_code = '01' THEN '札幌'
            WHEN keibajo_code = '02' THEN '函館'
            WHEN keibajo_code = '03' THEN '福島'
            WHEN keibajo_code = '04' THEN '新潟'
            WHEN keibajo_code = '05' THEN '東京'
            WHEN keibajo_code = '06' THEN '中山'
            WHEN keibajo_code = '07' THEN '中京'
            WHEN keibajo_code = '08' THEN '京都'
            WHEN keibajo_code = '09' THEN '阪神'
            WHEN keibajo_code = '10' THEN '小倉'
            ELSE keibajo_code
        END AS course_name,
        COUNT(*) as race_count
    FROM jvd_ra
    WHERE kaisai_nen BETWEEN '2020' AND '2024'
    GROUP BY keibajo_code
    ORDER BY keibajo_code
    ".

Definition track_condition_query : string :=
  "
    SELECT 
        SUBSTRING(track_code, 1, 1) as track_type,
        CASE 
            WHEN SUBSTRING(track_code, 1, 1) = '1' THEN '芝'
            WHEN SUBSTRING(track_code, 1, 1) = '2' THEN 'ダート'
            ELSE 'その他'
        END AS track_name,
        CASE 
            WHEN SUBSTRING(track_code, 1, 1) = '1' THEN babajotai_code_shiba
            ELSE babajotai_code_dirt
        END AS track_condition,
        CASE 
            WHEN SUBSTRING(track_code, 1, 1) = '1' THEN
                CASE 
                    WHEN babajotai_code_shiba = '1' THEN '良'
                    WHEN babajotai_code_shiba = '2' THEN '稍重'
                    WHEN babajotai_code_shiba = '3' THEN '重'
                    WHEN babajotai_code_shiba = '4' THEN '不良'
                    ELSE babajotai_code_shiba
                END
            ELSE
                CASE 
                    WHEN babajotai_code_dirt = '1' THEN '良'
                    WHEN babajotai_code_dirt = '2' THEN '稍重'
                    WHEN babajotai_code_dirt = '3' THEN '重'
                    WHEN babajotai_code_dirt = '4' THEN '不良'
                    ELSE babajotai_code_dirt
                END
        END AS condition_name,
        COUNT(*) as race_count,
        ROUND(COUNT(*) * 100.0 / (
            SELECT COUNT(*) FROM jvd_ra 
            WHERE kaisai_nen BETWEEN '2020' AND '2024'
        ), 2) as percentage
    FROM jvd_ra
    WHERE kaisai_nen BETWEEN '2020' AND '2024'
    GROUP BY track_type, track_name, track_condition, condition_name
    ORDER BY track_type, track_condition
    ".

Definition distance_query : string :=
  "
    SELECT 
        CASE 
            WHEN CAST(kyori AS INTEGER) <= 1400 THEN '短距離'
            WHEN CAST(kyori AS INTEGER) <= 2000 THEN '中距離'
            ELSE '長距離'
        END AS distance_category,
        SUBSTRING(track_code, 1, 1) as track_type,
        CASE 
            WHEN SUBSTRING(track_code, 1, 1) = '1' THEN '芝'
            WHEN SUBSTRING(track_code, 1, 1) = '2' THEN 'ダート'
            ELSE 'その他'
        END AS track_name,
        COUNT(*) as race_count
    FROM jvd_ra
    WHERE kaisai_nen BETWEEN '2020' AND '2024'
    GROUP BY distance_category, track_type, track_name
    ORDER BY distance_category, track_type
    ".

Definition weather_query : string :=
  "
    SELECT 
        tenko_code,
        CASE 
            WHEN tenko_code = '1' THEN '晴'
            WHEN tenko_code = '2' THEN '曇'
            WHEN tenko_code = '3' THEN '小雨'
            WHEN tenko_code = '4' THEN '雨'
            WHEN tenko_code = '5' THEN '小雪'
            WHEN tenko_code = '6' THEN '雪'
            ELSE tenko_code
        END AS weather_name,
        COUNT(*) as race_count,
        ROUND(COUNT(*) * 100.0 / (
            SELECT COUNT(*) FROM jvd_ra 
            WHERE kaisai_nen BETWEEN '2020' AND '2024'
        ), 2) as percentage
    FROM jvd_ra
    WHERE kaisai_nen BETWEEN '2020' AND '2024'
    GROUP BY tenko_code, weather_name
    ORDER BY race_count DESC
    ".

Definition monthly_query : string :=
  "
    SELECT 
        SUBSTRING(kaisai_tsukihi, 1, 2) as month,
        COUNT(*) as race_count
    FROM jvd_ra
    WHERE kaisai_nen BETWEEN '2020' AND '2024'
    GROUP BY month
    ORDER BY month
    ".

Definition runners_query : string :=
  "
    SELECT 
        shusso_tosu as runners_count,
        COUNT(*) as race_count,
        ROUND(COUNT(*) * 100.0 / (
            SELECT COUNT(*) FROM jvd_ra 
            WHERE kaisai_nen BETWEEN '2020' AND '2024'
        ), 2) as percentage
    FROM jvd_ra
    WHERE kaisai_nen BETWEEN '2020' AND '2024'
    GROUP BY shusso_tosu
    ORDER BY shusso_tosu
    ".

(** *** The run

    One analysis: the statement, the name it is cached under, and the
    figure file its plot is saved to. *)
Record analysis := Analysis {
  statement : string;
  cache_name : string;
  figure : string
}.

(** The analyses of [analyze_race_data], in the order it runs them. *)
Definition analyses : list analysis :=
  [Analysis yearly_race_count_query "yearly_race_count_2020_2024" "yearly_race_count.png";
   Analysis course_race_count_query "course_race_count_2020_2024" "course_race_count.png";
   Analysis track_condition_query "track_condition_2020_2024" "track_condition_heatmap.png";
   Analysis distance_query "distance_data_2020_2024" "distance_track_race_count.png";
   Analysis weather_query "weather_data_2020_2024" "weather_race_count.png";
   Analysis monthly_query "monthly_data_2020_2024" "monthly_race_count.png";
   Analysis runners_query "runners_data_2020_2024" "runners_count_distribution.png"].

Section WithEngine.

Variable engine : string -> gmap string value -> result DataFrame.
(** [os.path.dirname(__file__)] of [database.py]. *)
Variable here : string.
(** [Path(__file__).parent.parent] of the script, as text. *)
Variable root : string.
(** What the operating system makes of a path, with the cache directory
    and the output directory in place
    ([OUTPUT_DIR.mkdir(parents=True, exist_ok=True)] has run). *)
Variable locate : string -> option string.
(** What printing a table and drawing its figure does, up to the call
    of [savefig]: it returns, or raises. *)
Variable plot : string -> DataFrame -> result unit.

(** [OUTPUT_DIR / name] *)
Definition output_path (name : string) : string :=
  path_join (path_join (path_join root "output") "analysis") name.

(** [plt.savefig(path)]: the figure is written, or replaced, where the
    path leads. What a figure file holds is no pickle. *)
Definition savefig (path : string) (w : world) : result unit * world :=
  match locate path with
  | Some f => (Ok tt, World (<[f := Unreadable]> (files w)) (executed w))
  | None => (Err OSError, w)
  end.

(** One block of the function: the cached query, then its figure. *)
Definition analyse (a : analysis) (w : world) : result unit * world :=
  let '(r, w1) :=
    query_with_cache engine here locate (statement a) (cache_name a)
      false None w in
  match r with
  | Ok table =>
      match plot (figure a) table with
      | Ok _ => savefig (output_path (figure a)) w1
      | Err e => (Err e, w1)
      end
  | Err e => (Err e, w1)
  end.

(** The blocks in sequence; an exception ends the run. *)
Fixpoint run (steps : list analysis) (w : world) : result unit * world :=
  match steps with
  | [] => (Ok tt, w)
  | a :: rest =>
      let '(r, w1) := analyse a w in
      match r with
      | Ok _ => run rest w1
      | Err e => (Err e, w1)
      end
  end.

Definition analyze_race_data (w : world) : result unit * world :=
  run analyses w.

End WithEngine.

End Script.

(* ===================================================================== *)
(** ** Placeholders of a statement text *)
(* ===================================================================== *)

Module Placeholders.

(** [execute_query] hands the statement to the database library as
    [text(query)], which takes every [:name] of the text for a bound
    parameter. The scan below gives those names; every byte of a
    character beyond ASCII counts as a name character. *)

(** A character of a name: a letter, a digit, an underscore, or a byte of
    a character beyond ASCII. *)
Definition is_word (c : ascii) : bool :=
  let n := Z.of_N (N_of_ascii c) in
  ((48 <=? n) && (n <=? 57)) || ((65 <=? n) && (n <=? 90))
  || ((97 <=? n) && (n <=? 122)) || (n =? 95) || (128 <=? n).

(** Where the reading of a text stands: outside a name ([blocked] when a
    colon here would not open one: after a colon, a name character or a
    backslash), or inside the name opened by a colon. *)
Inductive state :=
| Outside (blocked : bool)
| Name (reversed : list ascii).

Definition emit (reversed : list ascii) : list string :=
  match reversed with
  | [] => []
  | _ => [string_of_list_ascii (rev reversed)]
  end.

(** The names written [:name] in a text, in order: the colon follows
    neither a colon, a name character nor a backslash, and no colon
    follows the name (so the cast [x::NUMERIC] holds none). *)
Fixpoint scan (st : state) (cs : list ascii) : list string :=
  match cs with
  | [] => match st with Name reversed => emit reversed | Outside _ => [] end
  | c :: rest =>
      match st with
      | Name reversed =>
          if is_word c then scan (Name (c :: reversed)) rest
          else if Ascii.eqb c ":" then scan (Outside true) rest
          else emit reversed ++ scan (Outside (Ascii.eqb c "\")) rest
      | Outside blocked =>
          if Ascii.eqb c ":" then
            if blocked then scan (Outside true) rest else scan (Name []) rest
          else scan (Outside (is_word c || Ascii.eqb c "\")) rest
      end
  end.

Definition placeholders (text : string) : list string :=
  scan (Outside false) (Sql.chars text).

(** A text without underscore. *)
Definition plain (s : string) : bool :=
  forallb (fun c => negb (Ascii.eqb c "_")) (Sql.chars s).

End Placeholders.

(* ===================================================================== *)
(** ** Sample data *)
(* ===================================================================== *)

Module Samples.

Import Sql.

(** A starter of race 12 at course 05 on 1 January 2021 (turf, 1200 m),
    with its finishing position and its win odds as stored. *)
Definition starter (chakujun odds : string) : entry :=
  Entry "2021" "0101" "05" "12" "1234567890" "01234" "00567" "480" "+" "002"
        chakujun "1123" "345" "03" odds "1200" "11" "1" "1"
        "0000123456" "Sire".

(** Ten starters, two of them winners at odds 3.0 and 5.0. *)
Definition ten_rows : list entry :=
  [starter "01" "30"; starter "02" "120"; starter "03" "85";
   starter "01" "50"; starter "04" "44"; starter "05" "230";
   starter "06" "71"; starter "07" "19"; starter "08" "999";
   starter "10" "152"].

(** Three starters, one of them a winner. *)
Definition three_rows : list entry :=
  [starter "01" "30"; starter "02" "120"; starter "03" "85"].

(** Three starters, the winner's position written with one digit. *)
Definition lone_digit_rows : list entry :=
  [starter "1" "30"; starter "02" "120"; starter "03" "85"].

(** What the jockey statement returns for [three_rows]: one course. *)
Definition three_rows_course : Jockey.row :=
  Jockey.Row "01234" "05" "1" "短距離" 3 1 3 33.33 100 (Some 3%Q) 100 A.

(** An engine whose answer is one row holding the binding it was sent. *)
Definition echo_engine (_ : string) (params : gmap string value)
  : result DataFrame :=
  Ok [params].

(** An engine that honours [LIMIT 0]: no row for a statement holding it,
    one row for any other. *)
Definition limiting_engine (query : string) (_ : gmap string value)
  : result DataFrame :=
  match String.index 0 "LIMIT 0" query with
  | Some _ => Ok []
  | None => Ok [∅]
  end.

(** A machine for the examples: a checkout at [/repo] with its cache
    directory [/repo/data/cache] and its output directory
    [/repo/output/analysis], neither with a directory inside, and the
    process running in [/repo/src/data]. *)
Definition directories : list (list string) :=
  [[]; ["repo"]; ["repo"; "src"]; ["repo"; "src"; "data"];
   ["repo"; "src"; "features"]; ["repo"; "scripts"]; ["repo"; "data"];
   ["repo"; "data"; "cache"]; ["repo"; "output"];
   ["repo"; "output"; "analysis"]].

(** The components of a path, split at its slashes. *)
Fixpoint components (current : list ascii) (cs : list ascii) : list string :=
  match cs with
  | [] => [string_of_list_ascii (rev current)]
  | c :: rest =>
      if Ascii.eqb c "/"
      then string_of_list_ascii (rev current) :: components [] rest
      else components (c :: current) rest
  end.

(** Path resolution from a directory: an empty component and [.] stay,
    [..] goes up, a name goes down into a directory that exists; the last
    component names the file. *)
Fixpoint walk (dir : list string) (names : list string) : option (list string) :=
  match names with
  | [] => None
  | [name] =>
      if String.eqb name "" || String.eqb name "." || String.eqb name ".."
      then None
      else Some (dir ++ [name])
  | name :: rest =>
      if String.eqb name "" || String.eqb name "." then walk dir rest
      else if String.eqb name ".." then walk (removelast dir) rest
      else if bool_decide (dir ++ [name] ∈ directories)
           then walk (dir ++ [name]) rest
           else None
  end.

Definition desk (path : string) : option string :=
  file ← walk (if String.prefix "/" path then [] else ["repo"; "src"; "data"])
              (components [] (chars path));
  Some (fold_left (fun text name => text +:+ "/" +:+ name) file "").

End Samples.

(* ===================================================================== *)
(** ** Names for parts of the builders, the statements and the script *)
(* ===================================================================== *)

Module Views.

Import Database Script.

(** The cache key of [get_race_base_info]:
    [f"race_base_{start_year}_{end_year}_{limit}"]. *)
Definition race_base_key (start_year end_year limit : value) : string :=
  "race_base_" +:+ str start_year +:+ "_" +:+ str end_year
    +:+ "_" +:+ str limit.

(** The cache key of [get_race_and_horse_data]:
    [f"race_horse_{start_year}_{end_year}_{limit}"]. *)
Definition race_horse_key (start_year end_year limit : value) : string :=
  "race_horse_" +:+ str start_year +:+ "_" +:+ str end_year
    +:+ "_" +:+ str limit.

(** The columns the jockey statement groups by, read off a result row. *)
Definition jockey_key (r : Sql.Jockey.row) : string * string * string * string :=
  (Sql.Jockey.kishu_code r, Sql.Jockey.keibajo_code r, Sql.Jockey.track_type r,
   Sql.Jockey.distance_category r).

(** The cells [create_horse_race_id] reads, in the order it reads them. *)
Definition horse_race_id_keys : list string :=
  ["kaisai_nen"; "kaisai_tsukihi"; "keibajo_code"; "race_bango";
   "ketto_toroku_bango"].

(** Two rows with the same finishing cell and, when that cell is ['01'],
    the same odds cell. *)
Definition same_stake (row1 row2 : Series) : Prop :=
  row1 !! "kakutei_chakujun" = row2 !! "kakutei_chakujun"
  /\ (forall v, row1 !! "kakutei_chakujun" = Some v ->
        Features.is_first v = true ->
        row1 !! "tansho_odds" = row2 !! "tansho_odds").

Section WithEngine.

Variable here : string.
Variable root : string.
Variable locate : string -> option string.
Variable plot : string -> DataFrame -> result unit.

(** The file the cache path of a block leads to, and the file its figure
    path leads to. *)
Definition cache_file (a : analysis) : option string :=
  locate (cache_path here (cache_name a)).

Definition figure_file (a : analysis) : option string :=
  locate (output_path root (figure a)).

(** The block of an analysis has nothing left to fetch: its table is in
    the cache and its figure is drawn from it without an exception. *)
Definition settled (w : world) (a : analysis) : Prop :=
  exists table,
    kept locate (cache_path here (cache_name a)) w = Some (Pickled table)
    /\ plot (figure a) table = Ok tt.

(** The figure of a block has been saved. *)
Definition drawn (w : world) (a : analysis) : Prop :=
  exists f, figure_file a = Some f /\ files w !! f = Some Unreadable.

(** The cache files of the blocks are files of their own: no two blocks
    of different cache names share one, and no figure path leads to
    one. *)
Definition apart (steps : list analysis) : Prop :=
  forall a b f,
    a ∈ steps -> b ∈ steps ->
    cache_file a = Some f ->
    figure_file b <> Some f
    /\ (cache_name a <> cache_name b -> cache_file b <> Some f).

End WithEngine.

(** The entry a block leaves in the statement log when it asks the
    database: its statement, with no binding. *)
Definition sent (a : analysis) : string * gmap string value :=
  (statement a, ∅).

End Views.

(* ===================================================================== *)
(** ** More sample data *)
(* ===================================================================== *)

Module Cases.

Import Database Sql Samples.

(** One starter, second past the post. *)
Definition runner_up : list entry := [starter "02" "120"].

(** What the jockey statement returns for [runner_up]. *)
Definition runner_up_course : Jockey.row :=
  Jockey.Row "01234" "05" "1" "短距離" 1 0 1 0 100 None 0 D.

(** A starter like [starter], at another course. *)
Definition starter_at (course chakujun odds : string) : entry :=
  Entry "2021" "0101" course "12" "1234567890" "01234" "00567" "480" "+" "002"
        chakujun "1123" "345" "03" odds "1200" "11" "1" "1"
        "0000123456" "Sire".

(** Two rides at course 05 and two at course 06, a win at each. *)
Definition two_courses : list entry :=
  [starter_at "05" "01" "30"; starter_at "05" "02" "120";
   starter_at "06" "01" "50"; starter_at "06" "03" "85"].

(** What the jockey statement returns for [two_courses]: course 06
    first, with the greater [roi]. *)
Definition two_courses_stats : list Jockey.row :=
  [Jockey.Row "01234" "06" "1" "短距離" 2 1 2 50 100 (Some 5%Q) 250 S;
   Jockey.Row "01234" "05" "1" "短距離" 2 1 2 50 100 (Some 3%Q) 150 A].

(** What the sire statement returns for [three_rows]. *)
Definition three_rows_sire : Sire.row :=
  Sire.Row "0000123456" "Sire" "1" "良" 1 3 1 33.33 (Some 3%Q) (Some 3%Q) 100 A.

(** What the previous-races statement returns for the winner alone. *)
Definition winner_previous : Previous.row :=
  Previous.Row "20210101" "05" "12" "1200" "11" "1" "01234" "00567" "480" "+"
    "002" 1 1123 345 3 3.0.

(** The rows of [three_rows] as [get_race_and_horse_data] returns them,
    and the same rows with the odds of the two losers unreadable. *)
Definition three_rows_frame : DataFrame := map race_horse_row three_rows.

Definition three_rows_blurred : DataFrame :=
  [race_horse_row (starter "01" "30");
   <["tansho_odds" := VStr "----"]> (race_horse_row (starter "02" "120"));
   delete "tansho_odds" (race_horse_row (starter "03" "85"))].

(** A plotting routine that never raises, and a machine with no cache
    file and no statement sent yet. *)
Definition quiet_plot (_ : string) (_ : DataFrame) : result unit := Ok tt.

Definition fresh : world := World ∅ [].

(** An engine that refuses every statement. *)
Definition refusing_engine (_ : string) (_ : gmap string value)
  : result DataFrame :=
  Err (QueryError "connection refused").

End Cases.

(* ===================================================================== *)
(** * Properties *)
(* ===================================================================== *)

(** ** Text *)

Module TextFacts.

Import Database.

Lemma append_cons c s t : String c s +:+ t = String c (s +:+ t).
Proof. reflexivity. Qed.

Lemma chars_append a b : Sql.chars (a +:+ b) = Sql.chars a ++ Sql.chars b.
Proof.
  unfold Sql.chars. induction a as [| c a IH]; [reflexivity |].
  rewrite append_cons. cbn [list_ascii_of_string app]. now rewrite IH.
Qed.

Lemma chars_inj a b : Sql.chars a = Sql.chars b -> a = b.
Proof.
  intros H. rewrite <- (string_of_list_ascii_of_string a),
    <- (string_of_list_ascii_of_string b). unfold Sql.chars in H. now rewrite H.
Qed.

Lemma chars_length s : length (Sql.chars s) = String.length s.
Proof.
  unfold Sql.chars. induction s as [| c s IH]; simpl; [reflexivity | congruence].
Qed.

Lemma append_nil_l s : "" +:+ s = s.
Proof. reflexivity. Qed.

Lemma append_assoc a b c : (a +:+ b) +:+ c = a +:+ b +:+ c.
Proof.
  induction a as [| x a IH]; [reflexivity |]. now rewrite !append_cons, IH.
Qed.

Lemma append_inv_head s a b : s +:+ a = s +:+ b -> a = b.
Proof.
  intros H. apply chars_inj. apply (f_equal Sql.chars) in H.
  rewrite !chars_append in H. now apply app_inv_head in H.
Qed.

Lemma append_inj_length a a' b b' :
  String.length a = String.length a' ->
  a +:+ b = a' +:+ b' -> a = a' /\ b = b'.
Proof.
  intros Hlen H. apply (f_equal Sql.chars) in H. rewrite !chars_append in H.
  apply app_inj_1 in H as [Ha Hb]; [| now rewrite !chars_length].
  split; now apply chars_inj.
Qed.

End TextFacts.

(** ** The cache store *)

Module CacheStore.

Import Database Samples.

Section WithEngine.

Variable engine : string -> gmap string value -> result DataFrame.
Variable here : string.
Variable locate : string -> option string.

Lemma query_with_cache_hit query key params w df :
  kept locate (cache_path here key) w = Some (Pickled df) ->
  query_with_cache engine here locate query key false params w = (Ok df, w).
Proof.
  intros Hfile. unfold query_with_cache, exists_, read_pickle.
  rewrite Hfile. cbn [negb andb]. now rewrite bool_decide_true by eauto.
Qed.

Lemma query_with_cache_unreadable query key params w :
  kept locate (cache_path here key) w = Some Unreadable ->
  query_with_cache engine here locate query key false params w
  = (Err DeserializationError, w).
Proof.
  intros Hfile. unfold query_with_cache, exists_, read_pickle.
  rewrite Hfile. cbn [negb andb]. now rewrite bool_decide_true by eauto.
Qed.

Lemma query_with_cache_compute query key force params w :
  force = true \/ kept locate (cache_path here key) w = None ->
  query_with_cache engine here locate query key force params w =
    let w1 := World (files w) (executed w ++ [(query, bound params)]) in
    match engine query (bound params) with
    | Ok df =>
        match locate (cache_path here key) with
        | Some f => (Ok df, World (<[f := Pickled df]> (files w)) (executed w1))
        | None => (Err OSError, w1)
        end
    | Err e => (Err e, w1)
    end.
Proof.
  intros Hmiss. unfold query_with_cache, execute_query, to_pickle.
  assert (Hcompute : negb force && exists_ locate (cache_path here key) w = false).
  { destruct Hmiss as [-> | Hnone]; [reflexivity |].
    unfold exists_. rewrite Hnone.
    rewrite bool_decide_false by (intros [? ?]; discriminate).
    now destruct force. }
  rewrite Hcompute. cbn [files executed].
  destruct (engine query (bound params)); [| reflexivity].
  now destruct (locate (cache_path here key)).
Qed.

Lemma kept_insert path f file w log :
  locate path = Some f ->
  kept locate path (World (<[f := file]> (files w)) log) = Some file.
Proof. intros Hf. unfold kept. rewrite Hf. cbn. apply lookup_insert_eq. Qed.

(** C2 as the code has it. With [force_refresh] false and a table stored
    where the path of the key leads, [query_with_cache] returns that
    table and leaves the world as it was: nothing is executed. With
    nothing stored there, or [force_refresh] true, it executes the
    statement once; an engine error is passed on, nothing stored; a table
    is stored and returned when the path leads to a file, and where a
    directory on the way is missing the write raises [OSError], the table
    is lost and nothing is stored. A second call with [force_refresh]
    false returns the table of a first call that returned, and executes
    nothing. *)
Theorem query_with_cache_get_or_compute query key params w :
  (forall df,
     kept locate (cache_path here key) w = Some (Pickled df) ->
     query_with_cache engine here locate query key false params w = (Ok df, w))
  /\ (forall force,
        force = true \/ kept locate (cache_path here key) w = None ->
        (forall df f,
           engine query (bound params) = Ok df ->
           locate (cache_path here key) = Some f ->
           query_with_cache engine here locate query key force params w =
             (Ok df,
              World (<[f := Pickled df]> (files w))
                    (executed w ++ [(query, bound params)])))
        /\ (forall df,
              engine query (bound params) = Ok df ->
              locate (cache_path here key) = None ->
              query_with_cache engine here locate query key force params w =
                (Err OSError,
                 World (files w) (executed w ++ [(query, bound params)])))
        /\ (forall e,
              engine query (bound params) = Err e ->
              query_with_cache engine here locate query key force params w =
                (Err e, World (files w) (executed w ++ [(query, bound params)]))))
  /\ (forall df w1,
        query_with_cache engine here locate query key false params w = (Ok df, w1) ->
        query_with_cache engine here locate query key false params w1 = (Ok df, w1)
        /\ (executed w1 = executed w
            \/ executed w1 = executed w ++ [(query, bound params)])).
Proof.
  split; [| split].
  - intros df. apply query_with_cache_hit.
  - intros force Hmiss. split; [| split].
    + intros df f Hdf Hf. rewrite query_with_cache_compute by exact Hmiss.
      cbn zeta. now rewrite Hdf, Hf.
    + intros df Hdf Hf. rewrite query_with_cache_compute by exact Hmiss.
      cbn zeta. now rewrite Hdf, Hf.
    + intros e He. rewrite query_with_cache_compute by exact Hmiss.
      cbn zeta. now rewrite He.
  - intros df w1 Hfirst.
    destruct (kept locate (cache_path here key) w) as [[stored|]|] eqn:Hfile.
    + rewrite (query_with_cache_hit _ _ _ _ stored Hfile) in Hfirst.
      injection Hfirst as -> ->. split; [| now left].
      now apply query_with_cache_hit.
    + rewrite (query_with_cache_unreadable _ _ _ _ Hfile) in Hfirst.
      discriminate.
    + rewrite query_with_cache_compute in Hfirst by now right.
      cbn zeta in Hfirst.
      destruct (engine query (bound params)) as [fresh|e]; [| discriminate].
      destruct (locate (cache_path here key)) as [f|] eqn:Hf; [| discriminate].
      injection Hfirst as -> <-. split; [| now right].
      apply query_with_cache_hit. now apply kept_insert.
Qed.

End WithEngine.

Lemma query_with_cache_get_or_compute_witness :
  query_with_cache empty_engine "" desk "SELECT 1" "k" false None (World ∅ []) =
    (Ok [],
     World (<["/repo/data/cache/k.pkl" := Pickled []]> ∅) [("SELECT 1", ∅)]).
Proof.
  apply (proj1 (proj1 (proj2 (query_with_cache_get_or_compute
           empty_engine "" desk "SELECT 1" "k" None (World ∅ []))) false
           ltac:(right; reflexivity)) [] "/repo/data/cache/k.pkl");
    reflexivity.
Defined.

(** C2 as stated fails for a key that leads into a directory that does
    not exist: the statement is executed, the write raises, and the call
    returns no table and stores none. *)
Lemma nested_key_is_not_stored :
  query_with_cache empty_engine "" desk "SELECT 1" "a/b" false None (World ∅ [])
  = (Err OSError, World ∅ [("SELECT 1", ∅)]).
Proof. vm_compute. reflexivity. Qed.

End CacheStore.

(** ** The query builders *)

Module QueryBuilders.

Import Database Extraction.

Lemma limit_clause_falsy limit : truthy limit = false -> limit_clause limit = "".
Proof. intros H. unfold limit_clause. now rewrite H. Qed.

Lemma limit_clause_truthy limit :
  truthy limit = true -> limit_clause limit = "LIMIT " +:+ str limit.
Proof. intros H. unfold limit_clause. now rewrite H. Qed.

(** What a cached builder does when nothing is stored for its key: the
    statement is sent, and the outcome is the engine's, unless the table
    cannot be written. *)
Lemma miss_runs_statement engine here locate query key params w :
  kept locate (cache_path here key) w = None ->
  fst (query_with_cache engine here locate query key false params w)
    = match engine query (bound params) with
      | Ok df =>
          match locate (cache_path here key) with
          | Some _ => Ok df
          | None => Err OSError
          end
      | Err e => Err e
      end
  /\ executed (snd (query_with_cache engine here locate query key false params w))
    = executed w ++ [(query, bound params)].
Proof.
  intros Hmiss.
  rewrite CacheStore.query_with_cache_compute by now right.
  cbn zeta.
  now destruct (engine query (bound params)), (locate (cache_path here key)).
Qed.

(** Where the limit clause sits in the two statements: it is their last
    line, after [ORDER BY]; nothing before it mentions [LIMIT]. *)
Lemma limit_clause_is_last_line :
  (exists select,
     (forall clause,
        race_base_query clause
        = select
            +:+ "ORDER BY kaisai_nen, kaisai_tsukihi, keibajo_code, race_bango
    " +:+ clause +:+ "
    ")
     /\ String.index 0 "FROM jvd_ra" select <> None
     /\ String.index 0 "LIMIT" select = None)
  /\ (exists select,
        (forall clause,
           race_horse_query clause
           = select
               +:+ "ORDER BY r.kaisai_nen, r.kaisai_tsukihi, r.keibajo_code, r.race_bango, s.wakuban
    " +:+ clause +:+ "
    ")
        /\ String.index 0 "FROM jvd_ra r" select <> None
        /\ String.index 0 "LIMIT" select = None).
Proof.
  split.
  - exists (String.substring 0 (String.length (race_base_query "") - 71)
              (race_base_query "")).
    split; [| split; [vm_compute; discriminate | vm_compute; reflexivity]].
    intros clause. unfold race_base_query at 1.
    rewrite <- !TextFacts.append_assoc. do 2 f_equal.
  - exists (String.substring 0 (String.length (race_horse_query "") - 90)
              (race_horse_query "")).
    split; [| split; [vm_compute; discriminate | vm_compute; reflexivity]].
    intros clause. unfold race_horse_query at 1.
    rewrite <- !TextFacts.append_assoc. do 2 f_equal.
Qed.

Section WithEngine.

Variable engine : string -> gmap string value -> result DataFrame.
Variable here : string.
Variable locate : string -> option string.

(** C10 as the code has it. A falsy [limit] ([None], [0]) gives an empty
    clause: the statement built is the one of a call without limit, which
    holds no [LIMIT]. With nothing stored for the key the call sends that
    statement and returns the engine's answer to it (or [OSError] when the
    table cannot be written); with a table stored for the key it returns
    that table and sends nothing. A truthy [limit] gives [LIMIT] followed
    by its text, as the last line of the statement. *)
Theorem falsy_limit_omits_clause (start_year end_year limit : value) (w : world) :
  let params : gmap string value :=
    <["start_year" := start_year]> (<["end_year" := end_year]> ∅) in
  let base_path :=
    cache_path here
      ("race_base_" +:+ str start_year +:+ "_" +:+ str end_year
         +:+ "_" +:+ str limit) in
  let horse_path :=
    cache_path here
      ("race_horse_" +:+ str start_year +:+ "_" +:+ str end_year
         +:+ "_" +:+ str limit) in
  (truthy limit = false ->
     limit_clause limit = ""
     /\ (kept locate base_path w = None ->
         fst (get_race_base_info engine here locate start_year end_year limit w)
           = match engine (race_base_query "") params with
             | Ok df =>
                 match locate base_path with
                 | Some _ => Ok df
                 | None => Err OSError
                 end
             | Err e => Err e
             end
         /\ executed (snd (get_race_base_info engine here locate
                             start_year end_year limit w))
           = executed w ++ [(race_base_query "", params)])
     /\ (forall df,
           kept locate base_path w = Some (Pickled df) ->
           get_race_base_info engine here locate start_year end_year limit w
           = (Ok df, w))
     /\ (kept locate horse_path w = None ->
         fst (get_race_and_horse_data engine here locate start_year end_year limit w)
           = match engine (race_horse_query "") params with
             | Ok df =>
                 match locate horse_path with
                 | Some _ => Ok df
                 | None => Err OSError
                 end
             | Err e => Err e
             end
         /\ executed (snd (get_race_and_horse_data engine here locate
                             start_year end_year limit w))
           = executed w ++ [(race_horse_query "", params)])
     /\ (forall df,
           kept locate horse_path w = Some (Pickled df) ->
           get_race_and_horse_data engine here locate start_year end_year limit w
           = (Ok df, w)))
  /\ (truthy limit = true -> limit_clause limit = "LIMIT " +:+ str limit)
  /\ limit_clause VNone = ""
  /\ limit_clause (VInt 0) = ""
  /\ String.index 0 "LIMIT" (race_base_query "") = None
  /\ String.index 0 "LIMIT" (race_horse_query "") = None
  /\ (exists select,
        forall clause,
          race_base_query clause
          = select
              +:+ "ORDER BY kaisai_nen, kaisai_tsukihi, keibajo_code, race_bango
    " +:+ clause +:+ "
    ")
  /\ (exists select,
        forall clause,
          race_horse_query clause
          = select
              +:+ "ORDER BY r.kaisai_nen, r.kaisai_tsukihi, r.keibajo_code, r.race_bango, s.wakuban
    " +:+ clause +:+ "
    ").
Proof.
  intros params base_path horse_path.
  split; [| split; [apply limit_clause_truthy |]].
  - intros Hfalsy. split; [now apply limit_clause_falsy |].
    unfold get_race_base_info, get_race_and_horse_data.
    rewrite (limit_clause_falsy _ Hfalsy).
    split; [| split; [| split]].
    + intros Hmiss. now apply miss_runs_statement.
    + intros df. apply CacheStore.query_with_cache_hit.
    + intros Hmiss. now apply miss_runs_statement.
    + intros df. apply CacheStore.query_with_cache_hit.
  - destruct limit_clause_is_last_line
      as [(base & Hbase & _) (horse & Hhorse & _)].
    split; [reflexivity | split; [reflexivity |]].
    split; [vm_compute; reflexivity | split; [vm_compute; reflexivity |]].
    split; [now exists base | now exists horse].
Qed.

(** C7 as the code has it. A truthy [limit] is spliced as its text, with
    no validation by the builder: the statement built ends in [LIMIT]
    and that text, whatever the text is, and with nothing stored for the
    key that statement is sent; the outcome of the call is the outcome of
    the engine on it, or [OSError] when the engine answers and the table
    cannot be written. *)
Theorem limit_spliced_unvalidated (start_year end_year limit : value) (w : world) :
  truthy limit = true ->
  let params : gmap string value :=
    <["start_year" := start_year]> (<["end_year" := end_year]> ∅) in
  let base_path :=
    cache_path here
      ("race_base_" +:+ str start_year +:+ "_" +:+ str end_year
         +:+ "_" +:+ str limit) in
  let horse_path :=
    cache_path here
      ("race_horse_" +:+ str start_year +:+ "_" +:+ str end_year
         +:+ "_" +:+ str limit) in
  (exists select,
     race_base_query (limit_clause limit)
     = select
         +:+ "ORDER BY kaisai_nen, kaisai_tsukihi, keibajo_code, race_bango
    " +:+ "LIMIT " +:+ str limit +:+ "
    "
     /\ String.index 0 "FROM jvd_ra" select <> None
     /\ String.index 0 "LIMIT" select = None)
  /\ (exists select,
        race_horse_query (limit_clause limit)
        = select
            +:+ "ORDER BY r.kaisai_nen, r.kaisai_tsukihi, r.keibajo_code, r.race_bango, s.wakuban
    " +:+ "LIMIT " +:+ str limit +:+ "
    "
        /\ String.index 0 "FROM jvd_ra r" select <> None
        /\ String.index 0 "LIMIT" select = None)
  /\ (kept locate base_path w = None ->
      fst (get_race_base_info engine here locate start_year end_year limit w)
        = match engine (race_base_query (limit_clause limit)) params with
          | Ok df =>
              match locate base_path with
              | Some _ => Ok df
              | None => Err OSError
              end
          | Err e => Err e
          end
      /\ executed (snd (get_race_base_info engine here locate
                          start_year end_year limit w))
        = executed w ++ [(race_base_query (limit_clause limit), params)])
  /\ (kept locate horse_path w = None ->
      fst (get_race_and_horse_data engine here locate start_year end_year limit w)
        = match engine (race_horse_query (limit_clause limit)) params with
          | Ok df =>
              match locate horse_path with
              | Some _ => Ok df
              | None => Err OSError
              end
          | Err e => Err e
          end
      /\ executed (snd (get_race_and_horse_data engine here locate
                          start_year end_year limit w))
        = executed w ++ [(race_horse_query (limit_clause limit), params)]).
Proof.
  intros Htruthy params base_path horse_path.
  destruct limit_clause_is_last_line
    as [(base & Hbase & Hbase_from & Hbase_limit)
        (horse & Hhorse & Hhorse_from & Hhorse_limit)].
  split; [| split; [| split]].
  - exists base. rewrite Hbase, (limit_clause_truthy _ Htruthy).
    now rewrite TextFacts.append_assoc.
  - exists horse. rewrite Hhorse, (limit_clause_truthy _ Htruthy).
    now rewrite TextFacts.append_assoc.
  - intros Hmiss. unfold get_race_base_info. now apply miss_runs_statement.
  - intros Hmiss. unfold get_race_and_horse_data. now apply miss_runs_statement.
Qed.

(** The key of [get_race_base_info] does tell two integer limits apart. *)
Lemma race_base_key_separates_limits (start_year end_year : value) (l1 l2 : Z) :
  l1 <> l2 ->
  "race_base_" +:+ str start_year +:+ "_" +:+ str end_year
    +:+ "_" +:+ str (VInt l1)
  <> "race_base_" +:+ str start_year +:+ "_" +:+ str end_year
       +:+ "_" +:+ str (VInt l2).
Proof.
  intros Hne Hkey. apply Hne.
  repeat apply (inj (String.append _)) in Hkey.
  now apply (inj pretty).
Qed.

(** C1 on the code. The key of [get_sire_track_condition_stats] is built
    from [sire_id] alone: after a first call has stored its table, a call
    with other thresholds finds that table under the same key and returns
    it, without sending its own binding to the engine. *)
Theorem sire_cache_key_ignores_thresholds
    (sire_id min_horses min_races min_horses' min_races' : value)
    (w : world) (df : DataFrame) (f : string) :
  locate (cache_path here (sire_key sire_id)) = Some f ->
  files w !! f = None ->
  engine (sire_track_condition_query
            (if truthy sire_id then "AND u.ketto_joho_01a = :sire_id" else ""))
         (sire_params sire_id min_horses min_races) = Ok df ->
  let first :=
    get_sire_track_condition_stats engine here locate sire_id min_horses
      min_races w in
  fst first = Ok df
  /\ get_sire_track_condition_stats engine here locate sire_id min_horses'
       min_races' (snd first) = (Ok df, snd first).
Proof.
  intros Hf Hmiss Hengine first. subst first.
  unfold get_sire_track_condition_stats.
  rewrite CacheStore.query_with_cache_compute
    by (right; unfold kept; now rewrite Hf).
  cbn [bound]. cbn zeta. rewrite Hengine, Hf. cbn [fst snd].
  split; [reflexivity |].
  apply CacheStore.query_with_cache_hit. now apply CacheStore.kept_insert.
Qed.

End WithEngine.

Import Samples.

Lemma falsy_limit_omits_clause_witness :
  fst (get_race_base_info empty_engine "" desk (VStr "2010") (VStr "2023")
         (VInt 0) (World ∅ []))
  = Ok [].
Proof.
  refine (eq_trans
            (proj1 (proj1 (proj2 (proj1 (falsy_limit_omits_clause empty_engine
               "" desk (VStr "2010") (VStr "2023") (VInt 0) (World ∅ []))
               eq_refl)) _)) _);
    vm_compute; reflexivity.
Defined.

(** C10 as stated fails when a table is stored for the key. The text
    ['0'] is truthy and prints like the number [0]: a call with it puts
    the table of the statement with [LIMIT 0] under the key the call with
    [limit=0] uses, and that call then returns it, no row, and sends
    nothing, though the engine answers the unlimited statement with a
    row. *)
Lemma zero_limit_served_from_cache :
  let first :=
    get_race_base_info limiting_engine "" desk (VStr "2010") (VStr "2023")
      (VStr "0") (World ∅ []) in
  get_race_base_info limiting_engine "" desk (VStr "2010") (VStr "2023")
    (VInt 0) (snd first)
  = (Ok [], snd first)
  /\ limiting_engine (race_base_query "")
       (<["start_year" := VStr "2010"]> (<["end_year" := VStr "2023"]> ∅))
     = Ok [∅].
Proof. split; vm_compute; reflexivity. Qed.

Lemma limit_spliced_unvalidated_witness :
  fst (get_race_base_info echo_engine "" desk (VStr "2010") (VStr "2023")
         (VStr "5 OFFSET 2") (World ∅ []))
  = Ok [<["start_year" := VStr "2010"]> (<["end_year" := VStr "2023"]> ∅)].
Proof.
  refine (eq_trans
            (proj1 (proj1 (proj2 (proj2 (limit_spliced_unvalidated echo_engine
               "" desk (VStr "2010") (VStr "2023") (VStr "5 OFFSET 2")
               (World ∅ []) eq_refl))) _)) _);
    vm_compute; reflexivity.
Defined.

(** C7 as stated fails: a limit that is text, not an integer, raises no
    [ValidationError]; the call succeeds and the engine has been sent the
    statement with that text after [LIMIT]. *)
Lemma non_integer_limit_not_rejected :
  fst (get_race_base_info empty_engine "" desk (VStr "2010") (VStr "2023")
         (VStr "5 OFFSET 2") (World ∅ [])) = Ok []
  /\ executed
       (snd (get_race_base_info empty_engine "" desk (VStr "2010") (VStr "2023")
               (VStr "5 OFFSET 2") (World ∅ [])))
     = [(race_base_query "LIMIT 5 OFFSET 2",
         <["start_year" := VStr "2010"]> (<["end_year" := VStr "2023"]> ∅))]
  /\ fst (get_race_and_horse_data empty_engine "" desk (VStr "2010") (VStr "2023")
            (VStr "5 OFFSET 2") (World ∅ [])) = Ok []
  /\ executed
       (snd (get_race_and_horse_data empty_engine "" desk (VStr "2010")
               (VStr "2023") (VStr "5 OFFSET 2") (World ∅ [])))
     = [(race_horse_query "LIMIT 5 OFFSET 2",
         <["start_year" := VStr "2010"]> (<["end_year" := VStr "2023"]> ∅))].
Proof. repeat split. Qed.

(** The thresholds change what the statement returns: one more required
    race and the group of [three_rows] is gone. *)
Example sire_thresholds_change_output :
  (rows ← Sql.Sire.select None 1 3 three_rows; Ok (length rows)) = Ok 1%nat
  /\ Sql.Sire.select None 1 4 three_rows = Ok [].
Proof. split; vm_compute; reflexivity. Qed.

(** The run behind C1: thresholds 3 and 10, then 3 and 50, on an engine
    that echoes its binding. The second call returns the binding of the
    first, which is not its own. *)
Lemma sire_cache_key_ignores_thresholds_witness :
  let first :=
    get_sire_track_condition_stats echo_engine "" desk VNone (VInt 3) (VInt 10)
      (World ∅ []) in
  (fst first = Ok [sire_params VNone (VInt 3) (VInt 10)]
   /\ get_sire_track_condition_stats echo_engine "" desk VNone (VInt 3) (VInt 50)
        (snd first)
      = (Ok [sire_params VNone (VInt 3) (VInt 10)], snd first))
  /\ sire_params VNone (VInt 3) (VInt 10) !! "min_races" = Some (VInt 10)
  /\ sire_params VNone (VInt 3) (VInt 50) !! "min_races" = Some (VInt 50).
Proof.
  split; [| split; reflexivity].
  apply (sire_cache_key_ignores_thresholds echo_engine "" desk VNone
           (VInt 3) (VInt 10) (VInt 3) (VInt 50) (World ∅ [])
           [sire_params VNone (VInt 3) (VInt 10)]
           "/repo/data/cache/sire_track_condition.pkl"); reflexivity.
Defined.

End QueryBuilders.

(** ** The aggregate statements *)

Module Aggregates.

Import Sql Samples.

Lemma bind_ok {T U} (c : result T) (k : T -> result U) (u : U) :
  c ≫= k = Ok u -> exists t, c = Ok t /\ k t = Ok u.
Proof. destruct c as [t | e]; cbn; [eauto | discriminate]. Qed.

Tactic Notation "invert_bind" hyp(H) "as" ident(x) ident(Hx) :=
  apply bind_ok in H as (x & Hx & H); cbn beta in H.


(** *** Rows through a statement *)

Lemma traverse_in {T U} (f : T -> result U) l us u :
  traverse f l = Ok us -> In u us -> exists t, In t l /\ f t = Ok u.
Proof.
  revert us. induction l as [| t l IH]; cbn; intros us H Hin.
  - injection H as <-. destruct Hin.
  - invert_bind H as u0 Hu0. invert_bind H as us0 Hus0. injection H as <-.
    destruct Hin as [<- | Hin]; [eauto |].
    destruct (IH _ Hus0 Hin) as (t' & ? & ?). eauto.
Qed.

Lemma insert_desc_in {R} (key : R -> Q) x y l :
  In y (insert_desc key x l) <-> y = x \/ In y l.
Proof.
  induction l as [| z l IH]; cbn; [intuition |].
  destruct (Qle_bool (key z) (key x)); cbn; rewrite ?IH; intuition.
Qed.

Lemma order_by_desc_in {R} (key : R -> Q) y l :
  In y (order_by_desc key l) <-> In y l.
Proof.
  induction l as [| x l IH]; cbn; [reflexivity |].
  rewrite insert_desc_in, IH. intuition.
Qed.

Lemma where_length cond g rows :
  where_ cond g = Ok rows -> (length rows <= length g)%nat.
Proof.
  revert rows. induction g as [| e g IH]; cbn; intros rows H.
  - injection H as <-. cbn. lia.
  - invert_bind H as keep Hkeep. invert_bind H as rest Hrest. injection H as <-.
    specialize (IH _ Hrest). destruct keep; cbn; lia.
Qed.

Lemma wins_within_top3 g ws ts :
  where_ is_win g = Ok ws -> where_ is_top3 g = Ok ts ->
  (length ws <= length ts)%nat.
Proof.
  revert ws ts. induction g as [| e g IH]; cbn; intros ws ts Hw Ht.
  - injection Hw as <-. cbn. lia.
  - invert_bind Hw as won Hwon. invert_bind Hw as ws' Hws. injection Hw as <-.
    invert_bind Ht as placed Hplaced. invert_bind Ht as ts' Hts. injection Ht as <-.
    specialize (IH _ _ Hws Hts).
    unfold is_win, is_top3 in *.
    destruct (cast_integer (s_kakutei_chakujun e)) as [c | err]; cbn in *;
      [| discriminate].
    injection Hwon as <-. injection Hplaced as <-.
    destruct (c =? 1) eqn:Hc.
    + apply Z.eqb_eq in Hc. subst c. cbn. lia.
    + destruct (c <=? 3); cbn; lia.
Qed.

Lemma round2_nonneg (x : Q) :
  (0 <= x)%Q -> (round2 x == Qfloor (x * 100 + (1 # 2)) # 100)%Q.
Proof.
  intros Hx. unfold round2, round_half_away.
  rewrite Qred_correct.
  assert (H : Qle_bool 0 (x * 100) = true) by (apply Qle_bool_iff; lra).
  now rewrite H.
Qed.

Lemma round2_percent_bounds (x : Q) :
  (0 <= x)%Q -> (x <= 100)%Q -> (0 <= round2 x)%Q /\ (round2 x <= 100)%Q.
Proof.
  intros H0 H100. rewrite round2_nonneg by assumption.
  assert (Hlo : 0 <= Qfloor (x * 100 + (1 # 2))).
  { change 0 with (Qfloor 0). apply Qfloor_resp_le. lra. }
  assert (Hhi : Qfloor (x * 100 + (1 # 2)) <= 10000).
  { change 10000 with (Qfloor (10000 + (1 # 2))). apply Qfloor_resp_le. lra. }
  revert Hlo Hhi. generalize (Qfloor (x * 100 + (1 # 2))). intros z Hlo Hhi.
  split; unfold Qle; cbn; lia.
Qed.

Lemma round2_monotone (x y : Q) :
  (0 <= x)%Q -> (x <= y)%Q -> (round2 x <= round2 y)%Q.
Proof.
  intros H0 Hxy. rewrite !round2_nonneg by lra.
  assert (H : Qfloor (x * 100 + (1 # 2)) <= Qfloor (y * 100 + (1 # 2))).
  { apply Qfloor_resp_le. lra. }
  revert H. generalize (Qfloor (x * 100 + (1 # 2))), (Qfloor (y * 100 + (1 # 2))).
  intros zx zy H. unfold Qle. cbn. lia.
Qed.

Lemma rate_ok k g q :
  rate k g = Ok q ->
  0 < count g /\ q = round2 (inject_Z k / inject_Z (count g) * 100)%Q.
Proof.
  unfold rate, divide. intros H.
  destruct (Qeq_bool (inject_Z (count g)) 0) eqn:Hzero; cbn in H; [discriminate |].
  injection H as <-. split; [| reflexivity].
  unfold count in *. destruct g; cbn in *; [discriminate | lia].
Qed.

Lemma percent_bounds (k n : Z) :
  0 <= k <= n -> 0 < n ->
  (0 <= inject_Z k / inject_Z n * 100)%Q /\ (inject_Z k / inject_Z n * 100 <= 100)%Q.
Proof.
  intros Hk Hn.
  assert (Hn' : (0 < inject_Z n)%Q) by (change 0%Q with (inject_Z 0); rewrite <- Zlt_Qlt; lia).
  assert (H0 : (0 <= inject_Z k / inject_Z n)%Q).
  { apply Qle_shift_div_l; [assumption |]. rewrite Qmult_0_l.
    change 0%Q with (inject_Z 0). rewrite <- Zle_Qle. lia. }
  assert (H1 : (inject_Z k / inject_Z n <= 1)%Q).
  { apply Qle_shift_div_r; [assumption |]. rewrite Qmult_1_l.
    rewrite <- Zle_Qle. lia. }
  split; lra.
Qed.

Lemma percent_monotone (k k' n : Z) :
  k <= k' -> 0 < n ->
  (inject_Z k / inject_Z n * 100 <= inject_Z k' / inject_Z n * 100)%Q.
Proof.
  intros Hk Hn.
  assert (Hn' : (0 < inject_Z n)%Q) by (change 0%Q with (inject_Z 0); rewrite <- Zlt_Qlt; lia).
  assert (H : (inject_Z k / inject_Z n <= inject_Z k' / inject_Z n)%Q).
  { unfold Qdiv. apply Qmult_le_compat_r; [rewrite <- Zle_Qle; lia |].
    apply Qlt_le_weak, Qinv_lt_0_compat, Hn'. }
  lra.
Qed.

(** The rates of one group. *)
Lemma group_rates g wr tr :
  win_rate_of g = Ok wr -> top3_rate_of g = Ok tr ->
  (0 <= wr)%Q /\ (wr <= 100)%Q /\ (wr <= tr)%Q.
Proof.
  unfold win_rate_of, top3_rate_of, wins_of, top3_of, count_filter.
  intros Hw Ht.
  invert_bind Hw as w Hwins. invert_bind Ht as t Htop3.
  invert_bind Hwins as ws Hws. invert_bind Htop3 as ts Hts.
  injection Hwins as <-. injection Htop3 as <-.
  apply rate_ok in Hw as [Hn ->]. apply rate_ok in Ht as [_ ->].
  pose proof (where_length _ _ _ Hws) as Hwn.
  pose proof (wins_within_top3 _ _ _ Hws Hts) as Hwt.
  unfold count in *.
  destruct (percent_bounds (Z.of_nat (length ws)) (Z.of_nat (length g))) as [Hlo Hhi];
    [lia | lia |].
  destruct (round2_percent_bounds _ Hlo Hhi) as [? ?].
  repeat split; [assumption | assumption |].
  apply round2_monotone; [assumption |]. apply percent_monotone; lia.
Qed.

Lemma jockey_aggregate_ok kg r :
  Jockey.aggregate kg = Ok r ->
  exists g,
    Jockey.total_races r = count g
    /\ win_rate_of g = Ok (Jockey.win_rate r)
    /\ top3_rate_of g = Ok (Jockey.top3_rate r)
    /\ wins_of g = Ok (Jockey.wins r)
    /\ top3_of g = Ok (Jockey.top3 r)
    /\ Jockey.roi_rank r = roi_rank (Jockey.roi r).
Proof.
  destruct kg as [[[[kishu keibajo] track] dist] g]. unfold Jockey.aggregate.
  intros H. exists g.
  invert_bind H as w Hw. invert_bind H as t Ht. invert_bind H as wr Hwr.
  invert_bind H as tr Htr. invert_bind H as awo Hawo. invert_bind H as roi Hroi.
  injection H as <-. cbn. auto 10.
Qed.

Lemma sire_aggregate_ok kg r :
  Sire.aggregate kg = Ok r ->
  exists g,
    Sire.total_races r = count g
    /\ win_rate_of g = Ok (Sire.win_rate r)
    /\ wins_of g = Ok (Sire.wins r)
    /\ Sire.roi_rank r = roi_rank (Sire.roi r).
Proof.
  destruct kg as [[[[id name] track] cond] g]. unfold Sire.aggregate.
  intros H. exists g.
  invert_bind H as w Hw. invert_bind H as wr Hwr. invert_bind H as pops Hpops.
  invert_bind H as awo Hawo. invert_bind H as roi Hroi.
  injection H as <-. cbn. auto 10.
Qed.

Lemma jockey_select_in jockey_code years_range min_races current_year table out r :
  Jockey.select jockey_code years_range min_races current_year table = Ok out ->
  In r out -> exists kg, Jockey.aggregate kg = Ok r.
Proof.
  unfold Jockey.select. intros H Hin.
  invert_bind H as rows Hrows. invert_bind H as keyed Hkeyed.
  invert_bind H as groups Hgroups. injection H as <-.
  apply order_by_desc_in, filter_In in Hin as [Hin _].
  destruct (traverse_in _ _ _ _ Hgroups Hin) as (kg & _ & Hkg). eauto.
Qed.

Lemma sire_select_in sire min_horses min_races table out r :
  Sire.select sire min_horses min_races table = Ok out ->
  In r out -> exists kg, Sire.aggregate kg = Ok r.
Proof.
  unfold Sire.select. intros H Hin.
  invert_bind H as rows Hrows. invert_bind H as keyed Hkeyed.
  invert_bind H as groups Hgroups. injection H as <-.
  apply order_by_desc_in, filter_In in Hin as [Hin _].
  destruct (traverse_in _ _ _ _ Hgroups Hin) as (kg & _ & Hkg). eauto.
Qed.

Lemma win_rate_percent g wr :
  win_rate_of g = Ok wr -> 0 < count g /\ (0 <= wr)%Q /\ (wr <= 100)%Q.
Proof.
  unfold win_rate_of, wins_of, count_filter. intros Hw.
  invert_bind Hw as w Hwins. invert_bind Hwins as ws Hws. injection Hwins as <-.
  apply rate_ok in Hw as [Hn ->].
  pose proof (where_length _ _ _ Hws) as Hwn. unfold count in *.
  destruct (percent_bounds (Z.of_nat (length ws)) (Z.of_nat (length g))) as [Hlo Hhi];
    [lia | lia |].
  destruct (round2_percent_bounds _ Hlo Hhi) as [? ?]. auto.
Qed.

Lemma where_app cond l1 l2 :
  where_ cond (l1 ++ l2)
  = (r1 ← where_ cond l1; r2 ← where_ cond l2; Ok (r1 ++ r2)).
Proof.
  induction l1 as [| e l1 IH]; cbn.
  - now destruct (where_ cond l2).
  - destruct (cond e) as [keep | err]; cbn; [| reflexivity].
    rewrite IH. destruct (where_ cond l1) as [r1 | err]; cbn; [| reflexivity].
    destruct (where_ cond l2) as [r2 | err]; cbn; [| reflexivity].
    now destruct keep.
Qed.

Lemma where_without cond before e after :
  cond e = Ok false ->
  where_ cond (before ++ e :: after) = where_ cond (before ++ after).
Proof.
  intros He. rewrite !where_app. cbn. rewrite He. cbn.
  destruct (where_ cond before) as [r1 | err]; cbn; [| reflexivity].
  now destruct (where_ cond after).
Qed.

Lemma where_ok_each cond before e after rows :
  where_ cond (before ++ e :: after) = Ok rows -> exists keep, cond e = Ok keep.
Proof.
  rewrite where_app. cbn. intros H.
  invert_bind H as r1 Hr1. destruct (cond e) as [keep | err]; cbn in H; [eauto | discriminate].
Qed.

Lemma excluded_not_finished e :
  digits_only (s_kakutei_chakujun e) = false
  \/ s_kakutei_chakujun e = "00" \/ s_kakutei_chakujun e = "99" ->
  finished e = false.
Proof.
  unfold finished. intros [-> | [-> | ->]]; reflexivity.
Qed.


(** *** The grade *)

(** C3. The grade is a function of [roi] whose five cases split the
    values of [roi] without overlap: S from 200 up, A from 100 to below
    200, B from 70 to below 100, C from 50 to below 70, D below 50; so
    200.00 is S, 100.00 is A and 99.99 is B. Every row the two aggregate
    statements return carries the grade of its own [roi]. *)
Theorem roi_rank_partition (roi : Q) :
  (roi_rank roi = S <-> 200 <= roi)%Q
  /\ (roi_rank roi = A <-> 100 <= roi /\ roi < 200)%Q
  /\ (roi_rank roi = B <-> 70 <= roi /\ roi < 100)%Q
  /\ (roi_rank roi = C <-> 50 <= roi /\ roi < 70)%Q
  /\ (roi_rank roi = D <-> roi < 50)%Q
  /\ roi_rank 200 = S
  /\ roi_rank 100 = A
  /\ roi_rank 99.99 = B
  /\ (forall jockey_code years_range min_races current_year table out r,
        Jockey.select jockey_code years_range min_races current_year table = Ok out ->
        In r out -> Jockey.roi_rank r = roi_rank (Jockey.roi r))
  /\ (forall sire min_horses min_races table out r,
        Sire.select sire min_horses min_races table = Ok out ->
        In r out -> Sire.roi_rank r = roi_rank (Sire.roi r)).
Proof.
  assert (Hcases :
    (roi_rank roi = S <-> 200 <= roi)%Q
    /\ (roi_rank roi = A <-> 100 <= roi /\ roi < 200)%Q
    /\ (roi_rank roi = B <-> 70 <= roi /\ roi < 100)%Q
    /\ (roi_rank roi = C <-> 50 <= roi /\ roi < 70)%Q
    /\ (roi_rank roi = D <-> roi < 50)%Q).
  { unfold roi_rank.
    destruct (Qle_bool 200 roi) eqn:H200;
      [apply Qle_bool_iff in H200
      | apply not_true_iff_false in H200; rewrite Qle_bool_iff in H200];
    (destruct (Qle_bool 100 roi) eqn:H100;
      [apply Qle_bool_iff in H100
      | apply not_true_iff_false in H100; rewrite Qle_bool_iff in H100]);
    (destruct (Qle_bool 70 roi) eqn:H70;
      [apply Qle_bool_iff in H70
      | apply not_true_iff_false in H70; rewrite Qle_bool_iff in H70]);
    (destruct (Qle_bool 50 roi) eqn:H50;
      [apply Qle_bool_iff in H50
      | apply not_true_iff_false in H50; rewrite Qle_bool_iff in H50]);
    repeat split; intros; try discriminate; try reflexivity; try lra. }
  destruct Hcases as (HS & HA & HB & HC & HD).
  repeat (split; [assumption || reflexivity |]).
  split.
  - intros jockey_code years_range min_races current_year table out r Hout Hin.
    destruct (jockey_select_in _ _ _ _ _ _ _ Hout Hin) as (kg & Hkg).
    now destruct (jockey_aggregate_ok _ _ Hkg) as (g & _ & _ & _ & _ & _ & Hrank).
  - intros sire min_horses min_races table out r Hout Hin.
    destruct (sire_select_in _ _ _ _ _ _ Hout Hin) as (kg & Hkg).
    now destruct (sire_aggregate_ok _ _ Hkg) as (g & _ & _ & _ & Hrank).
Qed.

Lemma roi_rank_partition_witness :
  Jockey.roi_rank three_rows_course = roi_rank (Jockey.roi three_rows_course).
Proof.
  apply (proj1 (proj2 (proj2 (proj2 (proj2 (proj2 (proj2 (proj2 (proj2
           (roi_rank_partition 0)))))))))
           "01234" 5 1 2021 three_rows [three_rows_course]).
  - vm_compute. reflexivity.
  - left. reflexivity.
Defined.

(** *** The rates *)

(** C8. Every row the jockey statement returns stands for at least one
    race, its [win_rate] lies between 0 and 100 and its [top3_rate] is at
    least its [win_rate]; the [win_rate] of every row of the sire
    statement, which has no [top3_rate], lies between 0 and 100 too. *)
Theorem win_rate_within_percent_and_top3 :
  (forall jockey_code years_range min_races current_year table out r,
     Jockey.select jockey_code years_range min_races current_year table = Ok out ->
     In r out ->
     0 < Jockey.total_races r
     /\ (0 <= Jockey.win_rate r)%Q /\ (Jockey.win_rate r <= 100)%Q
     /\ (Jockey.win_rate r <= Jockey.top3_rate r)%Q)
  /\ (forall sire min_horses min_races table out r,
        Sire.select sire min_horses min_races table = Ok out ->
        In r out ->
        0 < Sire.total_races r
        /\ (0 <= Sire.win_rate r)%Q /\ (Sire.win_rate r <= 100)%Q).
Proof.
  split.
  - intros jockey_code years_range min_races current_year table out r Hout Hin.
    destruct (jockey_select_in _ _ _ _ _ _ _ Hout Hin) as (kg & Hkg).
    destruct (jockey_aggregate_ok _ _ Hkg) as (g & -> & Hwr & Htr & _).
    destruct (group_rates _ _ _ Hwr Htr) as (? & ? & ?).
    destruct (win_rate_percent _ _ Hwr) as (? & _). auto.
  - intros sire min_horses min_races table out r Hout Hin.
    destruct (sire_select_in _ _ _ _ _ _ Hout Hin) as (kg & Hkg).
    destruct (sire_aggregate_ok _ _ Hkg) as (g & -> & Hwr & _).
    destruct (win_rate_percent _ _ Hwr) as (? & ? & ?). auto.
Qed.


Lemma win_rate_within_percent_and_top3_witness :
  0 < Jockey.total_races three_rows_course
  /\ (0 <= Jockey.win_rate three_rows_course)%Q
  /\ (Jockey.win_rate three_rows_course <= 100)%Q
  /\ (Jockey.win_rate three_rows_course <= Jockey.top3_rate three_rows_course)%Q.
Proof.
  apply (proj1 win_rate_within_percent_and_top3
           "01234" 5 1 2021 three_rows [three_rows_course]).
  - vm_compute. reflexivity.
  - left. reflexivity.
Defined.

(** *** The finishing-position filter *)

(** C4 as the code has it. A row whose finishing position is not a
    non-empty string of decimal digits, or is ["00"] or ["99"], fails the
    WHERE clause of each statement: whatever a statement returns with the
    row in its table it returns without it, so the row is in no
    [total_races], [wins] or [top3]. *)
Theorem excluded_rows_contribute_nothing (e : entry) (before after : list entry) :
  (digits_only (s_kakutei_chakujun e) = false
   \/ s_kakutei_chakujun e = "00" \/ s_kakutei_chakujun e = "99") ->
  finished e = false
  /\ (forall jockey_code years_range min_races current_year out,
        Jockey.select jockey_code years_range min_races current_year
          (before ++ e :: after) = Ok out ->
        Jockey.select jockey_code years_range min_races current_year
          (before ++ after) = Ok out)
  /\ (forall sire min_horses min_races,
        Sire.select sire min_horses min_races (before ++ e :: after)
        = Sire.select sire min_horses min_races (before ++ after))
  /\ (forall horse_id upto,
        Previous.select horse_id upto (before ++ e :: after)
        = Previous.select horse_id upto (before ++ after)).
Proof.
  intros Hex. pose proof (excluded_not_finished e Hex) as Hfin.
  split; [assumption | split; [| split]].
  - intros jockey_code years_range min_races current_year out H.
    unfold Jockey.select in *.
    invert_bind H as rows Hrows.
    destruct (where_ok_each _ _ _ _ _ Hrows) as [keep Hkeep].
    assert (keep = false) as ->.
    { unfold Jockey.condition in Hkeep. rewrite Hfin in Hkeep.
      destruct (negb _); [congruence |].
      destruct (cast_integer _); cbn in Hkeep; [| discriminate].
      rewrite andb_false_r in Hkeep. congruence. }
    rewrite <- (where_without _ _ _ _ Hkeep), Hrows. exact H.
  - intros sire min_horses min_races. unfold Sire.select.
    rewrite where_without; [reflexivity |].
    unfold Sire.condition. now rewrite Hfin.
  - intros horse_id upto. unfold Previous.select.
    rewrite where_without; [reflexivity |].
    unfold Previous.condition. now rewrite Hfin, andb_false_r.
Qed.

Lemma excluded_rows_contribute_nothing_witness :
  Sire.select None 1 1 (three_rows ++ starter "99" "30" :: [])
  = Sire.select None 1 1 (three_rows ++ []).
Proof.
  exact (proj1 (proj2 (proj2 (excluded_rows_contribute_nothing
           (starter "99" "30") three_rows []
           (or_intror (or_intror eq_refl))))) None 1 1).
Defined.

(** C4 as stated fails: ["0"] is a string of digits whose value, zero, is
    not a positive integer, yet the row passes the filter and counts in
    [total_races] and in [top3]. *)
Lemma zero_position_is_counted :
  cast_integer "0" = Ok 0
  /\ finished (starter "0" "30") = true
  /\ (rows ← Jockey.select "01234" 5 1 2021 [starter "0" "30"];
      Ok (map (fun r => (Jockey.total_races r, Jockey.wins r, Jockey.top3 r)) rows))
     = Ok [(1, 0, 1)]
  /\ (rows ← Sire.select None 1 1 [starter "0" "30"];
      Ok (map (fun r => (Sire.total_races r, Sire.wins r)) rows))
     = Ok [(1, 0)]
  /\ (rows ← Previous.select "1234567890" None [starter "0" "30"];
      Ok (map Previous.chakujun rows))
     = Ok [0].
Proof. repeat split; vm_compute; reflexivity. Qed.

End Aggregates.

(** ** The feature utilities *)

Module FeatureUtilities.

Import Sql Samples Features.

(** *** Identifiers *)

Lemma getitem_some (row : Series) key v :
  row !! key = Some v -> getitem row key = Ok v.
Proof. intros H. unfold getitem. now rewrite H. Qed.

(** C9 on the code. [create_race_id] is the text of the year,
    month-day, course and race-number cells, in that order and with
    nothing between them;
    [create_horse_race_id] appends an underscore and the text of the
    horse's registration number. Rows that agree on these cells get the
    same identifiers. *)
Theorem create_race_id_concatenates (row : Series)
    (nen tsukihi keibajo bango : value) :
  row !! "kaisai_nen" = Some nen ->
  row !! "kaisai_tsukihi" = Some tsukihi ->
  row !! "keibajo_code" = Some keibajo ->
  row !! "race_bango" = Some bango ->
  create_race_id row
    = Ok (str nen +:+ str tsukihi +:+ str keibajo +:+ str bango)
  /\ (forall horse,
        row !! "ketto_toroku_bango" = Some horse ->
        create_horse_race_id row
          = Ok ((str nen +:+ str tsukihi +:+ str keibajo +:+ str bango)
                  +:+ "_" +:+ str horse))
  /\ (forall row' : Series,
        row' !! "kaisai_nen" = Some nen ->
        row' !! "kaisai_tsukihi" = Some tsukihi ->
        row' !! "keibajo_code" = Some keibajo ->
        row' !! "race_bango" = Some bango ->
        create_race_id row' = create_race_id row
        /\ (row' !! "ketto_toroku_bango" = row !! "ketto_toroku_bango" ->
            create_horse_race_id row' = create_horse_race_id row)).
Proof.
  intros Hnen Htsukihi Hkeibajo Hbango.
  assert (Hid : forall r : Series,
             r !! "kaisai_nen" = Some nen ->
             r !! "kaisai_tsukihi" = Some tsukihi ->
             r !! "keibajo_code" = Some keibajo ->
             r !! "race_bango" = Some bango ->
             create_race_id r
               = Ok (str nen +:+ str tsukihi +:+ str keibajo +:+ str bango)).
  { intros r H1 H2 H3 H4. unfold create_race_id.
    now rewrite (getitem_some _ _ _ H1), (getitem_some _ _ _ H2),
      (getitem_some _ _ _ H3), (getitem_some _ _ _ H4). }
  split; [now apply Hid | split].
  - intros horse Hhorse. unfold create_horse_race_id.
    rewrite (Hid row) by assumption.
    now rewrite (getitem_some _ _ _ Hhorse).
  - intros row' H1 H2 H3 H4. split.
    + now rewrite (Hid row'), (Hid row).
    + intros Hsame. unfold create_horse_race_id.
      rewrite (Hid row'), (Hid row) by assumption.
      unfold getitem. now rewrite Hsame.
Qed.

Lemma create_race_id_concatenates_witness :
  create_race_id (Sql.race_horse_row (Samples.starter "01" "30"))
    = Ok "202101010512"
  /\ create_horse_race_id (Sql.race_horse_row (Samples.starter "01" "30"))
    = Ok "202101010512_1234567890".
Proof.
  pose proof (create_race_id_concatenates
                (Sql.race_horse_row (Samples.starter "01" "30"))
                (VStr "2021") (VStr "0101") (VStr "05") (VStr "12")
                eq_refl eq_refl eq_refl eq_refl) as [Hrace [Hhorse _]].
  split; [exact Hrace | exact (Hhorse (VStr "1234567890") eq_refl)].
Defined.

(** C9 at its example, which is the example of the docstring of
    [create_race_id]: year 2021, month-day 0101, course 05 and race 12
    concatenate to twelve characters; the code does not return the
    fourteen of [20210101050112] that the docstring gives. *)
Lemma create_race_id_example_is_twelve_characters :
  (Sql.race_horse_row (Samples.starter "01" "30") !! "kaisai_nen",
   Sql.race_horse_row (Samples.starter "01" "30") !! "kaisai_tsukihi",
   Sql.race_horse_row (Samples.starter "01" "30") !! "keibajo_code",
   Sql.race_horse_row (Samples.starter "01" "30") !! "race_bango",
   Sql.race_horse_row (Samples.starter "01" "30") !! "ketto_toroku_bango")
  = (Some (VStr "2021"), Some (VStr "0101"), Some (VStr "05"),
     Some (VStr "12"), Some (VStr "1234567890"))
  /\ create_race_id (Sql.race_horse_row (Samples.starter "01" "30"))
     <> Ok "20210101050112"
  /\ create_horse_race_id (Sql.race_horse_row (Samples.starter "01" "30"))
     <> Ok "20210101050112_1234567890".
Proof. repeat split; vm_compute; discriminate. Qed.

(** *** Group rates *)

Lemma digit_cases (c : ascii) :
  is_digit c = true ->
  In c ["0"; "1"; "2"; "3"; "4"; "5"; "6"; "7"; "8"; "9"]%char.
Proof.
  destruct c as [[] [] [] [] [] [] [] []]; cbn; intros H;
    try discriminate; tauto.
Qed.

Lemma two_digit_win s :
  two_digit s = true ->
  (c ← cast_integer s; Ok (c =? 1)) = Ok (String.eqb s "01").
Proof.
  unfold two_digit, chars.
  destruct s as [| a [| b [| ? ?]]]; cbn [list_ascii_of_string]; try discriminate.
  intros H. apply andb_prop in H as [Ha Hb].
  apply digit_cases in Ha, Hb. cbn in Ha, Hb.
  decompose [or] Ha; try contradiction; subst;
    decompose [or] Hb; try contradiction; subst; reflexivity.
Qed.

Lemma row_chakujun e :
  getitem (race_horse_row e) "kakutei_chakujun" = Ok (VStr (s_kakutei_chakujun e)).
Proof. reflexivity. Qed.

Lemma row_odds e :
  getitem (race_horse_row e) "tansho_odds" = Ok (VStr (s_tansho_odds e)).
Proof. reflexivity. Qed.

(** The rows the SQL side takes as winners, given what the cast makes of
    each position. *)
Lemma where_is_win_filter (rank : entry -> Z) g :
  Forall (fun e => cast_integer (s_kakutei_chakujun e) = Ok (rank e)) g ->
  where_ is_win g = Ok (List.filter (fun e => rank e =? 1) g).
Proof.
  induction 1 as [| e l He _ IH]; [reflexivity |].
  assert (Hwin : is_win e = Ok (rank e =? 1))
    by (unfold is_win; now rewrite He).
  cbn [where_ List.filter]. rewrite Hwin, IH. cbn.
  now destruct (rank e =? 1).
Qed.

Lemma column_chakujun g :
  traverse (fun row : Series => getitem row "kakutei_chakujun") (map race_horse_row g)
  = Ok (map (fun e => VStr (s_kakutei_chakujun e)) g).
Proof.
  induction g as [| e l IH]; [reflexivity |].
  cbn [traverse map]. now rewrite row_chakujun, IH.
Qed.

Lemma filter_is_first_length g :
  length (List.filter is_first (map (fun e => VStr (s_kakutei_chakujun e)) g))
  = length (List.filter first_place g).
Proof.
  induction g as [| e l IH]; cbn; [reflexivity |].
  fold (first_place e). destruct (first_place e); cbn; now rewrite IH.
Qed.

Lemma traverse_payout (rank : entry -> Z) (number : entry -> Q) g :
  Forall (fun e => cast_integer (s_kakutei_chakujun e) = Ok (rank e)) g ->
  Forall (fun e => rank e = 1 ->
                   cast_numeric (s_tansho_odds e) = Ok (number e)) g ->
  traverse payout g
  = Ok (map (fun e => if rank e =? 1 then (number e / 10)%Q else 0%Q) g).
Proof.
  intros Hrank. induction Hrank as [| e l He _ IH]; intros Hodds;
    [reflexivity |].
  apply Forall_cons in Hodds as [Ho Hodds].
  assert (Hpay : payout e = Ok (if rank e =? 1 then (number e / 10)%Q else 0%Q)).
  { unfold payout, is_win, win_odds. rewrite He. cbn.
    destruct (Z.eqb_spec (rank e) 1) as [Hwin |]; [| reflexivity].
    now rewrite (Ho Hwin). }
  cbn [traverse map]. now rewrite Hpay, (IH Hodds).
Qed.

Lemma same_winners (rank : entry -> Z) g :
  Forall (fun e => first_place e = (rank e =? 1)) g ->
  List.filter first_place g = List.filter (fun e => rank e =? 1) g.
Proof.
  induction 1 as [| e l He _ IH]; [reflexivity |].
  cbn [List.filter]. now rewrite He, IH.
Qed.

Lemma two_digit_same_winner (rank : entry -> Z) e :
  cast_integer (s_kakutei_chakujun e) = Ok (rank e) ->
  two_digit (s_kakutei_chakujun e) = true ->
  first_place e = (rank e =? 1).
Proof.
  intros Hrank Htwo. pose proof (two_digit_win _ Htwo) as H.
  rewrite Hrank in H. cbn in H. unfold first_place. congruence.
Qed.

Section Float.

Variable float_of_text : string -> result float.

Lemma iterrows_fold (double : entry -> float) g :
  Forall (fun e => first_place e = true ->
                   float_of_text (s_tansho_odds e) = Ok (double e)) g ->
  forall total_return,
    iterrows float_of_text (map race_horse_row g) total_return
    = Ok (fold_left
            (fun t e => if first_place e then (t + double e / 10)%float else t)
            g total_return).
Proof.
  induction 1 as [| e l He _ IH]; intros total_return; [reflexivity |].
  cbn [iterrows map fold_left]. rewrite row_chakujun. cbn [mbind result_bind is_first].
  fold (first_place e). destruct (first_place e).
  - rewrite row_odds. cbn [mbind result_bind py_float]. rewrite (He eq_refl).
    cbn [mbind result_bind]. apply IH.
  - apply IH.
Qed.

(** C5 as the code has it. On an empty group the in-memory functions
    return 0.0, where the SQL formulas, evaluated over no rows, divide by
    zero (under [GROUP BY] no group is empty). On a group with a
    row, given what each side makes of the texts it reads (the integer of
    each finishing position and the NUMERIC of each winner's odds for
    SQL, the double of the odds of each row of position ["01"] for
    [float]), both sides evaluate the same two formulas: the winners over
    the rows, and the sum of a tenth of the winners' odds over the rows,
    each times 100. [calculate_win_rate] and [calculate_roi] evaluate
    them in binary64 and do not round; the SQL side evaluates them in
    exact decimals and rounds to two places. The winners are the rows of
    position ["01"] for the first and the rows whose position casts to 1
    for the second: the same rows where every position has two digits.
    On the ten rows with winners at odds ["30"] and ["50"], which [float]
    reads as 30 and 50, both give 80. *)
Theorem group_rates_same_rows (g : list entry)
    (rank : entry -> Z) (number : entry -> Q) (double : entry -> float) :
  (calculate_win_rate [] = Ok 0%float
   /\ calculate_roi float_of_text [] = Ok 0%float
   /\ win_rate_of [] = Err (QueryError "division by zero")
   /\ roi_of [] = Err (QueryError "division by zero"))
  /\ (g <> [] ->
      let n := count g in
      calculate_win_rate (map race_horse_row g)
        = Ok (Z2float (count (List.filter first_place g)) / Z2float n * 100)%float
      /\ (Forall (fun e => first_place e = true ->
                          float_of_text (s_tansho_odds e) = Ok (double e)) g ->
          calculate_roi float_of_text (map race_horse_row g)
          = Ok (fold_left
                  (fun t e =>
                     if first_place e then (t + double e / 10)%float else t)
                  g 0%float / Z2float n * 100)%float)
      /\ (Forall (fun e => cast_integer (s_kakutei_chakujun e) = Ok (rank e)) g ->
          win_rate_of g
          = Ok (round2
                  (inject_Z (count (List.filter (fun e => rank e =? 1) g))
                   / inject_Z n * 100))
          /\ (Forall (fun e => rank e = 1 ->
                              cast_numeric (s_tansho_odds e) = Ok (number e)) g ->
              roi_of g
              = Ok (round2
                      (sum (map (fun e => if rank e =? 1
                                          then (number e / 10)%Q else 0%Q) g)
                       / inject_Z n * 100)))
          /\ (Forall (fun e => first_place e = (rank e =? 1)) g ->
              List.filter first_place g
              = List.filter (fun e => rank e =? 1) g)
          /\ (Forall (fun e => two_digit (s_kakutei_chakujun e) = true) g ->
              List.filter first_place g
              = List.filter (fun e => rank e =? 1) g)))
  /\ (float_of_text "30" = Ok 30%float ->
      float_of_text "50" = Ok 50%float ->
      (paid ← calculate_roi float_of_text (map race_horse_row ten_rows);
       Ok (float_to_Q paid))
      = Ok (Some 80%Q)
      /\ roi_of ten_rows = Ok 80%Q).
Proof.
  split; [repeat split | split].
  - intros Hne n. subst n.
    assert (Hn : Qeq_bool (inject_Z (count g)) 0 = false).
    { destruct g; [congruence | reflexivity]. }
    split; [| split].
    + unfold calculate_win_rate.
      destruct (map race_horse_row g) eqn:Hrows;
        [destruct g; [congruence | discriminate] |].
      rewrite <- Hrows, column_chakujun. cbn [mbind result_bind].
      now rewrite filter_is_first_length, length_map.
    + intros Hfloat. unfold calculate_roi.
      destruct (map race_horse_row g) eqn:Hrows;
        [destruct g; [congruence | discriminate] |].
      rewrite <- Hrows, (iterrows_fold double _ Hfloat). cbn [mbind result_bind].
      now rewrite length_map.
    + intros Hrank. split; [| split; [| split]].
      * unfold win_rate_of, wins_of, count_filter.
        rewrite (where_is_win_filter rank _ Hrank).
        cbn [mbind result_bind]. unfold rate, divide. now rewrite Hn.
      * intros Hodds. unfold roi_of.
        rewrite (traverse_payout rank number _ Hrank Hodds).
        cbn [mbind result_bind]. unfold divide. now rewrite Hn.
      * apply same_winners.
      * intros Htwo. apply same_winners.
        rewrite Forall_forall in Hrank, Htwo. apply Forall_forall.
        intros e He. apply two_digit_same_winner; auto.
  - intros H30 H50. split; [| vm_compute; reflexivity].
    assert (Hfloat :
      Forall (fun e => first_place e = true ->
                       float_of_text (s_tansho_odds e)
                       = Ok (Z2float (raw_odds e))) ten_rows).
    { repeat constructor; first [exact (fun _ => H30) | exact (fun _ => H50)
                                | intros Hfirst; discriminate Hfirst]. }
    unfold calculate_roi.
    change (map race_horse_row ten_rows)
      with (race_horse_row (starter "01" "30")
            :: map race_horse_row (tl ten_rows)) at 1.
    cbv beta iota.
    rewrite (iterrows_fold (fun e => Z2float (raw_odds e)) _ Hfloat).
    vm_compute. reflexivity.
Qed.

End Float.

Lemma group_rates_same_rows_witness :
  calculate_win_rate (map race_horse_row ten_rows) = Ok 20%float
  /\ calculate_roi float_of_digits (map race_horse_row ten_rows) = Ok 80%float
  /\ win_rate_of ten_rows = Ok 20%Q
  /\ roi_of ten_rows = Ok 80%Q.
Proof.
  assert (Hfloat :
    Forall (fun e => first_place e = true ->
                     float_of_digits (s_tansho_odds e)
                     = Ok (Z2float (raw_odds e))) ten_rows)
    by (repeat constructor).
  assert (Hrank :
    Forall (fun e => cast_integer (s_kakutei_chakujun e)
                     = Ok (decimal (chars (s_kakutei_chakujun e)))) ten_rows)
    by (repeat constructor).
  assert (Hodds :
    Forall (fun e => decimal (chars (s_kakutei_chakujun e)) = 1 ->
                     cast_numeric (s_tansho_odds e)
                     = Ok (inject_Z (raw_odds e))) ten_rows)
    by (repeat constructor).
  destruct (group_rates_same_rows float_of_digits ten_rows
              (fun e => decimal (chars (s_kakutei_chakujun e)))
              (fun e => inject_Z (raw_odds e))
              (fun e => Z2float (raw_odds e)))
    as (_ & Hgroup & _).
  destruct (Hgroup ltac:(discriminate)) as (Hwin & Hroi & Hsql).
  destruct (Hsql Hrank) as (Hwin_sql & Hroi_sql & _).
  exact (conj Hwin (conj (Hroi Hfloat) (conj Hwin_sql (Hroi_sql Hodds)))).
Defined.

(** C5 as stated fails, in four ways. One winner in three rows is a win
    rate of 33.33 on the SQL side and, in memory, the double nearest to
    100/3, which is not 33.33. A winner whose position is written ["1"]
    is a winner for the SQL side (win rate 33.33, roi 100) and none in
    memory (0 and 0). A position that is no number makes the SQL cast
    fail where the in-memory function counts the row as a loser. An empty
    group is 0 in memory and a division by zero for the SQL formula. *)
Lemma rates_differ_by_rounding :
  ((rate ← calculate_win_rate (map race_horse_row three_rows); Ok (float_to_Q rate))
   = Ok (Some (2345624805922133 # 70368744177664))
   /\ win_rate_of three_rows = Ok 33.33%Q
   /\ Qeq_bool (2345624805922133 # 70368744177664) 33.33 = false)
  /\ (calculate_win_rate (map race_horse_row lone_digit_rows) = Ok 0%float
      /\ win_rate_of lone_digit_rows = Ok 33.33%Q
      /\ calculate_roi float_of_digits (map race_horse_row lone_digit_rows)
         = Ok 0%float
      /\ roi_of lone_digit_rows = Ok 100%Q)
  /\ (calculate_win_rate (map race_horse_row [starter "AB" "30"]) = Ok 0%float
      /\ win_rate_of [starter "AB" "30"]
         = Err (syntax_error "integer" "AB"))
  /\ (calculate_win_rate [] = Ok 0%float
      /\ win_rate_of [] = Err (QueryError "division by zero")).
Proof. repeat split; vm_compute; reflexivity. Qed.

(** *** Normalisation *)

(** A difference of a double with itself is zero or NaN, so its quotient
    by itself is NaN. *)
Lemma self_difference_quotient_nan (c : float) :
  ((c - c) / (c - c))%float = nan.
Proof.
  apply Prim2SF_inj. rewrite div_spec, sub_spec.
  change (Prim2SF nan) with S754_nan.
  destruct (Prim2SF c) as [s | s | | s m e]; cbn.
  - now destruct s.
  - now destruct s.
  - reflexivity.
  - unfold SF64sub, SFsub. rewrite Z.sub_diag. reflexivity.
Qed.

Lemma nan_range_quotient_nan (c : float) :
  ((c - nan) / (nan - nan))%float = nan.
Proof.
  apply Prim2SF_inj. rewrite div_spec, !sub_spec.
  change (Prim2SF nan) with S754_nan.
  now destruct (Prim2SF c) as [s | s | | s m e].
Qed.

Lemma filter_repeat {T} (keep : T -> bool) (c : T) (n : nat) :
  List.filter keep (repeat c n) = if keep c then repeat c n else [].
Proof.
  induction n as [| n IH]; cbn; [now destruct (keep c) |].
  rewrite IH. now destruct (keep c).
Qed.

Lemma fold_repeat (op : float -> float -> float) (c : float) (n : nat) :
  op c c = c -> fold_left op (repeat c n) c = c.
Proof. intros Hop. induction n as [| n IH]; cbn; [reflexivity |]. now rewrite Hop. Qed.

(** The extremes of a constant column: its value, or NaN when the value is
    NaN or the column is empty. *)
Lemma reduce_repeat (op : float -> float -> float) (c : float) (n : nat) :
  op c c = c ->
  reduce op (repeat c n) = if negb (is_nan c) && negb (Nat.eqb n 0) then c else nan.
Proof.
  intros Hop. unfold reduce. rewrite filter_repeat.
  destruct (negb (is_nan c)); [| reflexivity].
  destruct n as [| n]; cbn; [reflexivity |]. now apply fold_repeat.
Qed.

Lemma map_repeat_const {T U} (f : T -> U) (c : T) (n : nat) :
  map f (repeat c n) = repeat (f c) n.
Proof. induction n as [| n IH]; cbn; [reflexivity | now rewrite IH]. Qed.

Section Normalize.

Variables column_mean column_std : list float -> float.

(** C6 as the code has it. With ['min_max'] every value [v] of the column
    becomes [(v - min) / (max - min)] in binary64, so that in a column of
    minimum 10 and maximum 20 the values 10, 15 and 20 become 0, 0.5 and
    1. No method checks its denominator and none fails on a constant
    column: with ['min_max'] a constant column becomes a column of NaN, and
    with ['standard'] every value becomes [(v - mean) / std] whatever the
    deviation is. *)
Theorem normalize_numeric_divides_unguarded
    (df : gmap string (list float)) (column : string) (xs : list float) :
  df !! column = Some xs ->
  normalize_numeric column_mean column_std df column "min_max"
    = Ok (<[column +:+ "_norm" :=
              map (fun v => ((v - column_min xs)
                             / (column_max xs - column_min xs))%float) xs]> df)
  /\ (column_min xs = 10%float -> column_max xs = 20%float ->
      exists normed,
        normalize_numeric column_mean column_std df column "min_max" = Ok normed
        /\ normed !! (column +:+ "_norm")
           = Some (map (fun v => ((v - 10) / (20 - 10))%float) xs)
        /\ ((10 - 10) / (20 - 10) = 0)%float
        /\ ((15 - 10) / (20 - 10) = 0.5)%float
        /\ ((20 - 10) / (20 - 10) = 1)%float)
  /\ (forall c n,
        xs = repeat c n ->
        normalize_numeric column_mean column_std df column "min_max"
          = Ok (<[column +:+ "_norm" := repeat nan n]> df))
  /\ normalize_numeric column_mean column_std df column "standard"
     = Ok (<[column +:+ "_norm" :=
               map (fun v => ((v - column_mean xs) / column_std xs)%float) xs]> df).
Proof.
  intros Hcolumn.
  assert (Hmin_max :
    normalize_numeric column_mean column_std df column "min_max"
    = Ok (<[column +:+ "_norm" :=
              map (fun v => ((v - column_min xs)
                             / (column_max xs - column_min xs))%float) xs]> df)).
  { unfold normalize_numeric. cbn [String.eqb Ascii.eqb Bool.eqb].
    now rewrite Hcolumn. }
  split; [exact Hmin_max | split; [| split]].
  - intros Hlo Hhi. eexists. split; [exact Hmin_max |].
    rewrite lookup_insert_eq, Hlo, Hhi. repeat split.
  - intros c n ->. rewrite Hmin_max. do 2 f_equal.
    unfold column_min, column_max.
    rewrite !reduce_repeat
      by (unfold fmin, fmax; now destruct (c <? c)%float).
    rewrite map_repeat_const. f_equal.
    destruct (negb (is_nan c) && negb (Nat.eqb n 0)).
    + apply self_difference_quotient_nan.
    + apply nan_range_quotient_nan.
  - unfold normalize_numeric. cbn [String.eqb Ascii.eqb Bool.eqb].
    now rewrite Hcolumn.
Qed.

End Normalize.

Lemma normalize_numeric_divides_unguarded_witness :
  normalize_numeric (fun _ => 15%float) (fun _ => 5%float)
    {[ "odds" := [10; 15; 20]%float ]} "odds" "min_max"
  = Ok (<["odds_norm" := [0; 0.5; 1]%float]> {[ "odds" := [10; 15; 20]%float ]}).
Proof.
  exact (proj1 (normalize_numeric_divides_unguarded
                  (fun _ => 15%float) (fun _ => 5%float)
                  {[ "odds" := [10; 15; 20]%float ]} "odds"
                  [10; 15; 20]%float eq_refl)).
Defined.

(** C6 as stated fails on a constant column: the call raises nothing and
    returns the frame with a column of NaN, for ['min_max'] and, given
    the mean 5 and the deviation 0 of that column, for ['standard']. *)
Lemma constant_column_not_rejected :
  normalize_numeric (fun _ => 5%float) (fun _ => 0%float)
    {[ "odds" := [5; 5; 5]%float ]} "odds" "min_max"
  = Ok (<["odds_norm" := [nan; nan; nan]]> {[ "odds" := [5; 5; 5]%float ]})
  /\ normalize_numeric (fun _ => 5%float) (fun _ => 0%float)
       {[ "odds" := [5; 5; 5]%float ]} "odds" "standard"
     = Ok (<["odds_norm" := [nan; nan; nan]]> {[ "odds" := [5; 5; 5]%float ]}).
Proof. split; vm_compute; reflexivity. Qed.

End FeatureUtilities.


(** ** Cache files *)

Module CacheFiles.

Import Database Samples.

Section WithEngine.

Variable engine : string -> gmap string value -> result DataFrame.
Variable here : string.
Variable locate : string -> option string.

(** Every case of [query_with_cache] at once. *)
Lemma query_with_cache_cases query key force params w :
  query_with_cache engine here locate query key force params w =
    let w1 := World (files w) (executed w ++ [(query, bound params)]) in
    match (if force then None else kept locate (cache_path here key) w) with
    | Some (Pickled df) => (Ok df, w)
    | Some Unreadable => (Err DeserializationError, w)
    | None =>
        match engine query (bound params) with
        | Ok df =>
            match locate (cache_path here key) with
            | Some f =>
                (Ok df, World (<[f := Pickled df]> (files w)) (executed w1))
            | None => (Err OSError, w1)
            end
        | Err e => (Err e, w1)
        end
    end.
Proof.
  destruct force.
  - now rewrite CacheStore.query_with_cache_compute by now left.
  - destruct (kept locate (cache_path here key) w) as [[df |] |] eqn:Hkept.
    + now apply CacheStore.query_with_cache_hit.
    + now apply CacheStore.query_with_cache_unreadable.
    + now rewrite CacheStore.query_with_cache_compute by now right.
Qed.

(** X2. A call of [query_with_cache] touches no file but the one the
    path of its key leads to: every other file holds what it held, no
    file disappears, and what is kept at a path that leads elsewhere is
    as it was. The statement log is unchanged or longer by this call's
    statement. *)
Theorem query_with_cache_keeps_other_files query key force params w :
  let w1 := snd (query_with_cache engine here locate query key force params w) in
  (forall f, locate (cache_path here key) <> Some f ->
     files w1 !! f = files w !! f)
  /\ (forall f, is_Some (files w !! f) -> is_Some (files w1 !! f))
  /\ (forall path,
        locate path <> locate (cache_path here key) ->
        kept locate path w1 = kept locate path w)
  /\ (executed w1 = executed w
      \/ executed w1 = executed w ++ [(query, bound params)]).
Proof.
  intros w1. subst w1.
  assert (Hother : forall f, locate (cache_path here key) <> Some f ->
            files (snd (query_with_cache engine here locate query key force
                          params w)) !! f
            = files w !! f).
  { intros f Hf. rewrite query_with_cache_cases. cbn zeta.
    destruct (if force then None else kept locate (cache_path here key) w)
      as [[|]|]; try reflexivity.
    destruct (engine query (bound params)); [| reflexivity].
    destruct (locate (cache_path here key)) as [f' |]; [| reflexivity].
    cbn. apply lookup_insert_ne. congruence. }
  split; [exact Hother | split; [| split]].
  - intros f Hsome.
    destruct (decide (locate (cache_path here key) = Some f)) as [Hf | Hne];
      [| now rewrite Hother].
    rewrite query_with_cache_cases. cbn zeta.
    destruct (if force then None else kept locate (cache_path here key) w)
      as [[|]|]; try exact Hsome.
    destruct (engine query (bound params)); [| exact Hsome].
    rewrite Hf. cbn. rewrite lookup_insert_eq. eauto.
  - intros path Hpath. unfold kept.
    destruct (locate path) as [f |] eqn:Hf; [| reflexivity].
    cbn. apply Hother. congruence.
  - rewrite query_with_cache_cases. cbn zeta.
    destruct (if force then None else kept locate (cache_path here key) w)
      as [[|]|]; auto.
    destruct (engine query (bound params)); [| auto].
    destruct (locate (cache_path here key)); auto.
Qed.

(** X3. An unreadable file where the path of the key leads makes the
    unforced call fail with the world unchanged. A forced call whose
    statement succeeds, with a path that leads to a file, returns the
    fresh table and leaves it there, so that every later unforced call
    with that key returns it, whatever its statement and binding, and
    changes nothing. Where a directory on the way is missing the forced
    call raises [OSError] after the statement, and stores nothing. *)
Theorem forced_refresh_replaces_entry query key params w :
  (kept locate (cache_path here key) w = Some Unreadable ->
   query_with_cache engine here locate query key false params w
   = (Err DeserializationError, w))
  /\ (forall df f,
        engine query (bound params) = Ok df ->
        locate (cache_path here key) = Some f ->
        let refreshed :=
          query_with_cache engine here locate query key true params w in
        fst refreshed = Ok df
        /\ forall query' params',
             query_with_cache engine here locate query' key false params'
               (snd refreshed)
             = (Ok df, snd refreshed))
  /\ (forall df,
        engine query (bound params) = Ok df ->
        locate (cache_path here key) = None ->
        query_with_cache engine here locate query key true params w
        = (Err OSError,
           World (files w) (executed w ++ [(query, bound params)]))).
Proof.
  split; [| split].
  - apply CacheStore.query_with_cache_unreadable.
  - intros df f Hdf Hf refreshed. subst refreshed.
    rewrite CacheStore.query_with_cache_compute by now left.
    cbn zeta. rewrite Hdf, Hf. cbn [fst snd]. split; [reflexivity |].
    intros query' params'. apply CacheStore.query_with_cache_hit.
    now apply CacheStore.kept_insert.
  - intros df Hdf Hf.
    rewrite CacheStore.query_with_cache_compute by now left.
    cbn zeta. now rewrite Hdf, Hf.
Qed.

End WithEngine.

Lemma query_with_cache_keeps_other_files_witness :
  kept desk (cache_path "" "b")
    (snd (query_with_cache echo_engine "" desk "SELECT 1" "a" false None
            (World {[ "/repo/data/cache/b.pkl" := Unreadable ]} [])))
  = kept desk (cache_path "" "b")
      (World {[ "/repo/data/cache/b.pkl" := Unreadable ]} []).
Proof.
  apply (proj1 (proj2 (proj2 (query_with_cache_keeps_other_files
           echo_engine "" desk "SELECT 1" "a" false None
           (World {[ "/repo/data/cache/b.pkl" := Unreadable ]} []))))).
  vm_compute. discriminate.
Defined.

Lemma forced_refresh_replaces_entry_witness :
  query_with_cache echo_engine "" desk "SELECT 1" "a" false None
    (World {[ "/repo/data/cache/a.pkl" := Unreadable ]} [])
  = (Err DeserializationError,
     World {[ "/repo/data/cache/a.pkl" := Unreadable ]} []).
Proof.
  apply (proj1 (forced_refresh_replaces_entry echo_engine "" desk "SELECT 1"
                  "a" None
                  (World {[ "/repo/data/cache/a.pkl" := Unreadable ]} []))).
  reflexivity.
Defined.

(** Two names for one file: what a call stores under [a] a call under
    [./a] returns. *)
Example two_names_one_file :
  let first :=
    query_with_cache echo_engine "" desk "SELECT 1" "a" false None (World ∅ []) in
  query_with_cache empty_engine "" desk "SELECT 2" "./a" false None (snd first)
  = (Ok [∅], snd first).
Proof. vm_compute. reflexivity. Qed.

End CacheFiles.

(** ** The cache of a feature extractor *)

Module ExtractorCache.

Import Database Extractor Samples.

(** X4. Where the path of a name leads to a file, [save_to_cache]
    succeeds and [load_from_cache] under the same name then returns the
    saved table; a second save replaces the first; the save leaves what
    is loaded under a name whose path leads elsewhere as it was, and
    sends nothing to the database. Where a directory on the way is
    missing the save raises [OSError] and changes nothing. *)
Theorem save_then_load (cache_dir : string) (locate : string -> option string)
    (data : DataFrame) (name : string) (w : world) :
  (forall f,
     locate (_cache_path cache_dir name) = Some f ->
     let saved := save_to_cache cache_dir locate data name w in
     fst saved = Ok tt
     /\ load_from_cache cache_dir locate name (snd saved) = Ok (Some data)
     /\ (forall data',
           load_from_cache cache_dir locate name
             (snd (save_to_cache cache_dir locate data' name (snd saved)))
           = Ok (Some data'))
     /\ (forall name',
           locate (_cache_path cache_dir name') <> Some f ->
           load_from_cache cache_dir locate name' (snd saved)
           = load_from_cache cache_dir locate name' w)
     /\ executed (snd saved) = executed w)
  /\ (locate (_cache_path cache_dir name) = None ->
      save_to_cache cache_dir locate data name w = (Err OSError, w)).
Proof.
  assert (Hload : forall (f : string) table stored log,
            locate (_cache_path cache_dir name) = Some f ->
            load_from_cache cache_dir locate name
              (World (<[f := Pickled table]> stored) log)
            = Ok (Some table)).
  { intros f table stored log Hf.
    unfold load_from_cache, exists_, read_pickle, kept.
    rewrite Hf. cbn. rewrite lookup_insert_eq.
    now rewrite bool_decide_true by eauto. }
  split.
  - intros f Hf saved. subst saved. unfold save_to_cache, to_pickle.
    rewrite Hf. cbn [fst snd files executed].
    split; [reflexivity | split; [now apply Hload | split; [| split]]].
    + intros data'. now apply Hload.
    + intros name' Hne. unfold load_from_cache, exists_, read_pickle, kept.
      destruct (locate (_cache_path cache_dir name')) as [f' |]; [| reflexivity].
      cbn. rewrite lookup_insert_ne by congruence. reflexivity.
    + reflexivity.
  - intros Hf. unfold save_to_cache, to_pickle. now rewrite Hf.
Qed.

Lemma save_then_load_witness :
  load_from_cache "/repo/data/cache" desk "odds"
    (snd (save_to_cache "/repo/data/cache" desk [] "form" (World ∅ [])))
  = load_from_cache "/repo/data/cache" desk "odds" (World ∅ []).
Proof.
  apply (proj1 (proj2 (proj2 (proj2
           (proj1 (save_then_load "/repo/data/cache" desk [] "form" (World ∅ []))
              "/repo/data/cache/form.pkl" eq_refl))))).
  vm_compute. discriminate.
Defined.

(** X5. An extractor constructed on the cache directory of [database.py]
    reads the tables [query_with_cache] stores, and [query_with_cache]
    returns the tables such an extractor saves, without executing its
    statement. *)
Theorem extractor_shares_query_cache
    (engine : string -> gmap string value -> result DataFrame)
    (here there query name : string) (locate : string -> option string)
    (force : bool) (params : option (gmap string value)) (w : world) :
  let dir := init there (Some (Database.cache_dir here)) in
  (forall df w1,
     query_with_cache engine here locate query name force params w = (Ok df, w1) ->
     load_from_cache dir locate name w1 = Ok (Some df))
  /\ (forall data w1,
        save_to_cache dir locate data name w = (Ok tt, w1) ->
        query_with_cache engine here locate query name false params w1
        = (Ok data, w1)).
Proof.
  intros dir. subst dir. split.
  - intros df w1 Hcall.
    assert (Hkept : kept locate (cache_path here name) w1 = Some (Pickled df)).
    { rewrite CacheFiles.query_with_cache_cases in Hcall. cbn zeta in Hcall.
      destruct (if force then None else kept locate (cache_path here name) w)
        as [[stored|]|] eqn:Hfile.
      - injection Hcall as -> ->. now destruct force.
      - discriminate.
      - destruct (engine query (bound params)); [| discriminate].
        destruct (locate (cache_path here name)) as [f |] eqn:Hf;
          [| discriminate].
        injection Hcall as -> <-. now apply CacheStore.kept_insert. }
    unfold load_from_cache, exists_, read_pickle.
    change (_cache_path (init there (Some (Database.cache_dir here))) name)
      with (cache_path here name).
    rewrite Hkept. now rewrite bool_decide_true by eauto.
  - intros data w1 Hsave. apply CacheStore.query_with_cache_hit.
    unfold save_to_cache, to_pickle in Hsave.
    change (_cache_path (init there (Some (Database.cache_dir here))) name)
      with (cache_path here name) in Hsave.
    destruct (locate (cache_path here name)) as [f |] eqn:Hf; [| discriminate].
    injection Hsave as <-. now apply CacheStore.kept_insert.
Qed.

Lemma extractor_shares_query_cache_witness :
  load_from_cache (init "/repo/src/features" (Some (Database.cache_dir ""))) desk
    "k"
    (snd (query_with_cache echo_engine "" desk "SELECT 1" "k" false None
            (World ∅ [])))
  = Ok (Some [∅]).
Proof.
  apply (proj1 (extractor_shares_query_cache echo_engine "" "/repo/src/features"
                  "SELECT 1" "k" desk false None (World ∅ [])) [∅]
           (snd (query_with_cache echo_engine "" desk "SELECT 1" "k" false None
                   (World ∅ [])))).
  vm_compute. reflexivity.
Defined.

(** On the machine of the examples the default directory of an
    extractor, spelled from [src/features], and the cache directory of
    [database.py], spelled from [src/data], are one directory: the
    extractor reads what [query_with_cache] stored. *)
Example default_extractor_reads_query_cache :
  load_from_cache (init "/repo/src/features" None) desk "k"
    (snd (query_with_cache echo_engine "/repo/src/data" desk "SELECT 1" "k"
            false None (World ∅ [])))
  = Ok (Some [∅]).
Proof. vm_compute. reflexivity. Qed.

End ExtractorCache.

(** ** Cache keys and bindings of the builders *)

Module BuilderKeys.

Import Database Extraction Placeholders Views.

Lemma plain_append a b : plain (a +:+ b) = plain a && plain b.
Proof. unfold plain. now rewrite TextFacts.chars_append, forallb_app. Qed.

Lemma plain_cons c s :
  plain (String c s) = negb (Ascii.eqb c "_") && plain s.
Proof. reflexivity. Qed.

(** Two texts cut at their first underscore. *)
Lemma split_underscore a b x y :
  plain a = true -> plain b = true ->
  a +:+ "_" +:+ x = b +:+ "_" +:+ y -> a = b /\ x = y.
Proof.
  revert b. induction a as [| c a IH]; intros [| d b] Ha Hb Heq;
    rewrite ?TextFacts.append_cons, ?TextFacts.append_nil_l in Heq;
    rewrite ?plain_cons in Ha, Hb.
  - now injection Heq as ->.
  - injection Heq as <- _. discriminate.
  - injection Heq as -> _. discriminate.
  - apply andb_prop in Ha as [_ Ha]. apply andb_prop in Hb as [_ Hb].
    injection Heq as -> Heq.
    destruct (IH b Ha Hb Heq) as [-> ->]. now split.
Qed.

Lemma plain_no_underscore a b y : plain a = true -> a <> b +:+ "_" +:+ y.
Proof.
  intros Ha ->. rewrite !plain_append in Ha.
  apply andb_prop in Ha as [_ Ha]. discriminate.
Qed.

Section WithEngine.

Variable engine : string -> gmap string value -> result DataFrame.
Variable here : string.
Variable locate : string -> option string.

(** The two range builders store under [race_base_key] and
    [race_horse_key]. *)
Lemma range_builders_keys (start_year end_year limit : value) (w : world) :
  get_race_base_info engine here locate start_year end_year limit w
  = query_with_cache engine here locate (race_base_query (limit_clause limit))
      (race_base_key start_year end_year limit) false
      (Some (<["start_year" := start_year]> (<["end_year" := end_year]> ∅))) w
  /\ get_race_and_horse_data engine here locate start_year end_year limit w
     = query_with_cache engine here locate
         (race_horse_query (limit_clause limit))
         (race_horse_key start_year end_year limit) false
         (Some (<["start_year" := start_year]> (<["end_year" := end_year]> ∅))) w.
Proof. split; reflexivity. Qed.

End WithEngine.

(** X7. With years whose text holds no underscore, two calls of
    [get_race_base_info] (and of [get_race_and_horse_data]) use the same
    cache key only if their three arguments print the same. *)
Theorem range_key_determines_arguments
    (start_year end_year limit start_year' end_year' limit' : value) :
  plain (str start_year) = true -> plain (str start_year') = true ->
  plain (str end_year) = true -> plain (str end_year') = true ->
  (race_base_key start_year end_year limit
   = race_base_key start_year' end_year' limit' ->
   str start_year = str start_year' /\ str end_year = str end_year'
   /\ str limit = str limit')
  /\ (race_horse_key start_year end_year limit
      = race_horse_key start_year' end_year' limit' ->
      str start_year = str start_year' /\ str end_year = str end_year'
      /\ str limit = str limit').
Proof.
  intros Hs Hs' He He'. unfold race_base_key, race_horse_key.
  split; intros Hkey; apply TextFacts.append_inv_head in Hkey;
    apply split_underscore in Hkey as [Hstart Hkey]; try assumption;
    apply split_underscore in Hkey as [Hend Hlimit]; auto.
Qed.

Lemma range_key_determines_arguments_witness :
  str (VStr "2010") = str (VInt 2010) /\ str (VStr "2023") = str (VInt 2023)
  /\ str (VInt 5) = str (VStr "5").
Proof.
  exact (proj1 (range_key_determines_arguments
                  (VStr "2010") (VStr "2023") (VInt 5)
                  (VInt 2010) (VInt 2023) (VStr "5")
                  eq_refl eq_refl eq_refl eq_refl) eq_refl).
Defined.

(** X8. With horse ids whose text holds no underscore, two calls of
    [get_horse_previous_races] use the same cache key only if the ids
    print the same, both or neither carry a date, and the dates print the
    same. *)
Theorem horse_prev_key_determines_arguments
    (horse_id race_date horse_id' race_date' : value) :
  plain (str horse_id) = true -> plain (str horse_id') = true ->
  horse_prev_key horse_id race_date = horse_prev_key horse_id' race_date' ->
  str horse_id = str horse_id'
  /\ truthy race_date = truthy race_date'
  /\ (truthy race_date = true -> str race_date = str race_date').
Proof.
  intros Hh Hh'. unfold horse_prev_key.
  destruct (truthy race_date), (truthy race_date'); intros Hkey.
  - rewrite !TextFacts.append_assoc in Hkey.
    apply TextFacts.append_inv_head in Hkey.
    apply split_underscore in Hkey as [-> ->]; [| assumption ..].
    split; [reflexivity | split; reflexivity].
  - rewrite !TextFacts.append_assoc in Hkey.
    apply TextFacts.append_inv_head in Hkey. symmetry in Hkey.
    now apply plain_no_underscore in Hkey.
  - rewrite !TextFacts.append_assoc in Hkey.
    apply TextFacts.append_inv_head in Hkey.
    now apply plain_no_underscore in Hkey.
  - apply TextFacts.append_inv_head in Hkey.
    split; [exact Hkey | split; [reflexivity | discriminate]].
Qed.

Lemma horse_prev_key_determines_arguments_witness :
  str (VStr "2019105283") = str (VInt 2019105283)
  /\ truthy (VStr "20210101") = truthy (VStr "20210101")
  /\ (truthy (VStr "20210101") = true ->
      str (VStr "20210101") = str (VStr "20210101")).
Proof.
  exact (horse_prev_key_determines_arguments
           (VStr "2019105283") (VStr "20210101")
           (VInt 2019105283) (VStr "20210101") eq_refl eq_refl eq_refl).
Defined.

(** The first six characters of each key. *)
Lemma key_heads (start_year end_year limit horse_id race_date sire_id : value) :
  String.substring 0 6 (race_base_key start_year end_year limit) = "race_b"
  /\ String.substring 0 6 (race_horse_key start_year end_year limit) = "race_h"
  /\ String.substring 0 6 (horse_prev_key horse_id race_date) = "horse_"
  /\ String.substring 0 6 (sire_key sire_id) = "sire_t".
Proof.
  unfold horse_prev_key, sire_key.
  destruct (truthy race_date), (truthy sire_id); repeat split.
Qed.

(** X6. Whatever their arguments, the four cached builders use four
    different cache keys, and none of them is one of the seven names the
    analysis script stores under. *)
Theorem builders_never_share_a_key
    (start_year end_year limit start_year' end_year' limit'
       horse_id race_date sire_id : value) :
  NoDup
    (race_base_key start_year end_year limit
     :: race_horse_key start_year' end_year' limit'
     :: horse_prev_key horse_id race_date
     :: sire_key sire_id
     :: map Script.cache_name Script.analyses).
Proof.
  apply (NoDup_fmap_1 (String.substring 0 6)).
  destruct (key_heads start_year end_year limit horse_id race_date sire_id)
    as (Hbase & _ & Hprev & Hsire).
  destruct (key_heads start_year' end_year' limit' horse_id race_date sire_id)
    as (_ & Hhorse & _ & _).
  rewrite !fmap_cons, Hbase, Hhorse, Hprev, Hsire.
  apply (bool_decide_unpack _). vm_compute. exact I.
Qed.

(** The cut of a text leaves its bytes in place. *)
Lemma cut_app n cs : fst (cut n cs) ++ snd (cut n cs) = cs.
Proof.
  revert n. induction cs as [| c cs IH]; intros n; [reflexivity |].
  cbn [cut]. destruct (continues c).
  - specialize (IH n). destruct (cut n cs) as [a b]. cbn in *. now f_equal.
  - destruct n as [| n]; [reflexivity |].
    specialize (IH n). destruct (cut n cs) as [a b]. cbn in *. now f_equal.
Qed.

(** The characters of a list of bytes. *)
Lemma cut_characters n cs :
  length (List.filter (fun c => negb (continues c)) (fst (cut n cs)))
  = Nat.min n (length (List.filter (fun c => negb (continues c)) cs))
  /\ length (List.filter (fun c => negb (continues c)) (snd (cut n cs)))
     = (length (List.filter (fun c => negb (continues c)) cs) - n)%nat.
Proof.
  revert n. induction cs as [| c cs IH]; intros n.
  - cbn. split; [now rewrite Nat.min_0_r | reflexivity].
  - cbn [cut]. destruct (continues c) eqn:Hc.
    + specialize (IH n). destruct (cut n cs) as [a b].
      cbn [fst snd List.filter] in *. rewrite Hc. cbn [negb]. exact IH.
    + destruct n as [| n].
      * cbn [fst snd List.filter]. rewrite Hc. cbn. split; lia.
      * specialize (IH n). destruct (cut n cs) as [a b].
        cbn [fst snd List.filter] in *. rewrite Hc. cbn [negb length].
        destruct IH as [-> ->]. split; lia.
Qed.

Lemma chars_of_list l : Sql.chars (string_of_list_ascii l) = l.
Proof. apply list_ascii_of_string_of_list_ascii. Qed.

(** [s[:4] + s[4:]] is [s]. *)
Lemma slice_split s : slice_to_4 s +:+ slice_from_4 s = s.
Proof.
  apply TextFacts.chars_inj. unfold slice_to_4, slice_from_4.
  rewrite TextFacts.chars_append, !chars_of_list. apply cut_app.
Qed.

Lemma slice_characters s :
  characters (slice_to_4 s) = Nat.min 4 (characters s)
  /\ characters (slice_from_4 s) = (characters s - 4)%nat.
Proof.
  unfold characters, slice_to_4, slice_from_4. rewrite !chars_of_list.
  apply cut_characters.
Qed.

(** X9. For a non-empty date text [get_horse_previous_races] binds
    [:year] and [:date] to two texts that concatenate to the date; the
    year has four characters when the date has at least four, and both
    have four when the date has eight. *)
Theorem race_date_binding_recombines (horse_id : value) (race_date : string) :
  race_date <> "" ->
  exists year date,
    horse_prev_params horse_id (VStr race_date)
    = Ok (<["date" := VStr date]>
            (<["year" := VStr year]> (<["horse_id" := horse_id]> ∅)))
    /\ year +:+ date = race_date
    /\ ((4 <= characters race_date)%nat -> characters year = 4%nat)
    /\ (characters race_date = 8%nat ->
        characters year = 4%nat /\ characters date = 4%nat).
Proof.
  intros Hne. exists (slice_to_4 race_date), (slice_from_4 race_date).
  destruct (slice_characters race_date) as [Hyear Hdate].
  split; [| split; [apply slice_split | split]].
  - unfold horse_prev_params. cbn [truthy].
    destruct (String.eqb_spec race_date ""); [contradiction | reflexivity].
  - intros H4. lia.
  - intros H8. lia.
Qed.

Lemma race_date_binding_recombines_witness :
  exists year date,
    horse_prev_params (VStr "2019105283") (VStr "２０２１0105")
    = Ok (<["date" := VStr date]>
            (<["year" := VStr year]> (<["horse_id" := VStr "2019105283"]> ∅)))
    /\ year +:+ date = "２０２１0105"
    /\ ((4 <= characters "２０２１0105")%nat -> characters year = 4%nat)
    /\ (characters "２０２１0105" = 8%nat ->
        characters year = 4%nat /\ characters date = 4%nat).
Proof.
  apply (race_date_binding_recombines (VStr "2019105283") "２０２１0105").
  discriminate.
Defined.

(** A date whose year is written in full-width digits: the year bound is
    those four characters, twelve bytes. *)
Example full_width_year :
  horse_prev_params (VStr "2019105283") (VStr "２０２１0105")
  = Ok (<["date" := VStr "0105"]>
          (<["year" := VStr "２０２１"]> (<["horse_id" := VStr "2019105283"]> ∅))).
Proof. vm_compute. reflexivity. Qed.

Section WithEngine.

Variable engine : string -> gmap string value -> result DataFrame.
Variable here : string.
Variable locate : string -> option string.

(** X10. A falsy [race_date] ([None], the empty text, 0, [False]) is
    treated as no date: same statement, same key, same binding as
    [None]. A [race_date] that is a number other than 0, or [True],
    raises [TypeError] at the slice, before the cache is consulted or a
    statement sent. *)
Theorem race_date_edges (horse_id race_date : value) (w : world) :
  (truthy race_date = false ->
   get_horse_previous_races engine here locate horse_id race_date w
   = get_horse_previous_races engine here locate horse_id VNone w)
  /\ (forall z,
        z <> 0 ->
        get_horse_previous_races engine here locate horse_id (VInt z) w
        = (Err TypeError, w))
  /\ get_horse_previous_races engine here locate horse_id (VBool true) w
     = (Err TypeError, w).
Proof.
  unfold get_horse_previous_races, horse_prev_params, horse_prev_key.
  split; [| split].
  - intros ->. reflexivity.
  - intros z Hz. cbn [truthy]. now destruct (Z.eqb_spec z 0).
  - reflexivity.
Qed.

End WithEngine.

Lemma race_date_edges_witness :
  get_horse_previous_races Samples.echo_engine "" Samples.desk
    (VStr "2019105283") (VInt 20210105) (World ∅ [])
  = (Err TypeError, World ∅ []).
Proof.
  apply (proj1 (proj2 (race_date_edges Samples.echo_engine "" Samples.desk
                         (VStr "2019105283") VNone (World ∅ []))) 20210105).
  discriminate.
Defined.

End BuilderKeys.

(** ** Placeholders and bindings *)

Module BoundNames.

Import Database Extraction Placeholders.

Lemma scan_colon_free cs rest blocked :
  forallb (fun c => negb (Ascii.eqb c ":")) cs = true ->
  exists blocked', scan (Outside blocked) (cs ++ rest) = scan (Outside blocked') rest.
Proof.
  revert blocked. induction cs as [| c cs IH]; intros blocked Hfree.
  - now exists blocked.
  - cbn in Hfree. apply andb_prop in Hfree as [Hc Hcs].
    cbn [app scan]. destruct (Ascii.eqb c ":"); [discriminate |]. now apply IH.
Qed.

Lemma range_placeholders (prefix suffix : string) (limit : value) names :
  (forall tail,
     scan (Outside false) (Sql.chars prefix ++ tail)
     = names ++ scan (Outside false) tail) ->
  (forall blocked, scan (Outside blocked) (Sql.chars suffix) = []) ->
  (truthy limit = true ->
   forallb (fun c => negb (Ascii.eqb c ":")) (Sql.chars (str limit)) = true) ->
  placeholders (prefix +:+ limit_clause limit +:+ suffix) = names.
Proof.
  intros Hprefix Hsuffix Hfree. unfold placeholders, limit_clause.
  rewrite !TextFacts.chars_append, Hprefix.
  destruct (truthy limit).
  - rewrite TextFacts.chars_append, <- app_assoc.
    change (scan (Outside false) (Sql.chars "LIMIT " ++ ?t))
      with (scan (Outside false) t).
    destruct (scan_colon_free (Sql.chars (str limit)) (Sql.chars suffix) false
                (Hfree eq_refl)) as [blocked ->].
    now rewrite Hsuffix, app_nil_r.
  - cbn [Sql.chars list_ascii_of_string app]. now rewrite Hsuffix, app_nil_r.
Qed.

(** X11. Each builder binds exactly the names its statement text refers
    to: the placeholders of the text are the keys of the binding, for
    the two range statements (given a limit, if any, printed without a
    colon), the previous-races statement with or without its date
    condition, the jockey statement, and the sire statement with or
    without its sire condition. *)
Theorem statements_bind_their_placeholders
    (start_year end_year limit horse_id race_date jockey_code years_range
       min_races sire_id min_horses : value) :
  ((truthy limit = true ->
    forallb (fun c => negb (Ascii.eqb c ":")) (Sql.chars (str limit)) = true) ->
   list_to_set (placeholders (race_base_query (limit_clause limit)))
   =@{gset string}
     dom (<["start_year" := start_year]> (<["end_year" := end_year]> (∅ : gmap string value)))
   /\ list_to_set (placeholders (race_horse_query (limit_clause limit)))
      =@{gset string}
        dom (<["start_year" := start_year]> (<["end_year" := end_year]> (∅ : gmap string value))))
  /\ (forall params,
        horse_prev_params horse_id race_date = Ok params ->
        list_to_set
          (placeholders
             (horse_prev_query
                (if truthy race_date
                 then "AND (s.kaisai_nen < :year OR (s.kaisai_nen = :year AND s.kaisai_tsukihi <= :date))"
                 else "")))
        =@{gset string} dom params)
  /\ list_to_set (placeholders jockey_course_query)
     =@{gset string}
       dom (<["jockey_code" := jockey_code]>
              (<["years_range" := years_range]>
                 (<["min_races" := min_races]> (∅ : gmap string value))))
  /\ list_to_set
       (placeholders
          (sire_track_condition_query
             (if truthy sire_id then "AND u.ketto_joho_01a = :sire_id" else "")))
     =@{gset string} dom (sire_params sire_id min_horses min_races).
Proof.
  split; [| split; [| split]].
  - intros Hfree. unfold race_base_query, race_horse_query.
    rewrite !(range_placeholders _ _ limit ["start_year"; "end_year"]);
      try assumption; try (intros []; reflexivity); try (intros tail; reflexivity).
    split; vm_compute; reflexivity.
  - intros params. unfold horse_prev_params.
    destruct (truthy race_date).
    + destruct race_date; try discriminate. intros [= <-].
      vm_compute. reflexivity.
    + intros [= <-]. vm_compute. reflexivity.
  - vm_compute. reflexivity.
  - unfold sire_params. destruct (truthy sire_id); vm_compute; reflexivity.
Qed.

Lemma statements_bind_their_placeholders_witness :
  list_to_set (placeholders (race_base_query (limit_clause (VInt 5))))
  =@{gset string}
    dom (<["start_year" := VStr "2010"]>
           (<["end_year" := VStr "2023"]> (∅ : gmap string value)))
  /\ list_to_set (placeholders (race_horse_query (limit_clause (VInt 5))))
     =@{gset string}
       dom (<["start_year" := VStr "2010"]>
              (<["end_year" := VStr "2023"]> (∅ : gmap string value))).
Proof.
  exact (proj1 (statements_bind_their_placeholders
                  (VStr "2010") (VStr "2023") (VInt 5) VNone VNone VNone VNone
                  VNone VNone VNone)
           (fun _ => eq_refl)).
Defined.

End BoundNames.

(** ** Rows of the analytical statements *)

Module StatementRows.

Import Sql Samples Cases Aggregates.

Lemma where_in cond table rows e :
  where_ cond table = Ok rows -> In e rows -> In e table /\ cond e = Ok true.
Proof.
  revert rows. induction table as [| x table IH]; cbn [where_]; intros rows H Hin.
  - injection H as <-. destruct Hin.
  - invert_bind H as keep Hkeep. invert_bind H as rest Hrest. injection H as <-.
    destruct keep.
    + destruct Hin as [<- | Hin]; [now split; [left |] |].
      destruct (IH _ Hrest Hin). split; [now right | assumption].
    + destruct (IH _ Hrest Hin). split; [now right | assumption].
Qed.

Lemma group_by_in {K} `{EqDecision K} (keyed : list (K * entry)) k g :
  In (k, g) (group_by keyed) ->
  g <> [] /\ forall e, In e g -> In (k, e) keyed.
Proof.
  unfold group_by. rewrite in_map_iff. intros (k' & [= <- <-] & Hk).
  apply list_elem_of_In, elem_of_remove_dups, list_elem_of_In, in_map_iff in Hk
    as ([k0 e0] & Hfst & Hin). cbn in Hfst. subst k0.
  split.
  - intros Hnil.
    assert (Hin' : In e0 (map snd (List.filter (fun p => bool_decide (fst p = k')) keyed))).
    { apply in_map_iff. exists (k', e0). split; [reflexivity |].
      apply filter_In. split; [assumption |]. now apply bool_decide_eq_true_2. }
    rewrite Hnil in Hin'. destruct Hin'.
  - intros e He. apply in_map_iff in He as ([k1 e1] & Hsnd & He).
    apply filter_In in He as [He Hkey]. apply bool_decide_eq_true_1 in Hkey.
    cbn in Hsnd, Hkey. now subst.
Qed.

(** The rows behind a row of the jockey statement. *)
Lemma jockey_row_source jockey_code years_range min_races current_year table out r :
  Jockey.select jockey_code years_range min_races current_year table = Ok out ->
  In r out ->
  min_races <= Jockey.total_races r
  /\ exists c g,
       Jockey.aggregate (Jockey.kishu_code r, Jockey.keibajo_code r,
                         Jockey.track_type r, c, g) = Ok r
       /\ c = Jockey.distance_category r
       /\ g <> []
       /\ forall e, In e g ->
            In e table
            /\ Jockey.condition jockey_code years_range current_year e = Ok true
            /\ Jockey.group_key e
               = Ok (Jockey.kishu_code r, Jockey.keibajo_code r,
                     Jockey.track_type r, c, e).
Proof.
  unfold Jockey.select. intros H Hin.
  invert_bind H as rows Hrows. invert_bind H as keyed Hkeyed.
  invert_bind H as groups Hgroups. injection H as <-.
  apply order_by_desc_in, filter_In in Hin as [Hin Hhaving].
  split; [now apply Z.leb_le in Hhaving |].
  destruct (traverse_in _ _ _ _ Hgroups Hin) as ([[[[kishu keibajo] track] dist] g] & Hg & Hagg).
  assert (Hshape : Jockey.kishu_code r = kishu /\ Jockey.keibajo_code r = keibajo
                   /\ Jockey.track_type r = track /\ Jockey.distance_category r = dist).
  { unfold Jockey.aggregate in Hagg.
    invert_bind Hagg as w Hw. invert_bind Hagg as t Ht. invert_bind Hagg as wr Hwr.
    invert_bind Hagg as tr Htr. invert_bind Hagg as awo Hawo. invert_bind Hagg as roi Hroi.
    injection Hagg as <-. cbn. auto. }
  destruct Hshape as (-> & -> & -> & <-).
  exists (Jockey.distance_category r), g.
  destruct (group_by_in _ _ _ Hg) as [Hne Hrows_of].
  split; [exact Hagg | split; [reflexivity | split; [exact Hne |]]].
  intros e He. specialize (Hrows_of e He).
  destruct (traverse_in _ _ _ _ Hkeyed Hrows_of) as (e0 & He0 & Hkey).
  assert (e0 = e) as ->.
  { unfold Jockey.group_key in Hkey. invert_bind Hkey as c Hc. now injection Hkey. }
  destruct (where_in _ _ _ _ Hrows He0). auto.
Qed.


Lemma sire_aggregate_shape id name track cond g r :
  Sire.aggregate (id, name, track, cond, g) = Ok r ->
  exists w wr pops awo roi,
    wins_of g = Ok w /\ win_rate_of g = Ok wr
    /\ traverse (Sire.popularity) g = Ok pops
    /\ avg_win_odds_of g = Ok awo /\ roi_of g = Ok roi
    /\ r = Sire.Row id name track (Sire.condition_name cond)
              (Z.of_nat (length (remove_dups (map s_ketto_toroku_bango g))))
              (count g) w wr (round_avg pops) awo roi (roi_rank roi).
Proof.
  unfold Sire.aggregate. intros H.
  invert_bind H as w Hw. invert_bind H as wr Hwr. invert_bind H as pops Hpops.
  invert_bind H as awo Hawo. invert_bind H as roi Hroi. injection H as <-.
  exists w, wr, pops, awo, roi. auto 10.
Qed.

Lemma jockey_aggregate_shape kishu keibajo track dist g r :
  Jockey.aggregate (kishu, keibajo, track, dist, g) = Ok r ->
  exists w t wr tr awo roi,
    wins_of g = Ok w /\ top3_of g = Ok t /\ win_rate_of g = Ok wr
    /\ top3_rate_of g = Ok tr /\ avg_win_odds_of g = Ok awo /\ roi_of g = Ok roi
    /\ r = Jockey.Row kishu keibajo track dist (count g) w t wr tr awo roi
              (roi_rank roi).
Proof.
  unfold Jockey.aggregate. intros H.
  invert_bind H as w Hw. invert_bind H as t Ht. invert_bind H as wr Hwr.
  invert_bind H as tr Htr. invert_bind H as awo Hawo. invert_bind H as roi Hroi.
  injection H as <-. exists w, t, wr, tr, awo, roi. auto 10.
Qed.

(** The rows behind a row of the sire statement. *)
Lemma sire_row_source sire min_horses min_races table out r :
  Sire.select sire min_horses min_races table = Ok out ->
  In r out ->
  (min_horses <= Sire.horses_count r /\ min_races <= Sire.total_races r)
  /\ exists cond g,
       Sire.aggregate (Sire.sire_id r, Sire.sire_name r, Sire.track_type r,
                       cond, g) = Ok r
       /\ Sire.track_condition r = Sire.condition_name cond
       /\ g <> []
       /\ forall e, In e g ->
            In e table
            /\ Sire.condition sire e = Ok true
            /\ Sire.group_key e
               = Ok (Sire.sire_id r, Sire.sire_name r, Sire.track_type r, cond, e).
Proof.
  unfold Sire.select. intros H Hin.
  invert_bind H as rows Hrows. invert_bind H as keyed Hkeyed.
  invert_bind H as groups Hgroups. injection H as <-.
  apply order_by_desc_in, filter_In in Hin as [Hin Hhaving].
  split.
  { unfold Sire.having in Hhaving. apply andb_prop in Hhaving as [H1 H2].
    split; now apply Z.leb_le. }
  destruct (traverse_in _ _ _ _ Hgroups Hin) as ([[[[id name] track] cond] g] & Hg & Hagg).
  destruct (sire_aggregate_shape _ _ _ _ _ _ Hagg)
    as (w & wr & pops & awo & roi & _ & _ & _ & _ & _ & Hr).
  assert (Hshape : Sire.sire_id r = id /\ Sire.sire_name r = name
                   /\ Sire.track_type r = track
                   /\ Sire.track_condition r = Sire.condition_name cond)
    by (subst r; cbn; auto).
  destruct Hshape as (<- & <- & <- & Hcond).
  exists cond, g. destruct (group_by_in _ _ _ Hg) as [Hne Hrows_of].
  split; [exact Hagg | split; [exact Hcond | split; [exact Hne |]]].
  intros e He. specialize (Hrows_of e He).
  destruct (traverse_in _ _ _ _ Hkeyed Hrows_of) as (e0 & He0 & Hkey).
  assert (e0 = e) as -> by (unfold Sire.group_key in Hkey; now injection Hkey).
  destruct (where_in _ _ _ _ Hrows He0). auto.
Qed.

(** X12. Every row the jockey statement returns has at least
    [min_races] races, and every row the sire statement returns has at
    least [min_horses] horses and [min_races] races. *)
Theorem having_thresholds_hold :
  (forall jockey_code years_range min_races current_year table out r,
     Jockey.select jockey_code years_range min_races current_year table = Ok out ->
     In r out -> min_races <= Jockey.total_races r)
  /\ (forall sire min_horses min_races table out r,
        Sire.select sire min_horses min_races table = Ok out ->
        In r out ->
        min_horses <= Sire.horses_count r /\ min_races <= Sire.total_races r).
Proof.
  split.
  - intros * Hout Hin. now destruct (jockey_row_source _ _ _ _ _ _ _ Hout Hin).
  - intros * Hout Hin. now destruct (sire_row_source _ _ _ _ _ _ Hout Hin).
Qed.

Lemma having_thresholds_hold_witness :
  1 <= Jockey.total_races three_rows_course.
Proof.
  apply (proj1 having_thresholds_hold "01234" 5 1 2021 three_rows
           [three_rows_course]).
  - vm_compute. reflexivity.
  - left. reflexivity.
Defined.

(** Insertion keeps a list ordered by falling key. *)
Lemma insert_desc_sorted {R} (key : R -> Q) x l :
  StronglySorted (fun a b => (key b <= key a)%Q) l ->
  StronglySorted (fun a b => (key b <= key a)%Q) (insert_desc key x l).
Proof.
  induction 1 as [| y l Hsorted IH Hall]; cbn [insert_desc].
  - repeat constructor.
  - destruct (Qle_bool (key y) (key x)) eqn:Hle.
    + apply Qle_bool_iff in Hle. constructor; [now constructor |].
      constructor; [assumption |].
      eapply Forall_impl; [exact Hall |]. cbn. intros b Hb. lra.
    + assert (Hlt : (key x <= key y)%Q).
      { apply Qlt_le_weak, Qnot_le_lt. intros Hc.
        apply Qle_bool_iff in Hc. congruence. }
      constructor; [assumption |].
      apply Forall_forall. intros b Hb. apply list_elem_of_In, insert_desc_in in Hb as [-> | Hb];
        [assumption |].
      rewrite Forall_forall in Hall. apply Hall. now apply list_elem_of_In.
Qed.

Lemma order_by_desc_sorted {R} (key : R -> Q) l :
  StronglySorted (fun a b => (key b <= key a)%Q) (order_by_desc key l).
Proof.
  induction l as [| x l IH]; cbn; [constructor | now apply insert_desc_sorted].
Qed.

(** X13. Both statements return their rows by falling [roi]: no row is
    followed, anywhere later in the result, by a row of greater [roi]. *)
Theorem rows_ordered_by_falling_roi :
  (forall jockey_code years_range min_races current_year table out,
     Jockey.select jockey_code years_range min_races current_year table = Ok out ->
     StronglySorted (fun a b => (Jockey.roi b <= Jockey.roi a)%Q) out)
  /\ (forall sire min_horses min_races table out,
        Sire.select sire min_horses min_races table = Ok out ->
        StronglySorted (fun a b => (Sire.roi b <= Sire.roi a)%Q) out).
Proof.
  split; intros * H.
  - unfold Jockey.select in H.
    invert_bind H as rows Hrows. invert_bind H as keyed Hkeyed.
    invert_bind H as groups Hgroups. injection H as <-.
    apply order_by_desc_sorted.
  - unfold Sire.select in H.
    invert_bind H as rows Hrows. invert_bind H as keyed Hkeyed.
    invert_bind H as groups Hgroups. injection H as <-.
    apply order_by_desc_sorted.
Qed.

Lemma rows_ordered_by_falling_roi_witness :
  StronglySorted (fun a b => (Jockey.roi b <= Jockey.roi a)%Q) two_courses_stats.
Proof.
  apply (proj1 rows_ordered_by_falling_roi "01234" 5 1 2021 two_courses).
  vm_compute. reflexivity.
Defined.

End StatementRows.

(** ** Columns of the analytical statements *)

Module StatementColumns.

Import Sql Samples Cases Aggregates StatementRows.

Lemma count_filter_bounds cond g k :
  count_filter cond g = Ok k -> 0 <= k <= count g.
Proof.
  unfold count_filter, count. intros H. invert_bind H as rows Hrows.
  injection H as <-. pose proof (where_length _ _ _ Hrows). lia.
Qed.

Lemma remove_dups_bounds (l : list string) :
  (length (remove_dups l) <= length l)%nat
  /\ (l <> [] -> 1 <= length (remove_dups l))%nat.
Proof.
  split.
  - induction l as [| x l IH]; cbn; [lia |].
    destruct (decide_rel elem_of x l); cbn; lia.
  - intros Hne. destruct l as [| x l]; [congruence |].
    assert (Hx : x ∈ remove_dups (x :: l)) by (apply elem_of_remove_dups; left).
    destruct (remove_dups (x :: l)); [inversion Hx | cbn; lia].
Qed.

(** X14. In every returned row the counts are nested: for a jockey
    [0 <= wins <= top3 <= total_races]; for a sire
    [0 <= wins <= total_races] and [1 <= horses_count <= total_races]. *)
Theorem counts_are_nested :
  (forall jockey_code years_range min_races current_year table out r,
     Jockey.select jockey_code years_range min_races current_year table = Ok out ->
     In r out ->
     0 <= Jockey.wins r /\ Jockey.wins r <= Jockey.top3 r
     /\ Jockey.top3 r <= Jockey.total_races r)
  /\ (forall sire min_horses min_races table out r,
        Sire.select sire min_horses min_races table = Ok out ->
        In r out ->
        0 <= Sire.wins r /\ Sire.wins r <= Sire.total_races r
        /\ 1 <= Sire.horses_count r /\ Sire.horses_count r <= Sire.total_races r).
Proof.
  split.
  - intros * Hout Hin.
    destruct (jockey_row_source _ _ _ _ _ _ _ Hout Hin) as (_ & c & g & Hagg & _).
    destruct (jockey_aggregate_shape _ _ _ _ _ _ Hagg)
      as (w & t & wr & tr & awo & roi & Hw & Ht & _ & _ & _ & _ & ->). cbn.
    pose proof (count_filter_bounds _ _ _ Hw). pose proof (count_filter_bounds _ _ _ Ht).
    unfold wins_of, top3_of, count_filter in Hw, Ht.
    invert_bind Hw as ws Hws. invert_bind Ht as ts Hts.
    injection Hw as <-. injection Ht as <-.
    pose proof (wins_within_top3 _ _ _ Hws Hts). unfold count in *. lia.
  - intros * Hout Hin.
    destruct (sire_row_source _ _ _ _ _ _ Hout Hin)
      as (_ & cond & g & Hagg & _ & Hne & _).
    destruct (sire_aggregate_shape _ _ _ _ _ _ Hagg)
      as (w & wr & pops & awo & roi & Hw & _ & _ & _ & _ & ->). cbn.
    pose proof (count_filter_bounds _ _ _ Hw).
    destruct (remove_dups_bounds (map s_ketto_toroku_bango g)) as [Hle Hge].
    rewrite length_map in Hle.
    assert (Hmap : map s_ketto_toroku_bango g <> [])
      by (destruct g; [congruence | discriminate]).
    specialize (Hge Hmap). unfold count in *. lia.
Qed.

Lemma counts_are_nested_witness :
  0 <= Jockey.wins three_rows_course
  /\ Jockey.wins three_rows_course <= Jockey.top3 three_rows_course
  /\ Jockey.top3 three_rows_course <= Jockey.total_races three_rows_course.
Proof.
  apply (proj1 counts_are_nested "01234" 5 1 2021 three_rows [three_rows_course]).
  - vm_compute. reflexivity.
  - left. reflexivity.
Defined.

Lemma rate_of_count cond g k q :
  count_filter cond g = Ok k ->
  (k' ← count_filter cond g; rate k' g) = Ok q ->
  q = round2 (inject_Z k / inject_Z (count g) * 100)%Q.
Proof.
  intros Hk H. rewrite Hk in H. cbn in H. now apply rate_ok in H as [_ ->].
Qed.

(** X15. In every returned row the rates are the counts of the same row
    over its [total_races], in percent, rounded to two places. *)
Theorem rates_follow_counts :
  (forall jockey_code years_range min_races current_year table out r,
     Jockey.select jockey_code years_range min_races current_year table = Ok out ->
     In r out ->
     Jockey.win_rate r
     = round2 (inject_Z (Jockey.wins r) / inject_Z (Jockey.total_races r) * 100)%Q
     /\ Jockey.top3_rate r
        = round2 (inject_Z (Jockey.top3 r) / inject_Z (Jockey.total_races r) * 100)%Q)
  /\ (forall sire min_horses min_races table out r,
        Sire.select sire min_horses min_races table = Ok out ->
        In r out ->
        Sire.win_rate r
        = round2 (inject_Z (Sire.wins r) / inject_Z (Sire.total_races r) * 100)%Q).
Proof.
  split.
  - intros * Hout Hin.
    destruct (jockey_row_source _ _ _ _ _ _ _ Hout Hin) as (_ & c & g & Hagg & _).
    destruct (jockey_aggregate_shape _ _ _ _ _ _ Hagg)
      as (w & t & wr & tr & awo & roi & Hw & Ht & Hwr & Htr & _ & _ & ->). cbn.
    split; [exact (rate_of_count _ _ _ _ Hw Hwr) | exact (rate_of_count _ _ _ _ Ht Htr)].
  - intros * Hout Hin.
    destruct (sire_row_source _ _ _ _ _ _ Hout Hin) as (_ & cond & g & Hagg & _).
    destruct (sire_aggregate_shape _ _ _ _ _ _ Hagg)
      as (w & wr & pops & awo & roi & Hw & Hwr & _ & _ & _ & ->). cbn.
    exact (rate_of_count _ _ _ _ Hw Hwr).
Qed.

Lemma rates_follow_counts_witness :
  Jockey.win_rate three_rows_course
  = round2 (inject_Z (Jockey.wins three_rows_course)
            / inject_Z (Jockey.total_races three_rows_course) * 100)%Q
  /\ Jockey.top3_rate three_rows_course
     = round2 (inject_Z (Jockey.top3 three_rows_course)
               / inject_Z (Jockey.total_races three_rows_course) * 100)%Q.
Proof.
  apply (proj1 rates_follow_counts "01234" 5 1 2021 three_rows [three_rows_course]).
  - vm_compute. reflexivity.
  - left. reflexivity.
Defined.

(** A group without a winner. *)
Lemma round2_zero (q : Q) : (q == 0)%Q -> round2 q = 0%Q.
Proof.
  intros Hq. unfold round2, round_half_away.
  assert (Hle : Qle_bool 0 (q * 100) = true) by (apply Qle_bool_iff; rewrite Hq; lra).
  rewrite Hle.
  assert (Hfloor : Qfloor (q * 100 + (1 # 2)) = 0).
  { rewrite (Qfloor_comp _ (1 # 2)); [reflexivity |]. rewrite Hq. lra. }
  now rewrite Hfloor.
Qed.

Lemma no_winner_rows g :
  where_ is_win g = Ok [] ->
  traverse payout g = Ok (repeat 0%Q (length g)).
Proof.
  induction g as [| e g IH]; [reflexivity |].
  cbn [where_ traverse length repeat]. intros H.
  invert_bind H as won Hwon. invert_bind H as rest Hrest.
  destruct won; [discriminate |]. injection H as ->.
  assert (Hpay : payout e = Ok 0%Q) by (unfold payout; now rewrite Hwon).
  rewrite Hpay, (IH Hrest). reflexivity.
Qed.

Lemma sum_zeros n : sum (repeat 0%Q n) = 0%Q.
Proof.
  unfold sum. induction n as [| n IH]; [reflexivity |]. cbn [repeat fold_left].
  exact IH.
Qed.

Lemma no_winner_group g :
  wins_of g = Ok 0 -> g <> [] ->
  win_rate_of g = Ok 0%Q /\ roi_of g = Ok 0%Q /\ avg_win_odds_of g = Ok None.
Proof.
  intros Hw Hne.
  assert (Hnone : where_ is_win g = Ok []).
  { unfold wins_of, count_filter, count in Hw. invert_bind Hw as rows Hrows.
    injection Hw as Hw. destruct rows; [assumption | discriminate]. }
  assert (Hn : Qeq_bool (inject_Z (count g)) 0 = false)
    by (destruct g; [congruence | reflexivity]).
  split; [| split].
  - unfold win_rate_of. rewrite Hw. cbn. unfold rate, divide. rewrite Hn. cbn.
    f_equal. apply round2_zero. unfold Qdiv. now rewrite !Qmult_0_l.
  - unfold roi_of. rewrite (no_winner_rows _ Hnone). cbn.
    rewrite sum_zeros. unfold divide. rewrite Hn. cbn.
    f_equal. apply round2_zero. unfold Qdiv. now rewrite !Qmult_0_l.
  - unfold avg_win_odds_of. now rewrite Hnone.
Qed.

(** X16. A returned row without a win has win rate 0, [roi] 0, rank D
    and no average winning odds (NULL). *)
Theorem group_without_winner :
  (forall jockey_code years_range min_races current_year table out r,
     Jockey.select jockey_code years_range min_races current_year table = Ok out ->
     In r out -> Jockey.wins r = 0 ->
     Jockey.win_rate r = 0%Q /\ Jockey.roi r = 0%Q /\ Jockey.roi_rank r = D
     /\ Jockey.avg_win_odds r = None)
  /\ (forall sire min_horses min_races table out r,
        Sire.select sire min_horses min_races table = Ok out ->
        In r out -> Sire.wins r = 0 ->
        Sire.win_rate r = 0%Q /\ Sire.roi r = 0%Q /\ Sire.roi_rank r = D
        /\ Sire.avg_win_odds r = None).
Proof.
  split.
  - intros * Hout Hin Hwins.
    destruct (jockey_row_source _ _ _ _ _ _ _ Hout Hin) as (_ & c & g & Hagg & _ & Hne & _).
    destruct (jockey_aggregate_shape _ _ _ _ _ _ Hagg)
      as (w & t & wr & tr & awo & roi & Hw & Ht & Hwr & Htr & Hawo & Hroi & Hr).
    rewrite Hr in Hwins |- *. change (w = 0) in Hwins. subst w. cbn.
    destruct (no_winner_group g Hw Hne) as (Hwr0 & Hroi0 & Hawo0).
    rewrite Hwr0 in Hwr. rewrite Hroi0 in Hroi. rewrite Hawo0 in Hawo.
    injection Hwr as <-. injection Hroi as <-. injection Hawo as <-.
    repeat split.
  - intros * Hout Hin Hwins.
    destruct (sire_row_source _ _ _ _ _ _ Hout Hin) as (_ & cond & g & Hagg & _ & Hne & _).
    destruct (sire_aggregate_shape _ _ _ _ _ _ Hagg)
      as (w & wr & pops & awo & roi & Hw & Hwr & _ & Hawo & Hroi & Hr).
    rewrite Hr in Hwins |- *. change (w = 0) in Hwins. subst w. cbn.
    destruct (no_winner_group g Hw Hne) as (Hwr0 & Hroi0 & Hawo0).
    rewrite Hwr0 in Hwr. rewrite Hroi0 in Hroi. rewrite Hawo0 in Hawo.
    injection Hwr as <-. injection Hroi as <-. injection Hawo as <-.
    repeat split.
Qed.

Lemma group_without_winner_witness :
  Jockey.win_rate runner_up_course = 0%Q /\ Jockey.roi runner_up_course = 0%Q
  /\ Jockey.roi_rank runner_up_course = D
  /\ Jockey.avg_win_odds runner_up_course = None.
Proof.
  apply (proj1 group_without_winner "01234" 5 1 2021 runner_up [runner_up_course]).
  - vm_compute. reflexivity.
  - left. reflexivity.
  - reflexivity.
Defined.

End StatementColumns.

(** ** Where the rows come from *)

Module StatementSources.

Import Sql Samples Cases Aggregates StatementRows.

(** X17. Every row of the jockey statement is for the jockey asked for,
    carries one of the three distance categories, and counts a non-empty
    group of table rows: finished rides of that jockey at the row's
    course, track type and distance category, from the year
    [current_year - years_range] on. *)
Theorem jockey_rows_come_from_the_table
    jockey_code years_range min_races current_year table out r :
  Jockey.select jockey_code years_range min_races current_year table = Ok out ->
  In r out ->
  Jockey.kishu_code r = jockey_code
  /\ In (Jockey.distance_category r) ["短距離"; "中距離"; "長距離"]
  /\ exists g,
       g <> [] /\ Jockey.total_races r = count g
       /\ forall e, In e g ->
            In e table /\ finished e = true
            /\ s_kishu_code e = jockey_code
            /\ s_keibajo_code e = Jockey.keibajo_code r
            /\ first_char (r_track_code e) = Jockey.track_type r
            /\ Jockey.category e = Ok (Jockey.distance_category r)
            /\ exists year,
                 cast_integer (s_kaisai_nen e) = Ok year
                 /\ current_year - years_range <= year.
Proof.
  intros Hout Hin.
  destruct (jockey_row_source _ _ _ _ _ _ _ Hout Hin)
    as (_ & c & g & Hagg & -> & Hne & Hrows).
  assert (Hrow : forall e, In e g ->
            In e table /\ finished e = true
            /\ s_kishu_code e = jockey_code
            /\ s_keibajo_code e = Jockey.keibajo_code r
            /\ first_char (r_track_code e) = Jockey.track_type r
            /\ Jockey.category e = Ok (Jockey.distance_category r)
            /\ exists year,
                 cast_integer (s_kaisai_nen e) = Ok year
                 /\ current_year - years_range <= year).
  { intros e He. destruct (Hrows e He) as (Htable & Hcond & Hkey).
    unfold Jockey.condition in Hcond.
    destruct (String.eqb_spec (s_kishu_code e) jockey_code) as [Hjockey |];
      [| discriminate]. cbn [negb] in Hcond.
    invert_bind Hcond as year Hyear. injection Hcond as Hcond.
    apply andb_prop in Hcond as [Hcut Hfin]. apply Z.leb_le in Hcut.
    unfold Jockey.group_key in Hkey. invert_bind Hkey as cat Hcat.
    injection Hkey as Hk1 Hk2 Hk3 Hk4. subst cat.
    repeat split; eauto. }
  destruct (jockey_aggregate_shape _ _ _ _ _ _ Hagg)
    as (w & t & wr & tr & awo & roi & _ & _ & _ & _ & _ & _ & Hr).
  destruct g as [| e g]; [congruence |].
  destruct (Hrow e (or_introl eq_refl)) as (_ & _ & Hjockey & _ & _ & Hcat & _).
  destruct (Hrows e (or_introl eq_refl)) as (_ & _ & Hkey).
  unfold Jockey.group_key in Hkey. invert_bind Hkey as cat Hcat'.
  injection Hkey as Hk1 _ _ _.
  split; [congruence | split].
  - unfold Jockey.category in Hcat. invert_bind Hcat as kyori Hkyori.
    injection Hcat as <-.
    destruct (kyori <=? 1400); [now left |].
    destruct (kyori <=? 2000); [right; now left | right; right; now left].
  - exists (e :: g). split; [discriminate | split; [| exact Hrow]].
    rewrite Hr. reflexivity.
Qed.

Lemma jockey_rows_come_from_the_table_witness :
  Jockey.kishu_code three_rows_course = "01234"
  /\ In (Jockey.distance_category three_rows_course) ["短距離"; "中距離"; "長距離"]
  /\ exists g,
       g <> [] /\ Jockey.total_races three_rows_course = count g
       /\ forall e, In e g ->
            In e three_rows /\ finished e = true
            /\ s_kishu_code e = "01234"
            /\ s_keibajo_code e = Jockey.keibajo_code three_rows_course
            /\ first_char (r_track_code e) = Jockey.track_type three_rows_course
            /\ Jockey.category e = Ok (Jockey.distance_category three_rows_course)
            /\ exists year,
                 cast_integer (s_kaisai_nen e) = Ok year
                 /\ 2021 - 5 <= year.
Proof.
  apply (jockey_rows_come_from_the_table "01234" 5 1 2021 three_rows
           [three_rows_course]).
  - vm_compute. reflexivity.
  - left. reflexivity.
Defined.

(** X18. Every row of the sire statement is for the sire asked for, if
    one was, and counts a non-empty group of finished table rows with the
    row's sire id, trimmed sire name, track type and track condition;
    [horses_count] is the number of different horses in the group. *)
Theorem sire_rows_come_from_the_table sire min_horses min_races table out r :
  Sire.select sire min_horses min_races table = Ok out ->
  In r out ->
  (forall id, sire = Some id -> Sire.sire_id r = id)
  /\ exists g,
       g <> [] /\ Sire.total_races r = count g
       /\ Sire.horses_count r
          = Z.of_nat (length (remove_dups (map s_ketto_toroku_bango g)))
       /\ forall e, In e g ->
            In e table /\ finished e = true
            /\ u_ketto_joho_01a e = Sire.sire_id r
            /\ trim (u_ketto_joho_01b e) = Sire.sire_name r
            /\ first_char (r_track_code e) = Sire.track_type r
            /\ Sire.condition_name (baba_jotai e) = Sire.track_condition r.
Proof.
  intros Hout Hin.
  destruct (sire_row_source _ _ _ _ _ _ Hout Hin)
    as (_ & cond & g & Hagg & Hcond & Hne & Hrows).
  assert (Hrow : forall e, In e g ->
            (forall id, sire = Some id -> u_ketto_joho_01a e = id)
            /\ In e table /\ finished e = true
            /\ u_ketto_joho_01a e = Sire.sire_id r
            /\ trim (u_ketto_joho_01b e) = Sire.sire_name r
            /\ first_char (r_track_code e) = Sire.track_type r
            /\ Sire.condition_name (baba_jotai e) = Sire.track_condition r).
  { intros e He. destruct (Hrows e He) as (Htable & Hwhere & Hkey).
    unfold Sire.condition in Hwhere. injection Hwhere as Hwhere.
    apply andb_prop in Hwhere as [Hfin Hsire].
    unfold Sire.group_key in Hkey. injection Hkey as Hk1 Hk2 Hk3 Hk4.
    rewrite Hcond, <- Hk4.
    repeat split; auto.
    intros id ->. now apply String.eqb_eq. }
  destruct (sire_aggregate_shape _ _ _ _ _ _ Hagg)
    as (w & wr & pops & awo & roi & _ & _ & _ & _ & _ & Hr).
  split.
  - intros id Hid. destruct g as [| e g]; [congruence |].
    destruct (Hrow e (or_introl eq_refl)) as (Hsire & _ & _ & <- & _).
    now apply Hsire.
  - exists g. split; [exact Hne | split; [| split]].
    + rewrite Hr. reflexivity.
    + rewrite Hr. reflexivity.
    + intros e He. now destruct (Hrow e He) as (_ & ?).
Qed.

Lemma sire_rows_come_from_the_table_witness :
  (forall id, Some "0000123456" = Some id -> Sire.sire_id three_rows_sire = id)
  /\ exists g,
       g <> [] /\ Sire.total_races three_rows_sire = count g
       /\ Sire.horses_count three_rows_sire
          = Z.of_nat (length (remove_dups (map s_ketto_toroku_bango g)))
       /\ forall e, In e g ->
            In e three_rows /\ finished e = true
            /\ u_ketto_joho_01a e = Sire.sire_id three_rows_sire
            /\ trim (u_ketto_joho_01b e) = Sire.sire_name three_rows_sire
            /\ first_char (r_track_code e) = Sire.track_type three_rows_sire
            /\ Sire.condition_name (baba_jotai e)
               = Sire.track_condition three_rows_sire.
Proof.
  apply (sire_rows_come_from_the_table (Some "0000123456") 1 1 three_rows
           [three_rows_sire]).
  - vm_compute. reflexivity.
  - left. reflexivity.
Defined.

End StatementSources.

(** ** One row per group *)

Module StatementShape.

Import Sql Samples Cases Views Aggregates StatementRows.

Lemma insert_desc_permutation {R} (key : R -> Q) x l :
  insert_desc key x l ≡ₚ x :: l.
Proof.
  induction l as [| y l IH]; cbn [insert_desc]; [reflexivity |].
  destruct (Qle_bool (key y) (key x)); [reflexivity |].
  rewrite IH. apply Permutation_swap.
Qed.

Lemma order_by_desc_permutation {R} (key : R -> Q) l :
  order_by_desc key l ≡ₚ l.
Proof.
  induction l as [| x l IH]; cbn; [reflexivity |].
  now rewrite insert_desc_permutation, IH.
Qed.

Lemma NoDup_map_filter {T U} `{EqDecision U} (f : T -> U) (keep : T -> bool) l :
  NoDup (map f l) -> NoDup (map f (List.filter keep l)).
Proof.
  induction l as [| x l IH]; cbn; [trivial |].
  intros Hnd. apply NoDup_cons in Hnd as [Hx Hnd].
  destruct (keep x); cbn; [| now apply IH].
  apply NoDup_cons. split; [| now apply IH].
  intros Hin. apply Hx. apply list_elem_of_In, in_map_iff in Hin as (y & Hy & Hin).
  apply filter_In in Hin as [Hin _]. apply list_elem_of_In, in_map_iff. eauto.
Qed.

Lemma jockey_groups_keys groups rows :
  traverse Jockey.aggregate groups = Ok rows ->
  map jockey_key rows = map fst groups.
Proof.
  revert rows. induction groups as [| [[[[kishu keibajo] track] dist] g] groups IH];
    intros rows H.
  - now injection H as <-.
  - cbn [traverse] in H. invert_bind H as r Hr. invert_bind H as rest Hrest.
    injection H as <-. cbn [map]. rewrite (IH _ Hrest). f_equal.
    destruct (jockey_aggregate_shape _ _ _ _ _ _ Hr)
      as (w & t & wr & tr & awo & roi & _ & _ & _ & _ & _ & _ & ->).
    reflexivity.
Qed.

Lemma group_by_keys {K} `{EqDecision K} (keyed : list (K * entry)) :
  NoDup (map fst (group_by keyed)).
Proof.
  unfold group_by. rewrite map_map. cbn. rewrite map_id. apply NoDup_remove_dups.
Qed.

(** X19. The jockey statement returns at most one row for each
    combination of jockey, course, track type and distance category. *)
Theorem one_row_per_course jockey_code years_range min_races current_year table out :
  Jockey.select jockey_code years_range min_races current_year table = Ok out ->
  NoDup (map jockey_key out).
Proof.
  unfold Jockey.select. intros H.
  invert_bind H as rows Hrows. invert_bind H as keyed Hkeyed.
  invert_bind H as groups Hgroups. injection H as <-.
  rewrite (order_by_desc_permutation Jockey.roi).
  apply NoDup_map_filter. rewrite (jockey_groups_keys _ _ Hgroups).
  apply group_by_keys.
Qed.

Lemma one_row_per_course_witness : NoDup (map jockey_key two_courses_stats).
Proof.
  apply (one_row_per_course "01234" 5 1 2021 two_courses two_courses_stats).
  vm_compute. reflexivity.
Defined.

End StatementShape.

(** ** Previous races *)

Module PreviousRaces.

Import Sql Samples Cases Aggregates StatementRows Extraction.

Lemma compare_append a b x y :
  String.length a = String.length b ->
  String.compare (a +:+ x) (b +:+ y)
  = match String.compare a b with
    | Eq => String.compare x y
    | c => c
    end.
Proof.
  revert b. induction a as [| c a IH]; intros [| d b] Hlen; try discriminate.
  - reflexivity.
  - rewrite !TextFacts.append_cons. cbn [String.compare].
    destruct (Ascii.compare c d); try reflexivity.
    apply IH. now injection Hlen.
Qed.

Lemma compare_refl s : String.compare s s = Eq.
Proof.
  induction s as [| c s IH]; cbn; [reflexivity |].
  unfold Ascii.compare. now rewrite N.compare_refl.
Qed.

(** The date condition, read on the concatenated date. *)
Lemma on_or_before nen tsukihi year date :
  String.length nen = String.length year ->
  String.ltb nen year || (String.eqb nen year && String.leb tsukihi date) = true ->
  String.leb (nen +:+ tsukihi) (year +:+ date) = true.
Proof.
  intros Hlen Hcond. unfold String.leb. rewrite compare_append by assumption.
  apply orb_prop in Hcond as [Hlt | Heq].
  - unfold String.ltb in Hlt. now destruct (String.compare nen year).
  - apply andb_prop in Heq as [Heq Hle]. apply String.eqb_eq in Heq as ->.
    now rewrite compare_refl.
Qed.

Lemma insert_asc_in x y l : In y (Previous.insert_asc x l) <-> y = x \/ In y l.
Proof.
  induction l as [| z l IH]; cbn; [intuition |].
  destruct (Previous.before x z); cbn; rewrite ?IH; intuition.
Qed.

Lemma sorted_rows_in y l :
  In y (fold_right Previous.insert_asc [] l) <-> In y l.
Proof.
  induction l as [| x l IH]; cbn; [reflexivity |].
  rewrite insert_asc_in, IH. intuition.
Qed.

Lemma previous_row_source horse_id upto table out r :
  Previous.select horse_id upto table = Ok out ->
  In r out ->
  exists e,
    In e table /\ Previous.condition horse_id upto e = Ok true
    /\ Previous.project e = Ok r.
Proof.
  unfold Previous.select. intros H Hin. invert_bind H as rows Hrows.
  destruct (traverse_in _ _ _ _ H Hin) as (e & He & Hproject).
  apply (proj1 (sorted_rows_in _ _)) in He. destruct (where_in _ _ _ _ Hrows He). eauto.
Qed.

(** X20. With the binding [get_horse_previous_races] makes from a date
    whose year, its first four characters, takes four bytes, as the
    years of the table do, every row the statement returns is a finished
    run of the horse asked for, dated (year and day joined) on or before
    the date, in text order. *)
Theorem previous_races_on_or_before (horse_id race_date : string)
    (table : list entry) out r :
  String.length (slice_to_4 race_date) = 4%nat ->
  (forall e, In e table -> String.length (s_kaisai_nen e) = 4%nat) ->
  Previous.select horse_id
    (Some (slice_to_4 race_date, slice_from_4 race_date)) table = Ok out ->
  In r out ->
  String.leb (Previous.race_date r) race_date = true
  /\ exists e,
       In e table /\ s_ketto_toroku_bango e = horse_id /\ finished e = true
       /\ Previous.race_date r = s_kaisai_nen e +:+ s_kaisai_tsukihi e
       /\ cast_integer (s_kakutei_chakujun e) = Ok (Previous.chakujun r).
Proof.
  intros Hyear Hyears Hout Hin.
  destruct (previous_row_source _ _ _ _ _ Hout Hin) as (e & He & Hcond & Hproject).
  unfold Previous.condition in Hcond. injection Hcond as Hcond.
  apply andb_prop in Hcond as [Hcond Hupto].
  apply andb_prop in Hcond as [Hhorse Hfin]. apply String.eqb_eq in Hhorse.
  unfold Previous.project in Hproject.
  invert_bind Hproject as c Hc. invert_bind Hproject as t Ht.
  invert_bind Hproject as l Hl. invert_bind Hproject as p Hp.
  invert_bind Hproject as o Ho. injection Hproject as <-. cbn.
  split; [| exists e; auto 10].
  rewrite <- (BuilderKeys.slice_split race_date).
  apply on_or_before; [| exact Hupto].
  rewrite (Hyears e He). now symmetry.
Qed.

Lemma previous_races_on_or_before_witness :
  String.leb (Previous.race_date winner_previous) "20210105" = true
  /\ exists e,
       In e [starter "01" "30"] /\ s_ketto_toroku_bango e = "1234567890"
       /\ finished e = true
       /\ Previous.race_date winner_previous
          = s_kaisai_nen e +:+ s_kaisai_tsukihi e
       /\ cast_integer (s_kakutei_chakujun e)
          = Ok (Previous.chakujun winner_previous).
Proof.
  apply (previous_races_on_or_before "1234567890" "20210105"
           [starter "01" "30"] [winner_previous]).
  - reflexivity.
  - intros e [<- | []]. reflexivity.
  - vm_compute. reflexivity.
  - left. reflexivity.
Defined.

End PreviousRaces.

(** ** Identifiers *)

Module FeatureIdentifiers.

Import Py Sql Samples Views Aggregates Features.

Lemma getitem_ok row key v : getitem row key = Ok v <-> row !! key = Some v.
Proof.
  unfold getitem. destruct (row !! key); split; intros H; congruence.
Qed.

Lemma create_race_id_cells row id :
  create_race_id row = Ok id ->
  exists nen tsukihi keibajo bango,
    row !! "kaisai_nen" = Some nen /\ row !! "kaisai_tsukihi" = Some tsukihi
    /\ row !! "keibajo_code" = Some keibajo /\ row !! "race_bango" = Some bango
    /\ id = str nen +:+ str tsukihi +:+ str keibajo +:+ str bango.
Proof.
  unfold create_race_id. intros H.
  invert_bind H as nen Hnen. invert_bind H as tsukihi Htsukihi.
  invert_bind H as keibajo Hkeibajo. invert_bind H as bango Hbango.
  injection H as <-. apply getitem_ok in Hnen, Htsukihi, Hkeibajo, Hbango.
  eauto 10.
Qed.

(** X21. Two rows whose year, day and course cells print at the same
    widths get the same race id only if their year, day, course and race
    number cells print the same. *)
Theorem race_id_identifies_the_race (row1 row2 : Series) (id : string) :
  (forall key, In key ["kaisai_nen"; "kaisai_tsukihi"; "keibajo_code"] ->
     String.length <$> (str <$> row1 !! key)
     = String.length <$> (str <$> row2 !! key)) ->
  create_race_id row1 = Ok id ->
  create_race_id row2 = Ok id ->
  forall key,
    In key ["kaisai_nen"; "kaisai_tsukihi"; "keibajo_code"; "race_bango"] ->
    str <$> row1 !! key = str <$> row2 !! key.
Proof.
  intros Hwidth H1 H2.
  destruct (create_race_id_cells _ _ H1) as (n1 & t1 & k1 & b1 & Hn1 & Ht1 & Hk1 & Hb1 & ->).
  destruct (create_race_id_cells _ _ H2) as (n2 & t2 & k2 & b2 & Hn2 & Ht2 & Hk2 & Hb2 & Hid).
  pose proof (Hwidth "kaisai_nen" ltac:(now left)) as Wn.
  pose proof (Hwidth "kaisai_tsukihi" ltac:(right; now left)) as Wt.
  pose proof (Hwidth "keibajo_code" ltac:(right; right; now left)) as Wk.
  rewrite Hn1, Hn2 in Wn. rewrite Ht1, Ht2 in Wt. rewrite Hk1, Hk2 in Wk.
  cbn in Wn, Wt, Wk. injection Wn as Wn. injection Wt as Wt. injection Wk as Wk.
  apply TextFacts.append_inj_length in Hid as [En Hid]; [| congruence].
  apply TextFacts.append_inj_length in Hid as [Et Hid]; [| congruence].
  apply TextFacts.append_inj_length in Hid as [Ek Eb]; [| congruence].
  intros key [<- | [<- | [<- | [<- | []]]]].
  - rewrite Hn1, Hn2. cbn. congruence.
  - rewrite Ht1, Ht2. cbn. congruence.
  - rewrite Hk1, Hk2. cbn. congruence.
  - rewrite Hb1, Hb2. cbn. congruence.
Qed.

Lemma race_id_identifies_the_race_witness :
  str <$> race_horse_row (starter "01" "30") !! "race_bango"
  = str <$> race_horse_row (starter "02" "120") !! "race_bango".
Proof.
  apply (race_id_identifies_the_race (race_horse_row (starter "01" "30"))
           (race_horse_row (starter "02" "120")) "202101010512").
  - intros key [<- | [<- | [<- | []]]]; reflexivity.
  - reflexivity.
  - reflexivity.
  - right; right; right; left; reflexivity.
Defined.

(** X22. [create_horse_race_id] fails exactly when one of the five cells
    it reads is missing, with [KeyError] for the first missing one in
    reading order (the four cells of the race id, then the horse); with
    all five present it is the race id, an underscore and the horse. *)
Theorem horse_race_id_reports_first_missing_cell (row : Series) :
  match List.find (fun key => bool_decide (row !! key = None)) horse_race_id_keys with
  | Some key => create_horse_race_id row = Err (KeyError key)
  | None =>
      exists race_id horse,
        create_race_id row = Ok race_id
        /\ row !! "ketto_toroku_bango" = Some horse
        /\ create_horse_race_id row = Ok (race_id +:+ "_" +:+ str horse)
  end.
Proof.
  unfold horse_race_id_keys, create_horse_race_id, create_race_id, getitem.
  cbn [List.find].
  destruct (row !! "kaisai_nen") as [nen |] eqn:Hnen; cbn; [| reflexivity].
  destruct (row !! "kaisai_tsukihi") as [tsukihi |] eqn:Htsukihi; cbn; [| reflexivity].
  destruct (row !! "keibajo_code") as [keibajo |] eqn:Hkeibajo; cbn; [| reflexivity].
  destruct (row !! "race_bango") as [bango |] eqn:Hbango; cbn; [| reflexivity].
  destruct (row !! "ketto_toroku_bango") as [horse |] eqn:Hhorse; cbn; [| reflexivity].
  eauto.
Qed.

End FeatureIdentifiers.

(** ** Frames and groups *)

Module FeatureFrames.

Import Py Sql Samples Cases Views Aggregates Features.

Lemma suffix_differs (s t : string) : t <> "" -> s +:+ t <> s.
Proof.
  intros Ht H. apply (f_equal String.length) in H.
  rewrite <- !TextFacts.chars_length, TextFacts.chars_append, length_app,
    !TextFacts.chars_length in H.
  destruct t; [congruence | cbn in H; lia].
Qed.

Section Normalize.

Variables column_mean column_std : list float -> float.

(** X23. A successful [normalize_numeric] changes nothing but the column
    named [column + "_norm"]: every other column, the normalised column
    itself among them, is as before. Under ['min_max'] and ['standard']
    the new column has as many entries as the source column; under any
    other method the frame is returned as it was. *)
Theorem normalize_numeric_adds_one_column
    (df out : gmap string (list float)) (column method : string) :
  normalize_numeric column_mean column_std df column method = Ok out ->
  (forall name, name <> column +:+ "_norm" -> out !! name = df !! name)
  /\ out !! column = df !! column
  /\ (method = "min_max" \/ method = "standard" ->
      exists xs ys,
        df !! column = Some xs /\ out !! (column +:+ "_norm") = Some ys
        /\ length ys = length xs)
  /\ (method <> "min_max" -> method <> "standard" -> out = df).
Proof.
  unfold normalize_numeric. intros H.
  assert (Hcol : column <> column +:+ "_norm").
  { intros Heq. now apply (suffix_differs column "_norm"). }
  destruct (String.eqb_spec method "min_max") as [Hm | Hmm].
  - destruct (df !! column) as [xs |] eqn:Hxs; [| discriminate].
    injection H as <-. repeat split.
    + intros name Hname. now rewrite lookup_insert_ne.
    + now rewrite lookup_insert_ne.
    + intros _. eexists _, _. split; [reflexivity |].
      rewrite lookup_insert_eq. split; [reflexivity |]. now rewrite length_map.
    + congruence.
  - destruct (String.eqb_spec method "standard") as [Hs | Hst].
    + destruct (df !! column) as [xs |] eqn:Hxs; [| discriminate].
      injection H as <-. repeat split.
      * intros name Hname. now rewrite lookup_insert_ne.
      * now rewrite lookup_insert_ne.
      * intros _. eexists _, _. split; [reflexivity |].
        rewrite lookup_insert_eq. split; [reflexivity |]. now rewrite length_map.
      * congruence.
    + injection H as <-.
      split; [reflexivity | split; [reflexivity | split; [| reflexivity]]].
      intros [? | ?]; congruence.
Qed.

End Normalize.

Lemma iterrows_same_stake float_of_text g1 g2 total :
  Forall2 same_stake g1 g2 ->
  iterrows float_of_text g1 total = iterrows float_of_text g2 total.
Proof.
  intros H. revert total. induction H as [| r1 r2 g1 g2 [Hpos Hodds] _ IH];
    intros total; [reflexivity |].
  cbn [iterrows]. unfold getitem. rewrite <- Hpos.
  destruct (r1 !! "kakutei_chakujun") as [v |] eqn:Hv; cbn; [| reflexivity].
  destruct (is_first v) eqn:Hfirst; [| apply IH].
  rewrite <- (Hodds v eq_refl Hfirst).
  destruct (r1 !! "tansho_odds") as [o |]; cbn; [| reflexivity].
  destruct (py_float float_of_text o); cbn; [apply IH | reflexivity].
Qed.

Lemma normalize_numeric_adds_one_column_witness :
  (<["odds_norm" := [0; 0.5; 1]%float]> {[ "odds" := [10; 15; 20]%float ]}
     : gmap string (list float)) !! "odds"
  = ({[ "odds" := [10; 15; 20]%float ]} : gmap string (list float)) !! "odds".
Proof.
  exact (proj1 (proj2 (normalize_numeric_adds_one_column
                         (fun _ => 15%float) (fun _ => 5%float)
                         {[ "odds" := [10; 15; 20]%float ]}
                         (<["odds_norm" := [0; 0.5; 1]%float]>
                            {[ "odds" := [10; 15; 20]%float ]})
                         "odds" "min_max" eq_refl))).
Defined.

(** X24. [calculate_roi] and [calculate_win_rate] read nothing of a group
    but the finishing cells and the odds cells of the winners: two groups
    that agree on those, row by row, get the same result, value or
    exception, whatever [float] makes of a text. The odds of a loser may
    be missing or unreadable. *)
Theorem roi_reads_only_positions_and_winner_odds
    (float_of_text : string -> result float) (group1 group2 : DataFrame) :
  Forall2 same_stake group1 group2 ->
  calculate_roi float_of_text group1 = calculate_roi float_of_text group2
  /\ calculate_win_rate group1 = calculate_win_rate group2.
Proof.
  intros H. pose proof (Forall2_length _ _ _ H) as Hlen.
  split.
  - unfold calculate_roi. rewrite (iterrows_same_stake _ _ _ _ H).
    destruct H; [reflexivity |]. now rewrite Hlen.
  - unfold calculate_win_rate.
    assert (Hcol : traverse (fun row => getitem row "kakutei_chakujun") group1
                   = traverse (fun row => getitem row "kakutei_chakujun") group2).
    { clear Hlen. induction H as [| r1 r2 g1 g2 [Hpos _] _ IH]; [reflexivity |].
      assert (Hget : getitem r1 "kakutei_chakujun" = getitem r2 "kakutei_chakujun")
        by (unfold getitem; now rewrite Hpos).
      cbn [traverse]. cbv beta. now rewrite Hget, IH. }
    destruct H; [reflexivity |]. now rewrite Hcol, Hlen.
Qed.

Lemma roi_reads_only_positions_and_winner_odds_witness :
  calculate_roi float_of_digits three_rows_frame
  = calculate_roi float_of_digits three_rows_blurred
  /\ calculate_win_rate three_rows_frame = calculate_win_rate three_rows_blurred.
Proof.
  apply (roi_reads_only_positions_and_winner_odds float_of_digits
           three_rows_frame three_rows_blurred).
  repeat constructor; intros v Hv Hfirst; vm_compute in Hv;
    injection Hv as <-; discriminate Hfirst.
Defined.

End FeatureFrames.

(** ** The analysis script *)

Module AnalysisScript.

Import Py Database Script Views Cases Samples.

Section WithEngine.

Variable engine : string -> gmap string value -> result DataFrame.
Variable here : string.
Variable root : string.
Variable locate : string -> option string.
Variable plot : string -> DataFrame -> result unit.

Abbreviation cache a := (cache_file here locate a).
Abbreviation picture a := (figure_file root locate a).
Abbreviation stored a w := (kept locate (cache_path here (cache_name a)) w).

(** Every case of one block at once. *)
Lemma analyse_cases a w :
  analyse engine here root locate plot a w =
    let w1 := World (files w) (executed w ++ [sent a]) in
    let draw table w2 :=
      match plot (figure a) table with
      | Ok _ =>
          match picture a with
          | Some f => (Ok tt, World (<[f := Unreadable]> (files w2)) (executed w2))
          | None => (Err OSError, w2)
          end
      | Err e => (Err e, w2)
      end in
    match stored a w with
    | Some (Pickled table) => draw table w
    | Some Unreadable => (Err DeserializationError, w)
    | None =>
        match engine (statement a) ∅ with
        | Ok table =>
            match cache a with
            | Some f =>
                draw table (World (<[f := Pickled table]> (files w)) (executed w1))
            | None => (Err OSError, w1)
            end
        | Err e => (Err e, w1)
        end
    end.
Proof.
  unfold analyse, savefig, figure_file, cache_file.
  rewrite CacheFiles.query_with_cache_cases. cbn [bound]. cbn zeta.
  destruct (stored a w) as [[table |] |]; try reflexivity.
  destruct (engine (statement a) ∅) as [table | e]; [| reflexivity].
  now destruct (locate (cache_path here (cache_name a))).
Qed.

Lemma analyse_settled a w :
  settled here locate plot w a -> drawn root locate w a ->
  analyse engine here root locate plot a w = (Ok tt, w).
Proof.
  intros (table & Hfile & Hplot) (f & Hf & Hdrawn).
  rewrite analyse_cases. cbn zeta. rewrite Hfile, Hplot, Hf.
  rewrite insert_id by exact Hdrawn. now destruct w.
Qed.

(** What one block does to the world, whatever its outcome. *)
Lemma analyse_effect a w r w1 :
  analyse engine here root locate plot a w = (r, w1) ->
  (forall f, cache a <> Some f -> picture a <> Some f ->
     files w1 !! f = files w !! f)
  /\ (forall f, cache a <> Some f -> files w !! f = Some Unreadable ->
        files w1 !! f = Some Unreadable)
  /\ ((executed w1 = executed w /\ stored a w <> None)
      \/ (executed w1 = executed w ++ [sent a] /\ stored a w = None))
  /\ (forall u, r = Ok u ->
        (forall f, cache a = Some f -> picture a <> Some f) ->
        settled here locate plot w1 a /\ drawn root locate w1 a).
Proof.
  rewrite analyse_cases. cbn zeta. intros H.
  assert (Hdraw : forall table w2,
            match plot (figure a) table with
            | Ok _ =>
                match picture a with
                | Some f =>
                    (Ok tt, World (<[f := Unreadable]> (files w2)) (executed w2))
                | None => (Err OSError, w2)
                end
            | Err e => (Err e, w2)
            end = (r, w1) ->
            (forall f, picture a <> Some f -> files w1 !! f = files w2 !! f)
            /\ (forall f, files w2 !! f = Some Unreadable ->
                  files w1 !! f = Some Unreadable)
            /\ executed w1 = executed w2
            /\ (forall u, r = Ok u ->
                  plot (figure a) table = Ok tt
                  /\ drawn root locate w1 a
                  /\ forall f, picture a <> Some f ->
                       files w1 !! f = files w2 !! f)).
  { intros table w2 Hd.
    destruct (plot (figure a) table) as [[] |] eqn:Hplot.
    - destruct (picture a) as [p |] eqn:Hp; injection Hd as <- <-; cbn.
      + split; [| split; [| split; [reflexivity |]]].
        * intros f Hf. apply lookup_insert_ne. congruence.
        * intros f Hf. destruct (decide (p = f)) as [-> | Hne];
            [apply lookup_insert_eq | now rewrite lookup_insert_ne].
        * intros u _. split; [reflexivity | split].
          -- exists p. split; [exact Hp | apply lookup_insert_eq].
          -- intros f Hf. apply lookup_insert_ne. congruence.
      + split; [auto | split; [auto | split; [reflexivity | discriminate]]].
    - injection Hd as <- <-.
      split; [auto | split; [auto | split; [reflexivity | discriminate]]]. }
  destruct (stored a w) as [[table |] |] eqn:Hfile.
  - destruct (Hdraw _ _ H) as (Hothers & Hkeeps & Hlog & Hok).
    split; [auto | split; [auto | split; [left; split; congruence |]]].
    intros u Hu Hapart. destruct (Hok u Hu) as (Hplot & Hdrawn & Hsame).
    split; [| exact Hdrawn]. exists table. split; [| exact Hplot].
    unfold kept in Hfile |- *.
    destruct (locate (cache_path here (cache_name a))) as [c |] eqn:Hc;
      [| discriminate].
    cbn in *. rewrite Hsame; [exact Hfile | now apply Hapart].
  - injection H as <- <-.
    split; [auto | split; [auto | split; [left; split; congruence |]]].
    discriminate.
  - destruct (engine (statement a) ∅) as [table | e].
    + destruct (cache a) as [c |] eqn:Hc.
      * destruct (Hdraw _ _ H) as (Hothers & Hkeeps & Hlog & Hok).
        cbn [files executed] in *.
        split; [| split; [| split; [right; auto |]]].
        -- intros f Hf Hp. rewrite (Hothers f Hp).
           apply lookup_insert_ne. congruence.
        -- intros f Hf Hun. apply Hkeeps. rewrite lookup_insert_ne; congruence.
        -- intros u Hu Hapart. destruct (Hok u Hu) as (Hplot & Hdrawn & Hsame).
           split; [| exact Hdrawn]. exists table. split; [| exact Hplot].
           unfold kept. unfold cache_file in Hc. rewrite Hc. cbn.
           rewrite Hsame by now apply Hapart. apply lookup_insert_eq.
      * injection H as <- <-.
        split; [auto | split; [auto | split; [right; auto | discriminate]]].
    + injection H as <- <-.
      split; [auto | split; [auto | split; [right; auto | discriminate]]].
Qed.

Lemma run_settled steps w :
  Forall (fun a => settled here locate plot w a /\ drawn root locate w a) steps ->
  run engine here root locate plot steps w = (Ok tt, w).
Proof.
  induction 1 as [| a steps [Ha Hd] _ IH]; [reflexivity |].
  cbn [run]. now rewrite (analyse_settled a w Ha Hd).
Qed.

Lemma apart_tail a steps :
  apart here root locate (a :: steps) -> apart here root locate steps.
Proof.
  intros H b c f Hb Hc. apply H; now right.
Qed.

(** A saved figure stays through the blocks whose cache file is another
    file. *)
Lemma run_keeps_figures steps : forall w r w1,
  run engine here root locate plot steps w = (r, w1) ->
  forall f,
    (forall b, b ∈ steps -> cache b <> Some f) ->
    files w !! f = Some Unreadable ->
    files w1 !! f = Some Unreadable.
Proof.
  induction steps as [| b rest IH]; intros w r w1 H f Hf Hun.
  - now injection H as _ <-.
  - cbn [run] in H.
    destruct (analyse engine here root locate plot b w) as [rb wb] eqn:Hb.
    destruct (analyse_effect _ _ _ _ Hb) as (_ & Hk & _ & _).
    assert (Hwb : files wb !! f = Some Unreadable)
      by (apply Hk; [apply Hf; left | exact Hun]).
    destruct rb; [| now injection H as _ <-].
    apply (IH wb r w1 H f); [| exact Hwb].
    intros c Hc. apply Hf. now right.
Qed.

Lemma run_effect steps : forall w r w1,
  NoDup (map cache_name steps) ->
  run engine here root locate plot steps w = (r, w1) ->
  (forall f,
     (forall a, a ∈ steps -> cache a <> Some f /\ picture a <> Some f) ->
     files w1 !! f = files w !! f)
  /\ (exists asked,
        sublist asked steps
        /\ executed w1 = executed w ++ map sent asked
        /\ (apart here root locate steps ->
            Forall (fun a => stored a w = None) asked))
  /\ (forall u, r = Ok u ->
        apart here root locate steps ->
        Forall (fun a => settled here locate plot w1 a
                         /\ drawn root locate w1 a) steps).
Proof.
  induction steps as [| a steps IH]; intros w r w1 Hnodup H.
  - injection H as <- <-. split; [auto | split; [| auto]].
    exists []. split; [constructor | split; [| constructor]].
    cbn. now rewrite app_nil_r.
  - cbn [run] in H.
    destruct (analyse engine here root locate plot a w) as [ra wa] eqn:Ha.
    destruct (analyse_effect _ _ _ _ Ha) as (Hothers & Hkeeps & Hlog & Hsettled).
    cbn [map] in Hnodup. apply NoDup_cons in Hnodup as [Hfresh Hnodup].
    assert (Hlater : apart here root locate (a :: steps) ->
              forall b, b ∈ steps -> stored b wa = stored b w).
    { intros Hapart b Hb. unfold kept.
      destruct (locate (cache_path here (cache_name b))) as [c |] eqn:Hc;
        [| reflexivity].
      cbn. apply Hothers.
      - intros Hca.
        destruct (Hapart a b c ltac:(left) ltac:(now right) Hca) as [_ Hne].
        apply Hne; [| exact Hc].
        intros Heq. apply Hfresh. rewrite Heq.
        now apply (list_elem_of_fmap_2 cache_name).
      - exact (proj1 (Hapart b a c ltac:(now right) ltac:(left) Hc)). }
    destruct ra as [u | e].
    + destruct (IH _ _ _ Hnodup H)
        as (Hrest & (asked & Hsub & Hexec & Hmiss) & Hall).
      split; [| split].
      * intros f Hf. rewrite Hrest.
        -- apply Hothers; apply Hf; left.
        -- intros b Hb. apply Hf. now right.
      * assert (Hmiss' : apart here root locate (a :: steps) ->
                  Forall (fun b => stored b w = None) asked).
        { intros Hapart. specialize (Hmiss (apart_tail _ _ Hapart)).
          rewrite Forall_forall in Hmiss. apply Forall_forall. intros b Hb.
          rewrite <- (Hmiss b Hb). symmetry. apply (Hlater Hapart).
          eapply elem_of_sublist; [exact Hb | exact Hsub]. }
        destruct Hlog as [[Hlog _] | [Hlog Hnone]].
        -- exists asked. split; [now apply sublist_cons |].
           split; [congruence | exact Hmiss'].
        -- exists (a :: asked). split; [now apply sublist_skip |].
           split.
           ++ rewrite Hexec, Hlog. cbn [map]. now rewrite <- app_assoc.
           ++ intros Hapart. constructor; [exact Hnone | now apply Hmiss'].
      * intros u' Hu Hapart.
        assert (Hrest_ok := Hall u' Hu (apart_tail _ _ Hapart)).
        constructor; [| exact Hrest_ok].
        destruct (Hsettled u eq_refl) as [(table & Hfile & Hplot) (p & Hp & Hdrawn)].
        { intros f Hf. exact (proj1 (Hapart a a f ltac:(left) ltac:(left) Hf)). }
        assert (Hrun_keeps := run_keeps_figures steps wa (Ok u') w1).
        split.
        -- exists table. split; [| exact Hplot].
           unfold kept in Hfile |- *.
           destruct (locate (cache_path here (cache_name a))) as [c |] eqn:Hc;
             [| discriminate].
           cbn in *. rewrite Hrest; [exact Hfile |].
           intros b Hb.
           destruct (Hapart a b c ltac:(left) ltac:(now right) Hc) as [Hfig Hne].
           split; [| exact Hfig]. apply Hne.
           intros Heq. apply Hfresh. rewrite Heq.
           now apply (list_elem_of_fmap_2 cache_name).
        -- exists p. split; [exact Hp |].
           apply Hrun_keeps; [now subst r | | exact Hdrawn].
           intros b Hb Hcb.
           exact (proj1 (Hapart b a p ltac:(now right) ltac:(left) Hcb) Hp).
    + injection H as <- <-. split; [| split; [| discriminate]].
      * intros f Hf. apply Hothers; apply Hf; left.
      * destruct Hlog as [[Hlog _] | [Hlog Hnone]].
        -- exists []. split; [apply sublist_nil_l |].
           split; [cbn; now rewrite app_nil_r | constructor].
        -- exists [a]. split; [apply sublist_skip, sublist_nil_l |].
           split; [exact Hlog | intros _; now constructor].
Qed.

Lemma analyses_names : NoDup (map cache_name analyses).
Proof. apply (bool_decide_unpack _). vm_compute. reflexivity. Qed.

(** X25. After a run of [analyze_race_data] that ended without an
    exception, on a machine where the seven cache files are files of
    their own, a second run sends no statement to the database and
    changes no cache file: all seven tables come from the cache, and the
    only files written are the seven figures, saved again. *)
Theorem rerun_asks_nothing (w w1 : world) :
  apart here root locate analyses ->
  analyze_race_data engine here root locate plot w = (Ok tt, w1) ->
  analyze_race_data engine here root locate plot w1 = (Ok tt, w1).
Proof.
  unfold analyze_race_data. intros Hapart H.
  destruct (run_effect _ _ _ _ analyses_names H) as (_ & _ & Hall).
  apply run_settled. now apply (Hall tt).
Qed.

(** X26. Whatever its outcome, a run of [analyze_race_data] sends only
    statements of its seven blocks, in the order of the blocks and each
    at most once; on a machine where the seven cache files are files of
    their own, only for blocks with nothing stored for them when the run
    began. It changes no file but the seven cache files and the seven
    figures. *)
Theorem run_asks_only_for_missing_tables (w w1 : world) r :
  analyze_race_data engine here root locate plot w = (r, w1) ->
  (exists asked,
     sublist asked analyses
     /\ executed w1 = executed w ++ map sent asked
     /\ (apart here root locate analyses ->
         Forall (fun a => kept locate (cache_path here (cache_name a)) w = None)
           asked))
  /\ (forall f,
        (forall a, a ∈ analyses ->
           cache_file here locate a <> Some f
           /\ figure_file root locate a <> Some f) ->
        files w1 !! f = files w !! f).
Proof.
  unfold analyze_race_data. intros H.
  destruct (run_effect _ _ _ _ analyses_names H) as (Hothers & Hasked & _).
  split; assumption.
Qed.

End WithEngine.

Lemma desk_apart : apart "/repo/src/data" "/repo" desk analyses.
Proof.
  intros a b f Ha Hb. unfold analyses in Ha, Hb.
  repeat (apply elem_of_cons in Ha as [-> | Ha]);
    [.. | now apply elem_of_nil in Ha];
    (repeat (apply elem_of_cons in Hb as [-> | Hb]);
     [.. | now apply elem_of_nil in Hb]);
    vm_compute; intros [= <-]; split; intros; congruence.
Qed.

Lemma rerun_asks_nothing_witness :
  analyze_race_data empty_engine "/repo/src/data" "/repo" desk quiet_plot
    (snd (analyze_race_data empty_engine "/repo/src/data" "/repo" desk
            quiet_plot fresh))
  = (Ok tt,
     snd (analyze_race_data empty_engine "/repo/src/data" "/repo" desk
            quiet_plot fresh)).
Proof.
  apply (rerun_asks_nothing empty_engine "/repo/src/data" "/repo" desk
           quiet_plot fresh _ desk_apart).
  vm_compute. reflexivity.
Defined.

Lemma run_asks_only_for_missing_tables_witness :
  (exists asked,
     sublist asked analyses
     /\ executed (snd (analyze_race_data empty_engine "/repo/src/data" "/repo"
                         desk quiet_plot fresh))
        = executed fresh ++ map sent asked
     /\ (apart "/repo/src/data" "/repo" desk analyses ->
         Forall (fun a => kept desk (cache_path "/repo/src/data" (cache_name a))
                            fresh = None) asked))
  /\ (forall f,
        (forall a, a ∈ analyses ->
           cache_file "/repo/src/data" desk a <> Some f
           /\ figure_file "/repo" desk a <> Some f) ->
        files (snd (analyze_race_data empty_engine "/repo/src/data" "/repo"
                      desk quiet_plot fresh)) !! f
        = files fresh !! f).
Proof.
  apply (run_asks_only_for_missing_tables empty_engine "/repo/src/data" "/repo"
           desk quiet_plot fresh
           (snd (analyze_race_data empty_engine "/repo/src/data" "/repo" desk
                   quiet_plot fresh))
           (fst (analyze_race_data empty_engine "/repo/src/data" "/repo" desk
                   quiet_plot fresh))).
  vm_compute. reflexivity.
Defined.

End AnalysisScript.

(** ** Failed statements *)

Module FailedStatements.

Import Database Samples Cases.

Section WithEngine.

Variable engine : string -> gmap string value -> result DataFrame.
Variable here : string.
Variable locate : string -> option string.

(** X27. A statement that fails, on a miss or a forced refresh, makes
    [query_with_cache] fail with the same error; the statement is logged,
    no file is written or changed, and after a miss the next unforced
    call with that key asks the database again. *)
Theorem failed_statement_is_not_cached query key force params w e :
  engine query (bound params) = Err e ->
  force = true \/ kept locate (cache_path here key) w = None ->
  let failed := query_with_cache engine here locate query key force params w in
  fst failed = Err e
  /\ files (snd failed) = files w
  /\ executed (snd failed) = executed w ++ [(query, bound params)]
  /\ (kept locate (cache_path here key) w = None ->
      forall query' params',
        executed (snd (query_with_cache engine here locate query' key false
                         params' (snd failed)))
        = executed w ++ [(query, bound params); (query', bound params')]).
Proof.
  intros Herr Hmiss failed. subst failed.
  rewrite (CacheStore.query_with_cache_compute engine here locate query key
             force params w Hmiss).
  cbn zeta. rewrite Herr. cbn [fst snd files executed].
  split; [reflexivity | split; [reflexivity | split; [reflexivity |]]].
  intros Hnone query' params'.
  rewrite CacheStore.query_with_cache_compute by (right; exact Hnone).
  cbn zeta.
  destruct (engine query' (bound params')); [| cbn; now rewrite <- app_assoc].
  destruct (locate (cache_path here key)); cbn; now rewrite <- app_assoc.
Qed.

End WithEngine.

Lemma failed_statement_is_not_cached_witness :
  fst (query_with_cache refusing_engine "" desk "SELECT 1" "a" false None fresh)
  = Err (QueryError "connection refused")
  /\ files (snd (query_with_cache refusing_engine "" desk "SELECT 1" "a" false
                   None fresh))
     = files fresh.
Proof.
  exact (let H := failed_statement_is_not_cached
                    refusing_engine "" desk "SELECT 1" "a"
                    false None fresh (QueryError "connection refused") eq_refl
                    (or_intror eq_refl) in
         conj (proj1 H) (proj1 (proj2 H))).
Defined.

End FailedStatements.

(** ** Query rows as feature rows *)

Module QueryRows.

Import Sql Samples Features.

(** X28. On a row of [get_race_and_horse_data] neither id function
    raises: [create_race_id] joins the year, day, course and race
    number, and [create_horse_race_id] adds an underscore and the horse.
    Two rows whose year, day and course have the same widths get the
    same race id exactly when they agree on all four. *)
Theorem ids_of_query_rows (e1 e2 : entry) :
  create_race_id (race_horse_row e1)
  = Ok (s_kaisai_nen e1 +:+ s_kaisai_tsukihi e1 +:+ s_keibajo_code e1
          +:+ s_race_bango e1)
  /\ create_horse_race_id (race_horse_row e1)
     = Ok ((s_kaisai_nen e1 +:+ s_kaisai_tsukihi e1 +:+ s_keibajo_code e1
              +:+ s_race_bango e1) +:+ "_" +:+ s_ketto_toroku_bango e1)
  /\ (String.length (s_kaisai_nen e1) = String.length (s_kaisai_nen e2) ->
      String.length (s_kaisai_tsukihi e1) = String.length (s_kaisai_tsukihi e2) ->
      String.length (s_keibajo_code e1) = String.length (s_keibajo_code e2) ->
      (create_race_id (race_horse_row e1) = create_race_id (race_horse_row e2)
       <-> s_kaisai_nen e1 = s_kaisai_nen e2
           /\ s_kaisai_tsukihi e1 = s_kaisai_tsukihi e2
           /\ s_keibajo_code e1 = s_keibajo_code e2
           /\ s_race_bango e1 = s_race_bango e2)).
Proof.
  assert (Hid : forall e,
            create_race_id (race_horse_row e)
            = Ok (s_kaisai_nen e +:+ s_kaisai_tsukihi e +:+ s_keibajo_code e
                    +:+ s_race_bango e)) by reflexivity.
  split; [apply Hid | split; [reflexivity |]].
  intros Hn Ht Hk. rewrite !Hid. split.
  - intros [= Heq].
    apply TextFacts.append_inj_length in Heq as [En Heq]; [| assumption].
    apply TextFacts.append_inj_length in Heq as [Et Heq]; [| assumption].
    apply TextFacts.append_inj_length in Heq as [Ek Eb]; [| assumption].
    auto.
  - intros (-> & -> & -> & ->). reflexivity.
Qed.

Lemma ids_of_query_rows_witness :
  create_race_id (race_horse_row (starter "01" "30"))
  = create_race_id (race_horse_row (starter "02" "120"))
  <-> s_kaisai_nen (starter "01" "30") = s_kaisai_nen (starter "02" "120")
      /\ s_kaisai_tsukihi (starter "01" "30") = s_kaisai_tsukihi (starter "02" "120")
      /\ s_keibajo_code (starter "01" "30") = s_keibajo_code (starter "02" "120")
      /\ s_race_bango (starter "01" "30") = s_race_bango (starter "02" "120").
Proof.
  exact (proj2 (proj2 (ids_of_query_rows (starter "01" "30") (starter "02" "120")))
           eq_refl eq_refl eq_refl).
Defined.

End QueryRows.
